(** * Neutron DB base plugin (v2): address-management core

    A shallow embedding of [neutron/db/db_base_plugin_v2.py] and the proofs
    of the properties its specification states about subnetpool updates,
    address-scope association, the default-subnetpool rule, subnet
    validation, the shared-network check, port updates and subnet creation.

    Layout: the [netaddr] module models the third-party address library the
    plugin calls; the sections after it embed the plugin's functions; the
    theorems come last. *)

From Stdlib Require Import ZArith Lia Bool.
From stdpp Require Import base tactics option list strings gmap pretty sorting.

Local Open Scope Z_scope.

(** ** Python results: a value or a raised exception *)

Inductive result (E A : Type) : Type :=
| Ok (a : A)
| Raise (e : E).
Arguments Ok {E A} a.
Arguments Raise {E A} e.

#[export] Instance result_bind {E} : MBind (result E) := λ A B k m,
  match m with
  | Ok a => k a
  | Raise e => Raise e
  end.

#[export] Instance result_ret {E} : MRet (result E) := λ A a, Ok a.

(** ** netaddr: addresses, networks, ranges and address sets *)

Module netaddr.

Record IPAddress := mkAddr { a_version : Z; a_value : Z }.
Record IPNetwork := mkNet { n_version : Z; n_value : Z; n_prefixlen : Z }.
Record IPRange := mkRange { r_version : Z; r_first : Z; r_last : Z }.

#[export] Instance IPAddress_eq_dec : EqDecision IPAddress.
Proof. solve_decision. Defined.
#[export] Instance IPNetwork_eq_dec : EqDecision IPNetwork.
Proof. solve_decision. Defined.
#[export] Instance IPRange_eq_dec : EqDecision IPRange.
Proof. solve_decision. Defined.

(** Address width in bits of an IP version. *)
Definition width (v : Z) : Z := if v =? 4 then 32 else 128.

Definition hostbits (n : IPNetwork) : Z :=
  Z.max 0 (width (n_version n) - n_prefixlen n).

(** [IPNetwork.first]: the value with the host bits cleared. *)
Definition first (n : IPNetwork) : Z :=
  2 ^ hostbits n * (n_value n / 2 ^ hostbits n).

(** [IPNetwork.last]: the value with the host bits set. *)
Definition last (n : IPNetwork) : Z := first n + 2 ^ hostbits n - 1.

(** The same two ends as netaddr computes them, with the host mask:
    [value & (max_int ^ hostmask)] and [value | hostmask]. *)
Definition hostmask (n : IPNetwork) : Z :=
  Z.ones (width (n_version n) - n_prefixlen n).

Definition first_masked (n : IPNetwork) : Z :=
  Z.land (n_value n) (Z.lxor (Z.ones (width (n_version n))) (hostmask n)).

Definition last_masked (n : IPNetwork) : Z := Z.lor (n_value n) (hostmask n).

(** [IPNetwork.cidr]: the same block with the host bits of the value zeroed. *)
Definition cidr (n : IPNetwork) : IPNetwork :=
  mkNet (n_version n) (first n) (n_prefixlen n).

(** An object the [IPNetwork] constructor accepts. *)
Definition valid_network (n : IPNetwork) : bool :=
  ((n_version n =? 4) || (n_version n =? 6))
  && (0 <=? n_value n) && (n_value n <? 2 ^ width (n_version n))
  && (0 <=? n_prefixlen n) && (n_prefixlen n <=? width (n_version n)).

Definition range_of (n : IPNetwork) : IPRange :=
  mkRange (n_version n) (first n) (last n).

(** Membership of an address in a range, a network and a list of either. *)
Definition in_range (a : IPAddress) (r : IPRange) : Prop :=
  a_version a = r_version r ∧ r_first r ≤ a_value a ≤ r_last r.

Definition in_network (a : IPAddress) (n : IPNetwork) : Prop :=
  in_range a (range_of n).

Definition in_ranges (a : IPAddress) (s : list IPRange) : Prop :=
  Exists (in_range a) s.

Definition in_networks (a : IPAddress) (l : list IPNetwork) : Prop :=
  Exists (in_network a) l.

Definition in_rangeb (a : IPAddress) (r : IPRange) : bool :=
  (a_version a =? r_version r) && (r_first r <=? a_value a)
  && (a_value a <=? r_last r).

(** [x in net] for an address and for a network. *)
Definition network_contains_addr (n : IPNetwork) (a : IPAddress) : bool :=
  in_rangeb a (range_of n).

Definition network_contains (n m : IPNetwork) : bool :=
  (n_version n =? n_version m) && (first n <=? first m)
  && (last m <=? last n).

(** *** Address sets

    An [IPSet] is a set of addresses.  It is kept as the ascending list of
    its maximal runs of consecutive addresses: two entries of the list
    never overlap and never touch. *)

Definition IPSet := list IPRange.

Definition nonempty (r : IPRange) : Prop := r_first r ≤ r_last r.

(** [before r t]: every address of [r] is below every address of [t], and
    at least one address lies between them (versions order first). *)
Definition before (r t : IPRange) : bool :=
  (r_version r <? r_version t)
  || ((r_version r =? r_version t) && (r_last r + 1 <? r_first t)).

Definition hull (r t : IPRange) : IPRange :=
  mkRange (r_version r) (Z.min (r_first r) (r_first t))
          (Z.max (r_last r) (r_last t)).

(** Adding one run to a set, merging it with every run it overlaps or
    touches. *)
Fixpoint add_range (r : IPRange) (s : IPSet) : IPSet :=
  match s with
  | [] => [r]
  | t :: s' =>
      if before r t then r :: t :: s'
      else if before t r then t :: add_range r s'
      else add_range (hull r t) s'
  end.

(** [IPSet(iterable)] *)
Definition mkIPSet (l : list IPNetwork) : IPSet :=
  foldr (fun n acc => add_range (range_of n) acc) [] l.

(** [IPSet.compact()]: merge again; the set of addresses stays. *)
Definition compact (s : IPSet) : IPSet := foldr add_range [] s.

Definition range_contains (q r : IPRange) : bool :=
  (r_version q =? r_version r) && (r_first q <=? r_first r)
  && (r_last r <=? r_last q).

(** [s.issubset(t)] *)
Definition issubset (s t : IPSet) : bool :=
  forallb (fun r => existsb (fun q => range_contains q r) t) s.

Definition range_inter (r q : IPRange) : list IPRange :=
  if (r_version r =? r_version q)
     && (Z.max (r_first r) (r_first q) <=? Z.min (r_last r) (r_last q))
  then [mkRange (r_version r) (Z.max (r_first r) (r_first q))
                (Z.min (r_last r) (r_last q))]
  else [].

(** [s.intersection(t)] *)
Definition intersection (s t : IPSet) : IPSet :=
  flat_map (fun r => flat_map (range_inter r) t) s.

(** [bool(s)]: the set holds at least one address. *)
Definition truth (s : IPSet) : bool :=
  match s with [] => false | _ :: _ => true end.

(** The CIDR blocks of the run [lo..hi] inside the aligned block of [2^k]
    addresses that starts at [base]: the block itself when the run fills
    it, otherwise the blocks of the two halves. *)
Fixpoint cidrs_in_block (v : Z) (k : nat) (base lo hi : Z)
  : list IPNetwork :=
  if (lo =? base) && (hi =? base + 2 ^ Z.of_nat k - 1)
  then [mkNet v base (width v - Z.of_nat k)]
  else
    match k with
    | O => []
    | S k' =>
        let mid := base + 2 ^ Z.of_nat k' in
        (if lo <? mid
         then cidrs_in_block v k' base lo (Z.min hi (mid - 1)) else [])
        ++ (if mid <=? hi
            then cidrs_in_block v k' mid (Z.max lo mid) hi else [])
    end.

(** [iprange_to_cidrs(start, end)] *)
Definition iprange_to_cidrs (r : IPRange) : list IPNetwork :=
  cidrs_in_block (r_version r) (Z.to_nat (width (r_version r))) 0
                 (r_first r) (r_last r).

(** [s.iter_cidrs()]: the blocks of the set in ascending order. *)
Definition iter_cidrs (s : IPSet) : list IPNetwork :=
  flat_map iprange_to_cidrs s.

(** [cidr_merge]: the minimal list of blocks covering the given ones. *)
Definition cidr_merge (l : list IPNetwork) : list IPNetwork :=
  iter_cidrs (compact (mkIPSet l)).

(** [net.is_multicast()] and [net.is_loopback()]: the block lies inside
    224.0.0.0/4 or ff00::/8, respectively 127.0.0.0/8 or ::1/128. *)
Definition IPV4_MULTICAST := mkNet 4 3758096384 4.
Definition IPV6_MULTICAST := mkNet 6 (255 * 2 ^ 120) 8.
Definition IPV4_LOOPBACK := mkNet 4 2130706432 8.
Definition IPV6_LOOPBACK := mkNet 6 1 128.

Definition is_multicast (n : IPNetwork) : bool :=
  if n_version n =? 4 then network_contains IPV4_MULTICAST n
  else network_contains IPV6_MULTICAST n.

Definition is_loopback (n : IPNetwork) : bool :=
  if n_version n =? 4 then network_contains IPV4_LOOPBACK n
  else network_contains IPV6_LOOPBACK n.




End netaddr.
Import netaddr.

(** ** Python values *)

(** Values found in request bodies and in the dictionaries the plugin
    returns.  A list of prefixes is carried parsed: each entry stands for
    the CIDR text of that block. *)
Inductive value :=
| VNone
| VNotSpecified
| VBool (b : bool)
| VInt (z : Z)
| VStr (s : string)
| VPrefixes (l : list IPNetwork).

#[export] Instance value_eq_dec : EqDecision value.
Proof. solve_decision. Defined.

Abbreviation dict := (gmap string value).

(** [str(v)]; the text of a sentinel or of a list is not needed and is
    left abstract. *)
Definition py_str (v : value) : value :=
  match v with
  | VNone => VStr "None"
  | VNotSpecified => VStr "<Sentinel>"
  | VBool true => VStr "True"
  | VBool false => VStr "False"
  | VInt z => VStr (pretty z)
  | VStr s => VStr s
  | VPrefixes l => VStr "[...]"
  end.

(** A dictionary entry or attribute of a typed record: missing, [None],
    [constants.ATTR_NOT_SPECIFIED], or a value. *)
Inductive attr (A : Type) : Type :=
| Absent
| PyNone
| NotSpecified
| Val (a : A).
Arguments Absent {A}.
Arguments PyNone {A}.
Arguments NotSpecified {A}.
Arguments Val {A} a.

#[export] Instance attr_eq_dec {A} `{EqDecision A} : EqDecision (attr A).
Proof. solve_decision. Defined.

(** [validators.is_attr_set]: neither [None] nor [ATTR_NOT_SPECIFIED]
    ([d.get(k)] of a missing key is [None]). *)
Definition is_attr_set {A} (x : attr A) : bool :=
  match x with Val _ => true | _ => false end.

(** [d.get(k, constants.ATTR_NOT_SPECIFIED)] *)
Definition get_or_not_specified {A} (x : attr A) : attr A :=
  match x with Absent => NotSpecified | _ => x end.

(** Truth value of a string-valued attribute. *)
Definition attr_str_truthy (x : attr string) : bool :=
  match x with
  | Absent | PyNone => false
  | NotSpecified => true
  | Val s => negb (String.eqb s "")
  end.

(** Truth value of a boolean entry read with [d.get(k)]. *)
Definition attr_bool_truthy (x : attr bool) : bool :=
  match x with
  | Absent | PyNone => false
  | NotSpecified => true
  | Val b => b
  end.

Definition attr_to_value (x : attr string) : value :=
  match x with
  | Absent | PyNone => VNone
  | NotSpecified => VNotSpecified
  | Val s => VStr s
  end.

(** ** Exceptions *)

(** The [subnetpool_id] argument of [_validate_address_scope_id]:
    [update_subnetpool] passes the pool's id; [create_subnetpool] has no
    local [id] and passes Python's builtin [id], which equals no pool id. *)
Inductive pool_ref :=
| BuiltinId
| PoolId (id : string).

Definition pool_ref_is (r : pool_ref) (id : string) : bool :=
  match r with
  | BuiltinId => false
  | PoolId i => String.eqb id i
  end.

(** Exceptions carry the keyword arguments the source passes; messages are
    the untranslated templates. *)
Inductive exn :=
| IllegalSubnetPoolPrefixUpdate (msg : string)
| IllegalSubnetPoolAssociationToAddressScope
    (subnetpool_id : pool_ref) (address_scope_id : string)
| IllegalSubnetPoolIpVersionAssociationToAddressScope
    (subnetpool_id : pool_ref) (address_scope_id : string) (ip_version : Z)
| AddressScopePrefixConflict
| IllegalSubnetPoolUpdate (reason : string)
| InvalidSharedSetting (network : string)
| InvalidInput (error_message : string)
| BadRequest (resource msg : string)
| GatewayIpInUse (ip_address : option IPAddress) (port_id : string)
| DNSNameServersExhausted (subnet_id : string) (quota : Z)
| HostRoutesExhausted (subnet_id : string) (quota : Z)
| DeviceIDNotOwnedByTenant (device_id : string)
| UnsupportedPortDeviceOwner (op device_owner : string)
| IpAddressAllocationNotFound (ip_address subnet_id port_id : string)
| RetryRequest (inner : exn)
| PortNotFound (port_id : string)
| RouterNotFound (router_id : string)
| AddrFormatError
| KeyError (key : string)
| TypeError (what : string)
| OtherError (name : string).

(** The pool identifiers an exception carries. *)
Definition exn_pool_ids (e : exn) : list pool_ref :=
  match e with
  | IllegalSubnetPoolAssociationToAddressScope p _ => [p]
  | IllegalSubnetPoolIpVersionAssociationToAddressScope p _ _ => [p]
  | _ => []
  end.

(** ** Stored rows *)

(** A subnetpool object, with the attributes [create_subnetpool] passes to
    its constructor. *)
Record SubnetPool := mkPool {
  sp_tenant_id : string;
  sp_id : string;
  sp_name : string;
  sp_ip_version : Z;
  sp_default_prefixlen : value;
  sp_min_prefixlen : value;
  sp_max_prefixlen : value;
  sp_is_default : bool;
  sp_shared : bool;
  sp_default_quota : value;
  sp_address_scope_id : attr string;
  sp_description : value;
  sp_prefixes : list IPNetwork }.

Record Port := mkPort {
  port_id : string;
  port_tenant_id : string;
  port_network_id : string;
  port_device_owner : string;
  port_device_id : string;
  port_mac_address : string }.

Record Subnet := mkSubnet {
  subnet_id : string;
  subnet_tenant_id : string;
  subnet_network_id : string;
  subnet_cidr : IPNetwork;
  subnet_ip_version : Z;
  subnet_gateway_ip : option IPAddress;
  subnet_enable_dhcp : bool;
  subnet_ipv6_ra_mode : attr string;
  subnet_ipv6_address_mode : attr string;
  subnet_subnetpool_id : attr string }.

Record IPAllocation := mkAlloc {
  alloc_ip_address : IPAddress;
  alloc_subnet_id : string;
  alloc_port_id : string;
  alloc_network_id : string }.

Record RouterPort := mkRouterPort {
  rp_router_id : string;
  rp_port_id : string }.

(** An access grant on a network. *)
Record RbacEntry := mkRbac {
  rbac_id : string;
  rbac_action : string;
  rbac_target_tenant : string;
  rbac_tenant_id : string }.

#[export] Instance RbacEntry_eq_dec : EqDecision RbacEntry.
Proof. solve_decision. Defined.

(** A network object; [net_shared] is its [shared] attribute, which
    [update_network] sets from the grants before validating and which the
    result of an update derives from the grants again. *)
Record Network := mkNetwork {
  net_id : string;
  net_tenant_id : string;
  net_name : string;
  net_shared : bool;
  net_rbac_entries : list RbacEntry }.

(** A notification handed to the callback registry. *)
Record Event := mkEvent {
  ev_resource : string;
  ev_event : string;
  ev_subject : string }.

Record DB := mkDB {
  db_subnetpools : list SubnetPool;
  db_ports : list Port;
  db_subnets : list Subnet;
  db_ipallocations : list IPAllocation;
  db_routerports : list RouterPort;
  db_events : list Event;
  db_networks : list Network }.

Record Context := mkContext {
  ctx_is_admin : bool;
  ctx_tenant_id : string }.

(** ** Operations on the store: state passing with exceptions *)

Definition M (A : Type) : Type := DB → result exn A * DB.

#[export] Instance M_bind : MBind M := λ A B k m db,
  match m db with
  | (Ok a, db') => k a db'
  | (Raise e, db') => (Raise e, db')
  end.

#[export] Instance M_ret : MRet M := λ A a db, (Ok a, db).

Definition lift {A} (r : result exn A) : M A := λ db, (r, db).
Definition raise {A} (e : exn) : M A := λ db, (Raise e, db).
Definition get_db : M DB := λ db, (Ok db, db).

(** [with context.session.begin(subtransactions=True):] an exception that
    leaves the block rolls the writes of the block back. *)
Definition transaction {A} (body : M A) : M A := λ db,
  match body db with
  | (Ok a, db') => (Ok a, db')
  | (Raise e, _) => (Raise e, db)
  end.

Definition check (b : bool) (e : exn) : result exn unit :=
  if b then Raise e else Ok tt.

(** ** Request bodies *)

(** A host route of a subnet request; a text netaddr does not parse is
    [None]. *)
Record HostRoute := mkRoute {
  route_destination : option IPNetwork;
  route_nexthop : option IPAddress }.

(** The [subnet] dictionary of a request.  Addresses are carried parsed; in
    [dns_nameservers], a text netaddr does not parse is [None]. *)
Record SubnetSpec := mkSpec {
  s_ip_version : attr Z;
  s_cidr : attr IPNetwork;
  s_prefixlen : attr Z;
  s_enable_dhcp : attr bool;
  s_gateway_ip : attr IPAddress;
  s_dns_nameservers : attr (list (option IPAddress));
  s_host_routes : attr (list HostRoute);
  s_ipv6_ra_mode : attr string;
  s_ipv6_address_mode : attr string;
  s_id : attr string;
  s_subnetpool_id : attr string;
  s_use_default_subnetpool : attr bool;
  s_network_id : string }.

Definition set_cidr (s : SubnetSpec) (c : attr IPNetwork) : SubnetSpec :=
  {| s_ip_version := s_ip_version s;
     s_cidr := c;
     s_prefixlen := s_prefixlen s;
     s_enable_dhcp := s_enable_dhcp s;
     s_gateway_ip := s_gateway_ip s;
     s_dns_nameservers := s_dns_nameservers s;
     s_host_routes := s_host_routes s;
     s_ipv6_ra_mode := s_ipv6_ra_mode s;
     s_ipv6_address_mode := s_ipv6_address_mode s;
     s_id := s_id s;
     s_subnetpool_id := s_subnetpool_id s;
     s_use_default_subnetpool := s_use_default_subnetpool s;
     s_network_id := s_network_id s |}.

(** The [network] dictionary of an update request; [None] for a key that
    is not in it. *)
Record NetworkUpdate := mkNetworkUpdate {
  nu_shared : option bool;
  nu_name : option string }.

(** The [port] dictionary of an update request. *)
Record PortUpdate := mkPortUpdate {
  pu_device_owner : attr string;
  pu_device_id : attr string;
  pu_mac_address : attr string }.

(** ** Collaborators

    Code the plugin calls that lives in other modules: the subnetpool
    reader, the address-scope mixin, the IPAM backend, the L3 plugin, the
    dictionary extension hooks and the configuration. *)

(** What [subnet_alloc.SubnetPoolReader] exposes of the dictionary it has
    read. *)
Record Reader := mkReader {
  rd_tenant_id : string;
  rd_id : string;
  rd_name : string;
  rd_ip_version : Z;
  rd_default_prefixlen : value;
  rd_min_prefixlen : value;
  rd_max_prefixlen : value;
  rd_is_default : bool;
  rd_shared : bool;
  rd_default_quota : value;
  rd_address_scope_id : attr string;
  rd_description : value;
  rd_prefixes : list IPNetwork }.

Record Router := mkRouter { router_tenant_id : string }.

Record Env := mkEnv {
  (* subnet_alloc.SubnetPoolReader *)
  SubnetPoolReader : dict → result exn Reader;
  (* address-scope mixin *)
  is_address_scope_owned_by_tenant : Context → string → result exn bool;
  get_ip_version_for_address_scope : Context → string → result exn Z;
  (* _apply_dict_extend_functions *)
  apply_dict_extend_functions : string → dict → SubnetPool → dict;
  (* uuidutils.generate_uuid *)
  generate_uuid : string;
  (* cfg.CONF *)
  max_dns_nameservers : Z;
  max_subnet_host_routes : Z;
  ipv6_pd_enabled : bool;
  (* ipam.utils.check_gateway_invalid_in_subnet *)
  check_gateway_invalid_in_subnet : IPNetwork → IPAddress → bool;
  (* the rows [_model_query] lets the context see *)
  model_query_ports : Context → DB → list Port;
  model_query_subnets : Context → DB → list Subnet;
  (* L3: [hasattr(self, 'get_router')], [self.get_router], the L3 service
     plugin's [get_router] if one is loaded *)
  has_get_router : bool;
  self_get_router : string → result exn Router;
  l3plugin_get_router : option (string → result exn Router);
  (* IPAM backend *)
  ipam_update_port : Context → Port → PortUpdate → M unit;
  ipam_validate_pools_with_subnetpool : SubnetSpec → result exn unit;
  (* [_create_subnet]: network lookup, IPAM allocation, router and port
     follow-ups *)
  _create_subnet : Context → SubnetSpec → option string → M Subnet;
}.

(** ** Subnetpools *)

(** [orig_pool.fields] with the value of each field. *)
Definition SubnetPool_items (p : SubnetPool) : list (string * value) :=
  [ ("tenant_id", VStr (sp_tenant_id p));
    ("id", VStr (sp_id p));
    ("name", VStr (sp_name p));
    ("ip_version", VInt (sp_ip_version p));
    ("default_prefixlen", sp_default_prefixlen p);
    ("min_prefixlen", sp_min_prefixlen p);
    ("max_prefixlen", sp_max_prefixlen p);
    ("is_default", VBool (sp_is_default p));
    ("shared", VBool (sp_shared p));
    ("default_quota", sp_default_quota p);
    ("address_scope_id", attr_to_value (sp_address_scope_id p));
    ("description", sp_description p);
    ("prefixes", VPrefixes (sp_prefixes p)) ].

Definition synthetic_fields : list string := ["prefixes"].

(** [orig_pool[k]] *)
Definition sp_getitem (p : SubnetPool) (k : string) : option value :=
  (list_to_map (SubnetPool_items p) : dict) !! k.

Definition keys_to_update (p : SubnetPool) : list string :=
  list_difference (SubnetPool_items p).*1 synthetic_fields.

Definition prefix_update_msg : string :=
  "Existing prefixes must be a subset of the new prefixes".

(** The dictionary comprehension of [_update_subnetpool_dict]: every field
    that is not synthetic, from the request if it has it, else from the
    pool. *)
Definition updated_fields (orig_pool : SubnetPool) (new_pool : dict) : dict :=
  list_to_map
    (omap (λ k, v ← sp_getitem orig_pool k;
                Some (k, default v (new_pool !! k)))
          (keys_to_update orig_pool)).

(** [netaddr.IPSet(new_prefixes)]: the set of the networks of a list, the
    empty set for [None]; any other value is not iterable. *)
Definition IPSet_of_value (v : value) : result exn IPSet :=
  match v with
  | VPrefixes l => Ok (mkIPSet l)
  | VNone => Ok (mkIPSet [])
  | _ => Raise (TypeError "IPSet")
  end.

Definition _update_subnetpool_dict (orig_pool : SubnetPool) (new_pool : dict)
  : result exn dict :=
  let updated := updated_fields orig_pool new_pool in
  let new_prefixes := default VNotSpecified (new_pool !! "prefixes") in
  match new_prefixes with
  | VNotSpecified =>
      Ok (<["prefixes" := VPrefixes (sp_prefixes orig_pool)]> updated)
  | _ =>
      let orig_ip_set := mkIPSet (sp_prefixes orig_pool) in
      new_ip_set ← IPSet_of_value new_prefixes;
      if negb (issubset orig_ip_set new_ip_set)
      then Raise (IllegalSubnetPoolPrefixUpdate prefix_update_msg)
      else
        let new_ip_set := compact new_ip_set in
        Ok (<["prefixes" := VPrefixes (cidr <$> iter_cidrs new_ip_set)]>
              updated)
  end.

(** [get_default_subnetpool]: the first pool with [is_default] of the given
    IP version, if any. *)
Definition get_default_subnetpool (db : DB) (ip_version : Z)
  : option SubnetPool :=
  head (filter (λ p, sp_is_default p = true ∧ sp_ip_version p = ip_version)
               (db_subnetpools db)).

Definition default_exists_msg : string :=
  "A default subnetpool for this IP family has already been set. Only one default may exist per IP family".

Definition _check_default_subnetpool_exists (db : DB) (ip_version : Z)
  : result exn unit :=
  match get_default_subnetpool db ip_version with
  | Some _ => Raise (InvalidInput default_exists_msg)
  | None => Ok tt
  end.

(** [_get_subnetpool] *)
Definition _get_subnetpool (db : DB) (id : string) : result exn SubnetPool :=
  match head (filter (λ p, sp_id p = id) (db_subnetpools db)) with
  | Some p => Ok p
  | None => Raise (OtherError "SubnetPoolNotFound")
  end.

Section Pools.
Context (env : Env).

(** The loop of [_validate_address_scope_id] over the pools of the
    scope. *)
Fixpoint check_scope_prefixes (subnetpool_id : pool_ref) (new_set : IPSet)
         (subnetpools : list SubnetPool) : result exn unit :=
  match subnetpools with
  | [] => Ok tt
  | sp :: rest =>
      if pool_ref_is subnetpool_id (sp_id sp)
      then check_scope_prefixes subnetpool_id new_set rest
      else
        let sp_set := mkIPSet (sp_prefixes sp) in
        if truth (intersection sp_set new_set)
        then Raise AddressScopePrefixConflict
        else check_scope_prefixes subnetpool_id new_set rest
  end.

(** [subnetpool_obj.SubnetPool.get_objects(context, address_scope_id=..)] *)
Definition get_objects_by_scope (db : DB) (address_scope_id : string)
  : list SubnetPool :=
  filter (λ p, sp_address_scope_id p = Val address_scope_id)
         (db_subnetpools db).

Definition _validate_address_scope_id (context : Context) (db : DB)
           (address_scope_id : attr string) (subnetpool_id : pool_ref)
           (sp_prefixes : list IPNetwork) (ip_version : Z)
  : result exn unit :=
  match address_scope_id with
  | Val scope =>
      owned ← is_address_scope_owned_by_tenant env context scope;
      check (negb owned)
            (IllegalSubnetPoolAssociationToAddressScope
               subnetpool_id scope);;
      as_ip_version ← get_ip_version_for_address_scope env context scope;
      check (negb (ip_version =? as_ip_version))
            (IllegalSubnetPoolIpVersionAssociationToAddressScope
               subnetpool_id scope as_ip_version);;
      let subnetpools := get_objects_by_scope db scope in
      let new_set := mkIPSet sp_prefixes in
      check_scope_prefixes subnetpool_id new_set subnetpools
  | _ => Ok tt
  end.

Definition update_not_allowed_msg : string :=
  "subnetpool %(subnetpool_id)s cannot be updated when associated with shared address scope %(address_scope_id)s".

Definition _check_subnetpool_update_allowed (context : Context)
           (subnetpool_id : string) (address_scope_id : attr string)
  : result exn unit :=
  match address_scope_id with
  | Val scope =>
      owned ← is_address_scope_owned_by_tenant env context scope;
      check (negb owned) (IllegalSubnetPoolUpdate update_not_allowed_msg)
  | _ => Raise (TypeError "address_scope_id")
  end.

(** The row [subnetpool_obj.SubnetPool(context, **pool_args)] holds. *)
Definition pool_of_reader (tenant_id id : string) (r : Reader)
  : SubnetPool :=
  {| sp_tenant_id := tenant_id;
     sp_id := id;
     sp_name := rd_name r;
     sp_ip_version := rd_ip_version r;
     sp_default_prefixlen := rd_default_prefixlen r;
     sp_min_prefixlen := rd_min_prefixlen r;
     sp_max_prefixlen := rd_max_prefixlen r;
     sp_is_default := rd_is_default r;
     sp_shared := rd_shared r;
     sp_default_quota := rd_default_quota r;
     sp_address_scope_id := rd_address_scope_id r;
     sp_description := rd_description r;
     sp_prefixes := rd_prefixes r |}.

Definition with_pools (db : DB) (pools : list SubnetPool) : DB :=
  {| db_subnetpools := pools;
     db_ports := db_ports db;
     db_subnets := db_subnets db;
     db_ipallocations := db_ipallocations db;
     db_routerports := db_routerports db;
     db_events := db_events db;
     db_networks := db_networks db |}.

Definition with_event (db : DB) (e : Event) : DB :=
  {| db_subnetpools := db_subnetpools db;
     db_ports := db_ports db;
     db_subnets := db_subnets db;
     db_ipallocations := db_ipallocations db;
     db_routerports := db_routerports db;
     db_events := db_events db ++ [e];
     db_networks := db_networks db |}.

(** [if orig_sp.address_scope_id: self._check_subnetpool_update_allowed] *)
Definition update_allowed_check (context : Context) (id : string)
           (orig_sp : SubnetPool) : result exn unit :=
  if attr_str_truthy (sp_address_scope_id orig_sp)
  then _check_subnetpool_update_allowed context id
         (sp_address_scope_id orig_sp)
  else Ok tt.

(** The rows after [orig_sp.update()]. *)
Definition updated_pools (id : string) (r : Reader)
           (pools : list SubnetPool) : list SubnetPool :=
  (λ p, if String.eqb (sp_id p) id
        then pool_of_reader (rd_tenant_id r) id r else p) <$> pools.

(** Modelled from the spec: [subnetpool.create()] of the object layer is
    not part of the sources; a pool is a row keyed by its id, so creating
    one adds the row and fails on an id that is already stored. *)
Definition SubnetPool_create (row : SubnetPool) : M unit := λ db,
  if existsb (λ p, String.eqb (sp_id p) (sp_id row)) (db_subnetpools db)
  then (Raise (OtherError "NeutronDbObjectDuplicateEntry"), db)
  else (Ok tt, with_pools db (db_subnetpools db ++ [row])).

(** Modelled from the spec: [orig_sp.update_fields(reader.subnetpool)]
    followed by [orig_sp.update()] of the object layer is not part of the
    sources; the row of the pool takes the attributes the reader holds
    and keeps its id. *)
Definition SubnetPool_update (id : string) (r : Reader) : M unit := λ db,
  (Ok tt, with_pools db (updated_pools id r (db_subnetpools db))).

Definition read_tenant_id (sp : dict) : result exn string :=
  match sp !! "tenant_id" with
  | Some (VStr t) => Ok t
  | Some _ => Raise (TypeError "tenant_id")
  | None => Raise (KeyError "tenant_id")
  end.

(** The default-pool rule where [create_subnetpool] applies it. *)
Definition default_check_on_create (db : DB) (sp_reader : Reader)
  : result exn unit :=
  if rd_is_default sp_reader
  then _check_default_subnetpool_exists db (rd_ip_version sp_reader)
  else Ok tt.

(** The default-pool rule where [update_subnetpool] applies it. *)
Definition default_check_on_update (db : DB) (orig_sp : SubnetPool)
           (reader : Reader) : result exn unit :=
  if rd_is_default reader && negb (sp_is_default orig_sp)
  then _check_default_subnetpool_exists db (rd_ip_version reader)
  else Ok tt.

Definition set_address_scope_id (r : Reader) (a : attr string) : Reader :=
  mkReader (rd_tenant_id r) (rd_id r) (rd_name r) (rd_ip_version r)
           (rd_default_prefixlen r) (rd_min_prefixlen r)
           (rd_max_prefixlen r) (rd_is_default r) (rd_shared r)
           (rd_default_quota r) a (rd_description r) (rd_prefixes r).

(** [if sp_reader.address_scope_id is constants.ATTR_NOT_SPECIFIED:
    sp_reader.address_scope_id = None] *)
Definition scope_or_none (sp_reader : Reader) : Reader :=
  match rd_address_scope_id sp_reader with
  | NotSpecified => set_address_scope_id sp_reader PyNone
  | _ => sp_reader
  end.

Definition create_subnetpool (context : Context) (sp : dict)
  : M SubnetPool :=
  sp_reader ← lift (SubnetPoolReader env sp);
  let sp_reader := scope_or_none sp_reader in
  db ← get_db;
  lift (default_check_on_create db sp_reader);;
  lift (_validate_address_scope_id context db
          (rd_address_scope_id sp_reader) BuiltinId
          (rd_prefixes sp_reader) (rd_ip_version sp_reader));;
  tenant_id ← lift (read_tenant_id sp);
  let subnetpool := pool_of_reader tenant_id (rd_id sp_reader) sp_reader in
  SubnetPool_create subnetpool;;
  mret subnetpool.

(** The last loop of [update_subnetpool]: for each of the three names,
    [updated['key'] = str(updated[key])]. *)
Definition stringify_prefixlens (updated : dict) : result exn dict :=
  foldl (λ acc key,
           d ← acc;
           match d !! key with
           | Some v => Ok (<["key" := py_str v]> d)
           | None => Raise (KeyError key)
           end)
        (Ok updated)
        ["min_prefixlen"; "max_prefixlen"; "default_prefixlen"].

Definition update_subnetpool (context : Context) (id : string)
           (new_sp : dict) : M dict :=
  '(orig_sp, updated, address_scope_changed) ←
    transaction (
      db ← get_db;
      orig_sp ← lift (_get_subnetpool db id);
      updated ← lift (_update_subnetpool_dict orig_sp new_sp);
      reader ← lift (SubnetPoolReader env updated);
      lift (default_check_on_update db orig_sp reader);;
      lift (update_allowed_check context id orig_sp);;
      lift (_validate_address_scope_id context db
              (rd_address_scope_id reader) (PoolId id)
              (rd_prefixes reader) (rd_ip_version reader));;
      let address_scope_changed :=
        bool_decide (sp_address_scope_id orig_sp
                     ≠ rd_address_scope_id reader) in
      SubnetPool_update id reader;;
      let orig_sp := pool_of_reader (rd_tenant_id reader) id reader in
      mret (orig_sp, updated, address_scope_changed));
  (if address_scope_changed : bool
   then (λ db, (Ok tt, with_event db
                  (mkEvent "subnetpool_address_scope" "after_update" id)))
   else mret tt);;
  updated ← lift (stringify_prefixlens updated);
  mret (apply_dict_extend_functions env "subnetpools" updated orig_sp).

End Pools.

(** ** Networks: revoking the shared flag *)

(** [constants.DEVICE_OWNER_NETWORK_PREFIX] *)
Definition DEVICE_OWNER_NETWORK_PREFIX : string := "network:".

(** A column's [startswith(prefix)] in a query is evaluated by the
    database, as [column LIKE 'prefix%'], and [LIKE] compares the letters
    A to Z without regard to case; the prefix used here holds neither of
    the wildcards of [LIKE]. *)
Definition ascii_lower (c : Ascii.ascii) : Ascii.ascii :=
  let n := Ascii.nat_of_ascii c in
  if (65 <=? n)%nat && (n <=? 90)%nat then Ascii.ascii_of_nat (n + 32)
  else c.

Fixpoint lower (s : string) : string :=
  match s with
  | EmptyString => EmptyString
  | String c s' => String (ascii_lower c) (lower s')
  end.

Definition sql_startswith (prefix s : string) : bool :=
  String.prefix (lower prefix) (lower s).

Section Networks.
Context (env : Env).

(** The ports and subnets [_validate_shared_update] looks at. *)
Definition shared_update_ports (context : Context) (db : DB) (id : string)
  : list Port :=
  filter (λ p, sql_startswith DEVICE_OWNER_NETWORK_PREFIX
                 (port_device_owner p) = false)
    (filter (λ p, port_network_id p = id) (model_query_ports env context db)).

Definition shared_update_subnets (context : Context) (db : DB) (id : string)
  : list Subnet :=
  filter (λ sn, subnet_network_id sn = id)
         (model_query_subnets env context db).

Definition shared_update_tenant_ids (context : Context) (db : DB)
           (id : string) : gset string :=
  list_to_set ((port_tenant_id <$> shared_update_ports context db id)
               ++ (subnet_tenant_id <$> shared_update_subnets context db id)).

(** [tenant_ids.pop()] of a set of one element. *)
Definition set_pop (s : gset string) : option string := head (elements s).

(** [len(tenant_ids) > 1 or len(tenant_ids) == 1 and
    tenant_ids.pop() != original.tenant_id] *)
Definition shared_in_use (tenant_ids : gset string) (owner : string) : bool :=
  (1 <? Z.of_nat (size tenant_ids))
  || ((Z.of_nat (size tenant_ids) =? 1)
      && bool_decide (set_pop tenant_ids ≠ Some owner)).

Definition _validate_shared_update (context : Context) (db : DB)
           (id : string) (original : Network) (updated_shared : bool)
  : result exn unit :=
  if bool_decide (updated_shared = net_shared original) || updated_shared
  then Ok tt
  else
    let tenant_ids := shared_update_tenant_ids context db id in
    if shared_in_use tenant_ids (net_tenant_id original)
    then Raise (InvalidSharedSetting (net_name original))
    else Ok tt.

Definition network_not_found : exn := OtherError "NetworkNotFound".

Definition _get_network (db : DB) (id : string) : result exn Network :=
  match head (filter (λ n, net_id n = id) (db_networks db)) with
  | Some n => Ok n
  | None => Raise network_not_found
  end.

(** The loop of [update_network] over [network.rbac_entries]: the first
    grant of shared access to every tenant. *)
Definition wildcard_entry (network : Network) : option RbacEntry :=
  head (filter (λ item, rbac_action item = "access_as_shared"
                        ∧ rbac_target_tenant item = "*")
               (net_rbac_entries network)).

Definition with_network (network : Network) (shared : bool)
           (name : string) (entries : list RbacEntry) : Network :=
  mkNetwork (net_id network) (net_tenant_id network) name shared entries.

(** The grants of the network after the [shared] entry of the request has
    been applied: a wildcard grant is added when sharing starts, the one
    found is deleted when sharing stops. *)
Definition apply_shared (network : Network) (entry : option RbacEntry)
           (update_shared : bool) : list RbacEntry :=
  match entry with
  | None =>
      if update_shared
      then net_rbac_entries network
           ++ [mkRbac (generate_uuid env) "access_as_shared" "*"
                      (net_tenant_id network)]
      else net_rbac_entries network
  | Some entry =>
      if update_shared then net_rbac_entries network
      else filter (λ item, rbac_id item ≠ rbac_id entry)
                  (net_rbac_entries network)
  end.

Definition store_network (network : Network) : M unit := λ db,
  (Ok tt,
   {| db_subnetpools := db_subnetpools db;
      db_ports := db_ports db;
      db_subnets := db_subnets db;
      db_ipallocations := db_ipallocations db;
      db_routerports := db_routerports db;
      db_events := db_events db;
      db_networks :=
        (λ n, if String.eqb (net_id n) (net_id network) then network else n)
          <$> db_networks db |}).

(** Modelled from the spec: [_make_network_dict] of the common plugin code
    is not part of the sources; the [shared] attribute of the network it
    presents is derived from the wildcard grant among the grants the
    network has by then. *)
Definition _make_network_dict (network : Network) : Network :=
  with_network network (bool_decide (is_Some (wildcard_entry network)))
               (net_name network) (net_rbac_entries network).

(** The row is stored as [_make_network_dict] presents it, so that the
    network returned is the network a later lookup finds. *)
Definition update_network (context : Context) (id : string)
           (n : NetworkUpdate) : M Network :=
  transaction (
    db ← get_db;
    network ← lift (_get_network db id);
    network ←
      match nu_shared n with
      | Some update_shared =>
          let entry := wildcard_entry network in
          let network :=
            with_network network (bool_decide (is_Some entry))
                         (net_name network) (net_rbac_entries network) in
          lift (_validate_shared_update context db id network update_shared);;
          mret (with_network network (net_shared network) (net_name network)
                  (apply_shared network entry update_shared))
      | None => mret network
      end;
    let network :=
      with_network network (net_shared network)
                   (default (net_name network) (nu_name n))
                   (net_rbac_entries network) in
    let network := _make_network_dict network in
    store_network network;;
    mret network).

End Networks.

(** ** Subnets *)

(** Constants of [neutron_lib.constants] and [neutron.common.constants]. *)
Definition IPV6_SLAAC : string := "slaac".
Definition DHCPV6_STATELESS : string := "dhcpv6-stateless".
Definition IPV6_PD_POOL_ID : string := "prefix_delegation".
Definition IP_VERSION_6 : Z := 6.
Definition PROVISIONAL_IPV6_PD_PREFIX : IPNetwork := mkNet 6 0 64.
Definition ROUTER_INTERFACE_OWNERS : list string :=
  ["network:router_interface"; "network:router_interface_distributed";
   "network:ha_router_replicated_interface"].

Definition mode_in_auto_modes (m : attr string) : bool :=
  match m with
  | Val x => String.eqb x IPV6_SLAAC || String.eqb x DHCPV6_STATELESS
  | _ => false
  end.

(** Modelled from the spec: [ipv6_utils.is_auto_address_subnet] is not part
    of the sources; a subnet is auto-addressed when its [ipv6_address_mode]
    or its [ipv6_ra_mode] is SLAAC or DHCPv6-stateless. *)
Definition is_auto_address_subnet (address_mode ra_mode : attr string)
  : bool :=
  mode_in_auto_modes address_mode || mode_in_auto_modes ra_mode.

(** Modelled from the spec: [ipv6_utils.is_ipv6_pd_enabled] is not part of
    the sources; prefix delegation is requested through the reserved pool
    identifier. *)
Definition is_ipv6_pd_enabled (subnetpool_id : attr string) : bool :=
  bool_decide (subnetpool_id = Val IPV6_PD_POOL_ID).

Definition msg_ip_version : string :=
  "%(name)s '%(addr)s' does not match the ip_version '%(ip_version)s'".
Definition msg_dhcp_prefixlen : string :=
  "Subnet has a prefix length that is incompatible with DHCP service enabled".
Definition msg_dhcp_multicast : string :=
  "Multicast IP subnet is not supported if enable_dhcp is True".
Definition msg_dhcp_loopback : string :=
  "Loopback IP subnet is not supported if enable_dhcp is True".
Definition msg_gateway_invalid : string := "Gateway is not valid on subnet".
Definition msg_dns_parse : string := "Error parsing dns address %s".
Definition msg_invalid_route : string := "Invalid route: %s".
Definition msg_ra_mode_v4 : string :=
  "ipv6_ra_mode is not valid when ip_version is 4".
Definition msg_address_mode_v4 : string :=
  "ipv6_address_mode is not valid when ip_version is 4".
Definition msg_eui64 : string :=
  "Invalid CIDR %s for IPv6 address mode. OpenStack uses the EUI-64 address format, which requires the prefix to be /64".
Definition msg_ipv6_combination : string :=
  "ipv6_ra_mode set to '%(ra_mode)s' with ipv6_address_mode set to '%(addr_mode)s' is not valid. If both attributes are set, they must be the same value".
Definition msg_ipv6_dhcp : string :=
  "ipv6_ra_mode or ipv6_address_mode cannot be set when enable_dhcp is set to False".
Definition msg_ipv6_update_dhcp : string :=
  "Cannot disable enable_dhcp with ipv6 attributes set".
Definition msg_cidr_and_prefixlen : string :=
  "cidr and prefixlen must not be supplied together".

(** [d[k]]: a missing key raises [KeyError]. *)
Definition getitem {A} (k : string) (x : attr A) : result exn (attr A) :=
  match x with
  | Absent => Raise (KeyError k)
  | _ => Ok x
  end.

(** [netaddr.IPNetwork(s['cidr'])] *)
Definition IPNetwork_of_item (k : string) (x : attr IPNetwork)
  : result exn IPNetwork :=
  match x with
  | Absent => Raise (KeyError k)
  | Val n => Ok n
  | _ => Raise AddrFormatError
  end.

Definition attr_is (x : attr Z) (v : Z) : bool :=
  match x with Val z => z =? v | _ => false end.

Section Subnets.
Context (env : Env).

(** [_validate_ip_version]; [version] is the version of the parsed
    [addr]. *)
Definition _validate_ip_version (ip_version : attr Z) (version : Z)
           (name : string) : result exn unit :=
  check (negb (attr_is ip_version version)) (InvalidInput msg_ip_version).

Definition _validate_host_route (route : HostRoute) (ip_version : attr Z)
  : result exn unit :=
  match route_destination route, route_nexthop route with
  | Some destination, Some nexthop =>
      _validate_ip_version ip_version (a_version nexthop) "nexthop";;
      _validate_ip_version ip_version (n_version destination) "destination"
  | _, _ => Raise (InvalidInput msg_invalid_route)
  end.

Definition _validate_eui64_applicable (subnet : SubnetSpec)
  : result exn unit :=
  if is_auto_address_subnet (s_ipv6_address_mode subnet)
                            (s_ipv6_ra_mode subnet)
  then
    net ← IPNetwork_of_item "cidr" (s_cidr subnet);
    check (negb (n_prefixlen net =? 64)) (InvalidInput msg_eui64)
  else Ok tt.

Definition _validate_ipv6_combination (ra_mode address_mode : attr string)
  : result exn unit :=
  check (bool_decide (ra_mode ≠ address_mode))
        (InvalidInput msg_ipv6_combination).

Definition _validate_ipv6_dhcp (ra_mode_set address_mode_set : bool)
           (enable_dhcp : attr bool) : result exn unit :=
  check ((ra_mode_set || address_mode_set)
         && negb (attr_bool_truthy enable_dhcp))
        (InvalidInput msg_ipv6_dhcp).

Definition _validate_ipv6_update_dhcp (subnet : SubnetSpec)
           (cur_subnet : Subnet) : result exn unit :=
  if bool_decide (s_enable_dhcp subnet ≠ Absent)
     && negb (attr_bool_truthy (s_enable_dhcp subnet))
  then
    let ra_mode_set := is_attr_set (s_ipv6_ra_mode subnet) in
    let address_mode_set := is_attr_set (s_ipv6_address_mode subnet) in
    check (ra_mode_set || address_mode_set)
          (InvalidInput msg_ipv6_update_dhcp);;
    let old_ra_mode_set := is_attr_set (subnet_ipv6_ra_mode cur_subnet) in
    let old_address_mode_set :=
      is_attr_set (subnet_ipv6_address_mode cur_subnet) in
    check (old_ra_mode_set || old_address_mode_set)
          (InvalidInput msg_ipv6_update_dhcp)
  else Ok tt.

Definition _validate_ipv6_attributes (subnet : SubnetSpec)
           (cur_subnet : option Subnet) : result exn unit :=
  match cur_subnet with
  | Some cur => _validate_ipv6_update_dhcp subnet cur
  | None =>
      let ra_mode_set := is_attr_set (s_ipv6_ra_mode subnet) in
      let address_mode_set := is_attr_set (s_ipv6_address_mode subnet) in
      enable_dhcp ← getitem "enable_dhcp" (s_enable_dhcp subnet);
      _validate_ipv6_dhcp ra_mode_set address_mode_set enable_dhcp;;
      (if ra_mode_set && address_mode_set
       then _validate_ipv6_combination (s_ipv6_ra_mode subnet)
                                       (s_ipv6_address_mode subnet)
       else Ok tt);;
      (if address_mode_set || ra_mode_set
       then _validate_eui64_applicable subnet
       else Ok tt)
  end.

(** The allocations of
    [session.query(IPAllocation).join("port", "routerport")]: one row for
    each allocation, port of the allocation and router binding of the
    port. *)
Definition router_port_allocations (db : DB) : list IPAllocation :=
  a ← db_ipallocations db;
  p ← filter (λ p, port_id p = alloc_port_id a) (db_ports db);
  rp ← filter (λ rp, rp_port_id rp = port_id p) (db_routerports db);
  [a].

(** [alloc_qry.filter(ip_address == gateway_ip, subnet_id == id).first()] *)
Definition gateway_allocation (db : DB) (cur_subnet : Subnet)
  : option IPAllocation :=
  head (filter (λ a, Some (alloc_ip_address a) = subnet_gateway_ip cur_subnet
                     ∧ alloc_subnet_id a = subnet_id cur_subnet)
               (router_port_allocations db)).

Definition subnet_id_or_new (s : SubnetSpec) : string :=
  match s_id s with
  | Val i => i
  | Absent => "new subnet"
  | _ => "None"
  end.

(** [dhcp_was_enabled]: DHCP is enabled on the subnet being updated;
    [False] at creation. *)
Definition dhcp_was_enabled (cur_subnet : option Subnet) : bool :=
  match cur_subnet with
  | Some cur => subnet_enable_dhcp cur
  | None => false
  end.

(** The DHCP restrictions of [_validate_subnet]. *)
Definition validate_dhcp (ip_ver : attr Z) (s : SubnetSpec)
           (cur_subnet : option Subnet) : result exn unit :=
  if attr_bool_truthy (s_enable_dhcp s) && negb (dhcp_was_enabled cur_subnet)
  then
    net ← IPNetwork_of_item "cidr" (s_cidr s);
    let subnet_prefixlen := n_prefixlen net in
    check ((attr_is ip_ver 4 && (30 <? subnet_prefixlen))
           || (attr_is ip_ver 6 && (126 <? subnet_prefixlen)))
          (InvalidInput msg_dhcp_prefixlen);;
    if is_multicast net then Raise (InvalidInput msg_dhcp_multicast)
    else if is_loopback net then Raise (InvalidInput msg_dhcp_loopback)
    else Ok tt
  else Ok tt.

(** The gateway rules of [_validate_subnet]. *)
Definition validate_gateway (db : DB) (ip_ver : attr Z) (s : SubnetSpec)
           (cur_subnet : option Subnet) : result exn unit :=
  match s_gateway_ip s with
  | Val gateway_ip =>
      _validate_ip_version ip_ver (a_version gateway_ip) "gateway_ip";;
      net ← IPNetwork_of_item "cidr" (s_cidr s);
      let is_gateway_not_valid :=
        check_gateway_invalid_in_subnet env net gateway_ip in
      check is_gateway_not_valid (InvalidInput msg_gateway_invalid);;
      match cur_subnet with
      | Some cur =>
          if negb (is_ipv6_pd_enabled (s_subnetpool_id s))
          then
            match gateway_allocation db cur with
            | Some allocated =>
                check (negb (String.eqb (alloc_port_id allocated) ""))
                      (GatewayIpInUse (subnet_gateway_ip cur)
                                      (alloc_port_id allocated))
            | None => Ok tt
            end
          else Ok tt
      | None => Ok tt
      end
  | _ => Ok tt
  end.

Definition validate_dns_nameservers (ip_ver : attr Z) (s : SubnetSpec)
  : result exn unit :=
  match s_dns_nameservers s with
  | Val dns_nameservers =>
      check (max_dns_nameservers env <? Z.of_nat (length dns_nameservers))
            (DNSNameServersExhausted (subnet_id_or_new s)
                                     (max_dns_nameservers env));;
      foldl (λ acc dns,
               acc;;
               match dns with
               | Some ip =>
                   _validate_ip_version ip_ver (a_version ip)
                                        "dns_nameserver"
               | None => Raise (InvalidInput msg_dns_parse)
               end)
            (Ok tt) dns_nameservers
  | _ => Ok tt
  end.

Definition validate_host_routes (ip_ver : attr Z) (s : SubnetSpec)
  : result exn unit :=
  match s_host_routes s with
  | Val host_routes =>
      check (max_subnet_host_routes env <? Z.of_nat (length host_routes))
            (HostRoutesExhausted (subnet_id_or_new s)
                                 (max_subnet_host_routes env));;
      foldl (λ acc rt, acc;; _validate_host_route rt ip_ver)
            (Ok tt) host_routes
  | _ => Ok tt
  end.

Definition _validate_subnet (db : DB) (s : SubnetSpec)
           (cur_subnet : option Subnet) : result exn unit :=
  ip_ver ← getitem "ip_version" (s_ip_version s);
  match s_cidr s with
  | Val c => _validate_ip_version ip_ver (n_version c) "cidr"
  | _ => Ok tt
  end;;
  validate_dhcp ip_ver s cur_subnet;;
  validate_gateway db ip_ver s cur_subnet;;
  validate_dns_nameservers ip_ver s;;
  validate_host_routes ip_ver s;;
  (if attr_is ip_ver 4
   then
     check (is_attr_set (s_ipv6_ra_mode s)) (InvalidInput msg_ra_mode_v4);;
     check (is_attr_set (s_ipv6_address_mode s))
           (InvalidInput msg_address_mode_v4)
   else Ok tt);;
  (if attr_is ip_ver 6
   then _validate_ipv6_attributes s cur_subnet
   else Ok tt).

Definition _validate_subnet_for_pd (subnet : SubnetSpec)
  : result exn unit :=
  check (negb (attr_is (s_ip_version subnet) IP_VERSION_6))
        (BadRequest "subnets"
           "Prefix Delegation can only be used with IPv6 subnets.");;
  check (negb (mode_in_auto_modes (s_ipv6_ra_mode subnet)))
        (BadRequest "subnets"
           "IPv6 RA Mode must be SLAAC or Stateless for Prefix Delegation.");;
  check (negb (mode_in_auto_modes (s_ipv6_address_mode subnet)))
        (BadRequest "subnets"
           "IPv6 Address Mode must be SLAAC or Stateless for Prefix Delegation.").

(** [_get_subnetpool_id]: the pool id of the request, [None] for none. *)
Definition _get_subnetpool_id (db : DB) (subnet : SubnetSpec)
  : result exn (option string) :=
  let use_default_subnetpool :=
    match s_use_default_subnetpool subnet with
    | NotSpecified => false
    | x => attr_bool_truthy x
    end in
  let subnetpool_id :=
    match s_subnetpool_id subnet with
    | Val i => if String.eqb i "" then None else Some i
    | _ => None
    end in
  match subnetpool_id with
  | Some i =>
      if use_default_subnetpool
      then Raise (BadRequest "subnets"
                    "subnetpool_id and use_default_subnetpool cannot both be specified")
      else Ok (Some i)
  | None =>
      if negb use_default_subnetpool then Ok None
      else
        ip_version ←
          match s_cidr subnet with
          | Val c => Ok (n_version c)
          | _ =>
              match s_ip_version subnet with
              | Val v => Ok v
              | _ => Raise (BadRequest "subnets"
                              "ip_version must be specified in the absence of cidr and subnetpool_id")
              end
          end;
        if (ip_version =? 6) && ipv6_pd_enabled env
        then Ok (Some IPV6_PD_POOL_ID)
        else
          match get_default_subnetpool db ip_version with
          | Some subnetpool => Ok (Some (sp_id subnetpool))
          | None => Raise (BadRequest "subnets"
                             "No default subnetpool found for IPv%s")
          end
  end.

Definition create_subnet (context : Context) (subnet : SubnetSpec)
  : M Subnet :=
  let s := subnet in
  let cidr := get_or_not_specified (s_cidr s) in
  let prefixlen := get_or_not_specified (s_prefixlen s) in
  let has_cidr := is_attr_set cidr in
  let has_prefixlen := is_attr_set prefixlen in
  if has_cidr && has_prefixlen
  then raise (BadRequest "subnets" msg_cidr_and_prefixlen)
  else
    let s :=
      match s_cidr s with
      | Val net => set_cidr s (Val (netaddr.cidr net))
      | _ => s
      end in
    db ← get_db;
    subnetpool_id ← lift (_get_subnetpool_id db s);
    match subnetpool_id with
    | None =>
        (if negb has_cidr
         then raise (BadRequest "subnets"
                       "a subnetpool must be specified in the absence of a cidr")
         else mret tt);;
        lift (_validate_subnet db s None);;
        _create_subnet env context s None
    | Some pool_id =>
        lift (ipam_validate_pools_with_subnetpool env s);;
        if String.eqb pool_id IPV6_PD_POOL_ID
        then
          if has_cidr
          then
            lift (_validate_subnet db s None);;
            _create_subnet env context s None
          else
            let s := set_cidr s (Val PROVISIONAL_IPV6_PD_PREFIX) in
            lift (_validate_subnet_for_pd s);;
            _create_subnet env context s (Some pool_id)
        else _create_subnet env context s (Some pool_id)
    end.

End Subnets.

(** ** Ports *)

Section Ports.
Context (env : Env).

(** [x or y] for an optional string [x]. *)
Definition attr_or (x : attr string) (y : string) : attr string :=
  if attr_str_truthy x then x else Val y.

(** [d.get(k)]: a missing key reads as [None]. *)
Definition get {A} (x : attr A) : attr A :=
  match x with Absent => PyNone | _ => x end.

Definition _get_port (db : DB) (id : string) : result exn Port :=
  match head (filter (λ p, port_id p = id) (db_ports db)) with
  | Some p => Ok p
  | None => Raise (PortNotFound id)
  end.

Definition _check_mac_addr_update (device_owner : attr string)
  : result exn unit :=
  match device_owner with
  | Val owner =>
      check (negb (String.eqb owner "")
             && String.prefix DEVICE_OWNER_NETWORK_PREFIX owner)
            (UnsupportedPortDeviceOwner "mac address update" owner)
  | NotSpecified => Raise (TypeError "startswith")
  | _ => Ok tt
  end.

(** The lookup of the router in
    [_enforce_device_owner_not_router_intf_or_device_id]: [None] when the
    router is not found. *)
Definition lookup_router (fetch : string → result exn Router)
           (device_id : string) : result exn (option Router) :=
  match fetch device_id with
  | Ok router => Ok (Some router)
  | Raise (RouterNotFound _) => Ok None
  | Raise e => Raise e
  end.

Definition _enforce_device_owner_not_router_intf_or_device_id
           (context : Context) (device_owner device_id : attr string)
           (tenant_id : string) : result exn unit :=
  if negb (match device_owner with
           | Val owner => bool_decide (owner ∈ ROUTER_INTERFACE_OWNERS)
           | _ => false
           end)
  then Ok tt
  else if ctx_is_admin context then Ok tt
  else if negb (attr_str_truthy device_id) then Ok tt
  else
    match device_id with
    | Val device_id =>
        router ←
          (if has_get_router env
           then lookup_router (self_get_router env) device_id
           else
             match l3plugin_get_router env with
             | Some l3_get_router => lookup_router l3_get_router device_id
             | None => Raise (DeviceIDNotOwnedByTenant device_id)
             end);
        match router with
        | Some router =>
            check (negb (String.eqb tenant_id (router_tenant_id router)))
                  (DeviceIDNotOwnedByTenant device_id)
        | None => Ok tt
        end
    | _ => Raise (TypeError "device_id")
    end.

Definition _validate_port_for_update (context : Context) (db_port : Port)
           (new_port : PortUpdate) (new_mac : attr string)
  : result exn unit :=
  let changed_owner := bool_decide (pu_device_owner new_port ≠ Absent) in
  let current_owner :=
    attr_or (get (pu_device_owner new_port)) (port_device_owner db_port) in
  let changed_device_id :=
    bool_decide (get (pu_device_id new_port)
                 ≠ Val (port_device_id db_port)) in
  let current_device_id :=
    attr_or (get (pu_device_id new_port)) (port_device_id db_port) in
  (if (attr_str_truthy current_owner && changed_device_id) || changed_owner
   then _enforce_device_owner_not_router_intf_or_device_id
          context current_owner current_device_id (port_tenant_id db_port)
   else Ok tt);;
  (if attr_str_truthy new_mac
      && bool_decide (new_mac ≠ Val (port_mac_address db_port))
   then _check_mac_addr_update current_owner
   else Ok tt).

(** The [try ... except ipam_exc.IpAddressAllocationNotFound] of
    [update_port]. *)
Definition retry_on_allocation_not_found {A} (body : M A) : M A := λ db,
  match body db with
  | (Raise (IpAddressAllocationNotFound ip sn p), db') =>
      (Raise (RetryRequest (IpAddressAllocationNotFound ip sn p)), db')
  | r => r
  end.

Definition update_port (context : Context) (id : string)
           (new_port : PortUpdate) : M Port :=
  db_port ← transaction (
    db ← get_db;
    db_port ← lift (_get_port db id);
    let new_mac := get (pu_mac_address new_port) in
    lift (_validate_port_for_update context db_port new_port new_mac);;
    retry_on_allocation_not_found
      (ipam_update_port env context db_port new_port);;
    mret db_port);
  mret db_port.

End Ports.

(** ** Invariants of the pool table *)

(** Two prefix lists share an address. *)
Definition shares_address (l1 l2 : list IPNetwork) : Prop :=
  ∃ a, in_networks a l1 ∧ in_networks a l2.

(** Pools bound to one address scope have pairwise disjoint prefixes. *)
Definition scopes_disjoint (pools : list SubnetPool) : Prop :=
  ∀ p q scope,
    p ∈ pools → q ∈ pools → sp_id p ≠ sp_id q →
    sp_address_scope_id p = Val scope → sp_address_scope_id q = Val scope →
    ¬ shares_address (sp_prefixes p) (sp_prefixes q).

(** There is at most one default pool per IP version. *)
Definition one_default_per_version (pools : list SubnetPool) : Prop :=
  ∀ p q,
    p ∈ pools → q ∈ pools →
    sp_is_default p = true → sp_is_default q = true →
    sp_ip_version p = sp_ip_version q →
    sp_id p = sp_id q.

(** ** Kinds of errors *)

Definition is_InvalidInput (e : exn) : bool :=
  match e with InvalidInput _ => true | _ => false end.

(** The errors the validation of a new subnet can raise. *)
Definition is_creation_error (e : exn) : bool :=
  match e with
  | InvalidInput _ | KeyError _ | AddrFormatError
  | DNSNameServersExhausted _ _ | HostRoutesExhausted _ _ => true
  | _ => false
  end.

(** Every exception a computation can raise satisfies [P]. *)
Definition raises_only {A} (P : exn → bool) (r : result exn A) : Prop :=
  match r with
  | Ok _ => True
  | Raise e => P e = true
  end.

(** A list attribute stays within the configured quota [max]. *)
Definition within_quota {A} (max : Z) (l : attr (list A)) : Prop :=
  match l with
  | Val x => Z.of_nat (length x) ≤ max
  | _ => True
  end.

(** ** A small deployment

    A concrete set of collaborators, used to run the plugin on examples. *)

Definition dict_str (d : dict) (k : string) : string :=
  match d !! k with Some (VStr x) => x | _ => "" end.

Definition dict_value (d : dict) (k : string) : value :=
  default VNone (d !! k).

Definition dict_bool (d : dict) (k : string) : bool :=
  match d !! k with Some (VBool b) => b | _ => false end.

(** Modelled from the spec: [subnet_alloc.SubnetPoolReader] is not part of
    the sources; this reader takes each attribute from the dictionary, the
    IP version from the prefixes, which must be of one version and not
    empty, and keeps the prefixes in compacted form. *)
Definition read_subnetpool (d : dict) : result exn Reader :=
  prefixes ← match d !! "prefixes" with
             | Some (VPrefixes l) => Ok l
             | _ => Raise (KeyError "prefixes")
             end;
  ip_version ← match prefixes with
               | [] => Raise (OtherError "EmptySubnetPoolPrefixList")
               | n :: rest =>
                   if forallb (λ m, n_version m =? n_version n) rest
                   then Ok (n_version n)
                   else Raise (OtherError "PrefixVersionMismatch")
               end;
  Ok {| rd_tenant_id := dict_str d "tenant_id";
        rd_id := dict_str d "id";
        rd_name := dict_str d "name";
        rd_ip_version := ip_version;
        rd_default_prefixlen := dict_value d "default_prefixlen";
        rd_min_prefixlen := dict_value d "min_prefixlen";
        rd_max_prefixlen := dict_value d "max_prefixlen";
        rd_is_default := dict_bool d "is_default";
        rd_shared := dict_bool d "shared";
        rd_default_quota := dict_value d "default_quota";
        rd_address_scope_id :=
          match d !! "address_scope_id" with
          | Some (VStr x) => Val x
          | Some VNotSpecified => NotSpecified
          | _ => PyNone
          end;
        rd_description := dict_value d "description";
        rd_prefixes := cidr_merge prefixes |}.

(** Modelled from the spec: [ipam.utils.check_gateway_invalid_in_subnet] is
    not part of the sources; a gateway inside the subnet is invalid when it
    is the network address or, for IPv4, the broadcast address. *)
Definition gateway_invalid_in_subnet (net : IPNetwork) (ip : IPAddress)
  : bool :=
  network_contains_addr net ip
  && ((a_value ip =? first net)
      || ((n_version net =? 4) && (a_value ip =? last net))).

Definition demo_env_with (ipam : Context → Port → PortUpdate → M unit) : Env :=
  {| SubnetPoolReader := read_subnetpool;
     is_address_scope_owned_by_tenant := λ _ _, Ok true;
     get_ip_version_for_address_scope := λ _ _, Ok 4;
     apply_dict_extend_functions := λ _ d _, d;
     generate_uuid := "uuid-1";
     max_dns_nameservers := 5;
     max_subnet_host_routes := 20;
     ipv6_pd_enabled := false;
     check_gateway_invalid_in_subnet := gateway_invalid_in_subnet;
     model_query_ports := λ _ db, db_ports db;
     model_query_subnets := λ _ db, db_subnets db;
     has_get_router := false;
     self_get_router := λ id, Raise (RouterNotFound id);
     l3plugin_get_router := None;
     ipam_update_port := ipam;
     ipam_validate_pools_with_subnetpool := λ _, Ok tt;
     _create_subnet := λ _ _ _, raise (OtherError "NetworkNotFound") |}.

Definition demo_env : Env := demo_env_with (λ _ _ _, mret tt).

(** An IPAM backend whose port update loses its allocation to a concurrent
    subnet deletion. *)
Definition racing_env : Env :=
  demo_env_with
    (λ _ _ _, raise (IpAddressAllocationNotFound "10.0.0.5" "subnet-1"
                                                 "port-1")).

Definition admin : Context := mkContext true "admin".

Definition empty_db : DB := mkDB [] [] [] [] [] [] [].

(** Dotted-quad helper for examples. *)
Definition ipv4 (a b c d : Z) : Z := ((a * 256 + b) * 256 + c) * 256 + d.

Definition net4 (a b c d len : Z) : IPNetwork := mkNet 4 (ipv4 a b c d) len.

(** Two pools bound to one address scope. *)
Definition pool_a : SubnetPool :=
  {| sp_tenant_id := "tenant-1"; sp_id := "pool-a"; sp_name := "a";
     sp_ip_version := 4; sp_default_prefixlen := VInt 26;
     sp_min_prefixlen := VInt 24; sp_max_prefixlen := VInt 32;
     sp_is_default := false; sp_shared := false; sp_default_quota := VNone;
     sp_address_scope_id := Val "scope-1"; sp_description := VStr "";
     sp_prefixes := [net4 10 0 0 0 24] |}.

Definition pool_b : SubnetPool :=
  {| sp_tenant_id := "tenant-1"; sp_id := "pool-b"; sp_name := "b";
     sp_ip_version := 4; sp_default_prefixlen := VInt 26;
     sp_min_prefixlen := VInt 24; sp_max_prefixlen := VInt 32;
     sp_is_default := false; sp_shared := false; sp_default_quota := VNone;
     sp_address_scope_id := Val "scope-1"; sp_description := VStr "";
     sp_prefixes := [net4 10 0 1 0 24] |}.

(** A default pool of IPv4. *)
Definition default_pool : SubnetPool :=
  {| sp_tenant_id := "tenant-1"; sp_id := "pool-d"; sp_name := "d";
     sp_ip_version := 4; sp_default_prefixlen := VInt 26;
     sp_min_prefixlen := VInt 24; sp_max_prefixlen := VInt 32;
     sp_is_default := true; sp_shared := false; sp_default_quota := VNone;
     sp_address_scope_id := PyNone; sp_description := VStr "";
     sp_prefixes := [net4 10 8 0 0 16] |}.

Definition scoped_db : DB := mkDB [pool_a; pool_b] [] [] [] [] [] [].

(** A shared network with a port of its owner, a DHCP port and one subnet,
    and the same network with a port of another tenant added. *)
Definition wildcard_grant : RbacEntry :=
  mkRbac "rbac-1" "access_as_shared" "*" "tenant-1".

Definition shared_net : Network :=
  mkNetwork "net-1" "tenant-1" "blue" true [wildcard_grant].

Definition owner_only_db : DB :=
  mkDB []
    [ mkPort "port-1" "tenant-1" "net-1" "compute:nova" "vm-1" "fa:16:3e:00:00:01";
      mkPort "port-2" "service" "net-1" "network:dhcp" "dhcp-1" "fa:16:3e:00:00:02" ]
    [ mkSubnet "subnet-1" "tenant-1" "net-1" (mkNet 4 167772160 24) 4 None true
        PyNone PyNone PyNone ]
    [] [] [] [shared_net].


(** A subnet whose gateway 10.0.0.1 is held by a router port. *)
Definition gw_address : IPAddress := mkAddr 4 167772161.

Definition routed_subnet : Subnet :=
  mkSubnet "subnet-1" "tenant-1" "net-1" (mkNet 4 167772160 24) 4
           (Some gw_address) true PyNone PyNone PyNone.

Definition routed_db : DB :=
  mkDB []
    [ mkPort "port-r" "tenant-1" "net-1" "network:router_interface" "router-1"
             "fa:16:3e:00:00:09" ]
    [ routed_subnet ]
    [ mkAlloc gw_address "subnet-1" "port-r" "net-1" ]
    [ mkRouterPort "router-1" "port-r" ]
    [] [].

(** Subnet requests. *)
Definition spec_v4 (cidr : IPNetwork) (enable_dhcp : bool) : SubnetSpec :=
  {| s_ip_version := Val 4; s_cidr := Val cidr; s_prefixlen := NotSpecified;
     s_enable_dhcp := Val enable_dhcp; s_gateway_ip := PyNone;
     s_dns_nameservers := NotSpecified; s_host_routes := NotSpecified;
     s_ipv6_ra_mode := NotSpecified; s_ipv6_address_mode := NotSpecified;
     s_id := Absent; s_subnetpool_id := NotSpecified;
     s_use_default_subnetpool := NotSpecified; s_network_id := "net-1" |}.

Definition spec_v6 (cidr : IPNetwork) (address_mode : attr string)
  : SubnetSpec :=
  {| s_ip_version := Val 6; s_cidr := Val cidr; s_prefixlen := NotSpecified;
     s_enable_dhcp := Val true; s_gateway_ip := PyNone;
     s_dns_nameservers := NotSpecified; s_host_routes := NotSpecified;
     s_ipv6_ra_mode := NotSpecified; s_ipv6_address_mode := address_mode;
     s_id := Absent; s_subnetpool_id := NotSpecified;
     s_use_default_subnetpool := NotSpecified; s_network_id := "net-1" |}.

(** 2001:db8::/80 *)
Definition net6_db8_80 : IPNetwork := mkNet 6 (8193 * 2 ^ 112 + 3512 * 2 ^ 96) 80.

(** The subnet 2001:db8::/80 as stored, without addressing modes, and the
    store that holds it. *)
Definition plain_subnet_80 : Subnet :=
  mkSubnet "subnet-8" "tenant-1" "net-1" net6_db8_80 6 None true
           PyNone PyNone PyNone.

Definition plain_80_db : DB := mkDB [] [] [plain_subnet_80] [] [] [] [].

(** An update of [routed_subnet] that moves the gateway to 10.0.0.2. *)
Definition move_gateway : SubnetSpec :=
  {| s_ip_version := Val 4; s_cidr := Val (mkNet 4 167772160 24);
     s_prefixlen := Absent; s_enable_dhcp := Absent;
     s_gateway_ip := Val (mkAddr 4 167772162);
     s_dns_nameservers := Absent; s_host_routes := Absent;
     s_ipv6_ra_mode := Absent; s_ipv6_address_mode := Absent;
     s_id := Val "subnet-1"; s_subnetpool_id := PyNone;
     s_use_default_subnetpool := Absent; s_network_id := "net-1" |}.

(** A request that gives both a cidr and a prefix length. *)
Definition both_cidr_and_prefixlen : SubnetSpec :=
  {| s_ip_version := Val 4; s_cidr := Val (net4 10 0 0 0 24);
     s_prefixlen := Val 24; s_enable_dhcp := Val true;
     s_gateway_ip := NotSpecified; s_dns_nameservers := NotSpecified;
     s_host_routes := NotSpecified; s_ipv6_ra_mode := NotSpecified;
     s_ipv6_address_mode := NotSpecified; s_id := Absent;
     s_subnetpool_id := NotSpecified;
     s_use_default_subnetpool := NotSpecified; s_network_id := "net-1" |}.

(** Requests that replace the prefixes of a pool. *)
Definition prefixes_request (l : list IPNetwork) : dict :=
  {[ "prefixes" := VPrefixes l ]}.

(** Case analysis on the integer comparisons of a goal. *)
Ltac zbool :=
  repeat match goal with
    | H : context [Z.ltb ?x ?y] |- _ => destruct (Z.ltb_spec x y)
    | H : context [Z.leb ?x ?y] |- _ => destruct (Z.leb_spec x y)
    | H : context [Z.eqb ?x ?y] |- _ => destruct (Z.eqb_spec x y)
    | |- context [Z.ltb ?x ?y] => destruct (Z.ltb_spec x y)
    | |- context [Z.leb ?x ?y] => destruct (Z.leb_spec x y)
    | |- context [Z.eqb ?x ?y] => destruct (Z.eqb_spec x y)
    end;
  simpl in *.


(** * Further operations *)

(** ** Access policies on networks *)

(** Events of [neutron.callbacks.events]. *)
Definition BEFORE_CREATE : string := "before_create".
Definition BEFORE_UPDATE : string := "before_update".
Definition BEFORE_DELETE : string := "before_delete".

(** An RBAC policy as the callback registry hands it over. *)
Record Policy := mkPolicy {
  policy_object_id : string;
  policy_action : string;
  policy_target_tenant : string }.

(** [ctx.get_admin_context()]: an admin context of no tenant (the empty
    string stands for [None]). *)
Definition get_admin_context : Context := mkContext true "".

Definition msg_only_admins : string :=
  "Only admins can manipulate policies on networks they do not own".

(** [d[k]] for a dictionary of strings. *)
Definition lookup_or_KeyError {V} (d : gmap string V) (k : string)
  : result exn V :=
  match d !! k with
  | Some v => Ok v
  | None => Raise (KeyError k)
  end.

Section Policies.
Context (env : Env).

(** The rows of the RBAC table whose [object_id] is the network. *)
Definition network_rbac_entries (db : DB) (network_id : string)
  : list RbacEntry :=
  n ← filter (λ n, net_id n = network_id) (db_networks db);
  net_rbac_entries n.

Definition ensure_no_tenant_ports_on_network (db : DB)
           (network_id net_tenant_id tenant_id : string)
  : result exn unit :=
  let ctx_admin := get_admin_context in
  let other_rbac_entries :=
    filter (λ e, rbac_action e = "access_as_shared")
           (network_rbac_entries db network_id) in
  let ports :=
    filter (λ p, port_network_id p = network_id)
           (model_query_ports env ctx_admin db) in
  if String.eqb tenant_id "*"
  then
    let other_rbac_entries :=
      filter (λ e, rbac_target_tenant e ≠ tenant_id) other_rbac_entries in
    let allowed_tenants :=
      (rbac_target_tenant <$> other_rbac_entries) ++ [net_tenant_id] in
    let ports :=
      filter (λ p, port_tenant_id p ∉ allowed_tenants) ports in
    check (0 <? Z.of_nat (length ports)) (InvalidSharedSetting network_id)
  else
    let query :=
      filter (λ e, rbac_target_tenant e = "*") other_rbac_entries in
    if 0 <? Z.of_nat (length query)
    then Ok tt
    else
      let ports := filter (λ p, port_tenant_id p = tenant_id) ports in
      check (0 <? Z.of_nat (length ports)) (InvalidSharedSetting network_id).

(** [validate_network_rbac_policy_change]; [kwargs] holds the keyword
    arguments, of which [policy_update] is read on an update. *)
Definition validate_network_rbac_policy_change (db : DB) (event : string)
           (context : Context) (object_type : string) (policy : Policy)
           (kwargs : gmap string (gmap string string)) : result exn unit :=
  if negb (String.eqb object_type "network")
     || negb (String.eqb (policy_action policy) "access_as_shared")
  then Ok tt
  else
    net ← _get_network db (policy_object_id policy);
    (if bool_decide (event ∈ [BEFORE_CREATE; BEFORE_UPDATE])
     then check (negb (ctx_is_admin context)
                 && negb (String.eqb (net_tenant_id net)
                                     (ctx_tenant_id context)))
                (InvalidInput msg_only_admins)
     else Ok tt);;
    tenant_to_check ←
      (if String.eqb event BEFORE_UPDATE
       then
         policy_update ← lookup_or_KeyError kwargs "policy_update";
         new_tenant ← lookup_or_KeyError policy_update "target_tenant";
         if bool_decide (policy_target_tenant policy ≠ new_tenant)
         then Ok (Some (policy_target_tenant policy))
         else Ok None
       else Ok None);
    let tenant_to_check :=
      if String.eqb event BEFORE_DELETE
      then Some (policy_target_tenant policy)
      else tenant_to_check in
    match tenant_to_check with
    | Some tenant =>
        if negb (String.eqb tenant "")
        then ensure_no_tenant_ports_on_network db (net_id net)
               (net_tenant_id net) tenant
        else Ok tt
    | None => Ok tt
    end.

End Policies.

(** ** Bulk creation *)

Section Bulk.
Context {I A : Type}.

(** The loop of [_create_bulk]:
    [objects.append(obj_creator(context, item))] for each item. *)
Fixpoint create_items (obj_creator : I → M A) (items : list I)
         (objects : list A) : M (list A) :=
  match items with
  | [] => mret objects
  | item :: rest =>
      obj ← obj_creator item;
      create_items obj_creator rest (objects ++ [obj])
  end.

(** [_create_bulk]; [obj_creator] is the method [create_<resource>]. *)
Definition _create_bulk (resource : string)
           (obj_creator : Context → I → M A) (context : Context)
           (request_items : gmap string (list I)) : M (list A) :=
  let collection := resource +:+ "s" in
  items ← lift (lookup_or_KeyError request_items collection);
  transaction (create_items (obj_creator context) items []).

End Bulk.

Definition create_subnet_bulk (env : Env) (context : Context)
           (subnets : gmap string (list SubnetSpec)) : M (list Subnet) :=
  _create_bulk "subnet" (create_subnet env) context subnets.

(** ** Deleting ports *)

Section DeletePorts.
(* ipam.delete_port *)
Variable ipam_delete_port : Context → string → M unit.

Definition delete_port (context : Context) (id : string) : M unit :=
  transaction (ipam_delete_port context id).

(** [try: ... except exc.PortNotFound:] of [delete_ports_by_device_id]. *)
Definition ignore_port_not_found (body : M unit) : M unit := λ db,
  match body db with
  | (Raise (PortNotFound _), db') => (Ok tt, db')
  | r => r
  end.

Fixpoint delete_each (context : Context) (port_ids : list string) : M unit :=
  match port_ids with
  | [] => mret tt
  | port_id :: rest =>
      ignore_port_not_found (delete_port context port_id);;
      delete_each context rest
  end.

(** The ids [delete_ports_by_device_id] selects: the ports of the device,
    on the network if one is given. *)
Definition ports_of_device (db : DB) (device_id : string)
           (network_id : option string) : list string :=
  let query := filter (λ p, port_device_id p = device_id) (db_ports db) in
  let query :=
    match network_id with
    | Some network_id =>
        if negb (String.eqb network_id "")
        then filter (λ p, port_network_id p = network_id) query
        else query
    | None => query
    end in
  port_id <$> query.

Definition delete_ports_by_device_id (context : Context) (device_id : string)
           (network_id : option string) : M unit :=
  db ← get_db;
  let port_ids := ports_of_device db device_id network_id in
  delete_each context port_ids.

End DeletePorts.

(** ** Deleting subnets, networks and subnetpools *)

(** [AUTO_DELETE_PORT_OWNERS = [constants.DEVICE_OWNER_DHCP]] *)
Definition AUTO_DELETE_PORT_OWNERS : list string := ["network:dhcp"].

(** The exceptions of the delete operations; [Plugin] carries those of the
    operations above.  The [reason] of [SubnetInUse] is the failure of the
    callback when one is given. *)
Inductive delete_exn :=
| SubnetInUse (subnet_id : string) (reason : option string)
| NetworkInUse (net_id : string)
| SubnetPoolDeleteError (reason : string)
| SubnetNotFound (subnet_id : string)
| CallbackFailure (errors : string)
| Plugin (e : exn).

#[export] Instance IPAllocation_eq_dec : EqDecision IPAllocation.
Proof. solve_decision. Defined.

(** State passing with the exceptions of the delete operations. *)
Definition D (A : Type) : Type := DB → result delete_exn A * DB.

#[export] Instance D_bind : MBind D := λ A B k m db,
  match m db with
  | (Ok a, db') => k a db'
  | (Raise e, db') => (Raise e, db')
  end.

#[export] Instance D_ret : MRet D := λ A a db, (Ok a, db).

Definition lift_result {A} (r : result delete_exn A) : D A := λ db, (r, db).

Definition lift_plugin {A} (r : result exn A) : D A := λ db,
  (match r with Ok a => Ok a | Raise e => Raise (Plugin e) end, db).

Definition raise_delete {A} (e : delete_exn) : D A := λ db, (Raise e, db).

Definition read_db : D DB := λ db, (Ok db, db).

(** [with context.session.begin(subtransactions=True):] *)
Definition in_transaction {A} (body : D A) : D A := λ db,
  match body db with
  | (Ok a, db') => (Ok a, db')
  | (Raise e, _) => (Raise e, db)
  end.

Definition set_ports (db : DB) (ports : list Port) : DB :=
  {| db_subnetpools := db_subnetpools db;
     db_ports := ports;
     db_subnets := db_subnets db;
     db_ipallocations := db_ipallocations db;
     db_routerports := db_routerports db;
     db_events := db_events db;
     db_networks := db_networks db |}.

Definition set_subnets (db : DB) (subnets : list Subnet) : DB :=
  {| db_subnetpools := db_subnetpools db;
     db_ports := db_ports db;
     db_subnets := subnets;
     db_ipallocations := db_ipallocations db;
     db_routerports := db_routerports db;
     db_events := db_events db;
     db_networks := db_networks db |}.

Definition set_ipallocations (db : DB) (allocations : list IPAllocation)
  : DB :=
  {| db_subnetpools := db_subnetpools db;
     db_ports := db_ports db;
     db_subnets := db_subnets db;
     db_ipallocations := allocations;
     db_routerports := db_routerports db;
     db_events := db_events db;
     db_networks := db_networks db |}.

Definition set_networks (db : DB) (networks : list Network) : DB :=
  {| db_subnetpools := db_subnetpools db;
     db_ports := db_ports db;
     db_subnets := db_subnets db;
     db_ipallocations := db_ipallocations db;
     db_routerports := db_routerports db;
     db_events := db_events db;
     db_networks := networks |}.

(** Modelled from the spec: [_get_subnet] of the common plugin code is not
    part of the sources; the subnet of the given id, or
    [SubnetNotFound]. *)
Definition _get_subnet (db : DB) (id : string) : result delete_exn Subnet :=
  match head (filter (λ s, subnet_id s = id) (db_subnets db)) with
  | Some s => Ok s
  | None => Raise (SubnetNotFound id)
  end.

(** Modelled from the spec: [_get_subnets_by_network] of the common plugin
    code is not part of the sources; the subnets a network owns. *)
Definition _get_subnets_by_network (db : DB) (network_id : string)
  : list Subnet :=
  filter (λ s, subnet_network_id s = network_id) (db_subnets db).

(** Modelled from the spec: [_get_subnets_by_subnetpool] of the common
    plugin code is not part of the sources; the subnets that refer to a
    pool. *)
Definition _get_subnets_by_subnetpool (db : DB) (subnetpool_id : string)
  : list Subnet :=
  filter (λ s, subnet_subnetpool_id s = Val subnetpool_id) (db_subnets db).

(** [session.query(IPAllocation).filter_by(subnet_id=..).join(Port)]: the
    allocations on the subnet, each with the port it belongs to. *)
Definition allocations_with_port (db : DB) (subnet_id : string)
  : list (IPAllocation * Port) :=
  a ← filter (λ a, alloc_subnet_id a = subnet_id) (db_ipallocations db);
  p ← filter (λ p, port_id p = alloc_port_id a) (db_ports db);
  [(a, p)].

Definition _subnet_check_ip_allocations (db : DB) (subnet_id : string)
  : option IPAllocation :=
  head (allocations_with_port db subnet_id).*1.

Definition _subnet_get_user_allocation (db : DB) (subnet_id : string)
  : option IPAllocation :=
  head (filter (λ ap, port_device_owner ap.2 ∉ AUTO_DELETE_PORT_OWNERS)
               (allocations_with_port db subnet_id)).*1.

Definition _subnet_check_ip_allocations_internal_router_ports (db : DB)
           (subnet_id : string) : result delete_exn unit :=
  let allocs :=
    head (filter (λ ap, port_device_owner ap.2 ∈ ROUTER_INTERFACE_OWNERS)
                 (allocations_with_port db subnet_id)).*1 in
  match allocs with
  | Some _ => Raise (SubnetInUse subnet_id None)
  | None => Ok tt
  end.

(** [context.session.delete(..)] of allocations, of a subnet and of a
    network. *)
Definition session_delete_allocations (allocations : list IPAllocation)
  : D unit := λ db,
  (Ok tt,
   set_ipallocations db
     (filter (λ a, a ∉ allocations) (db_ipallocations db))).

Definition session_delete_subnet (subnet : Subnet) : D unit := λ db,
  (Ok tt,
   set_subnets db
     (filter (λ s, subnet_id s ≠ subnet_id subnet) (db_subnets db))).

Definition session_delete_network (network : Network) : D unit := λ db,
  (Ok tt,
   set_networks db
     (filter (λ n, net_id n ≠ net_id network) (db_networks db))).

(** Modelled from the spec: [subnetpool.delete()] of the object layer is
    not part of the sources; the row of the pool is removed. *)
Definition SubnetPool_delete (subnetpool : SubnetPool) : D unit := λ db,
  (Ok tt,
   with_pools db
     (filter (λ p, sp_id p ≠ sp_id subnetpool) (db_subnetpools db))).

Section Deleting.
(* registry.notify(resource, event, trigger, context=.., subnet_id=..) *)
Variable registry_notify : string → string → Context → string → D unit.
(* ipam.delete_subnet *)
Variable ipam_delete_subnet : Context → string → D unit.

Definition _check_subnet_not_used (context : Context) (subnet_id : string)
  : D unit := λ db,
  match registry_notify "subnet" BEFORE_DELETE context subnet_id db with
  | (Raise (CallbackFailure e), db') =>
      (Raise (SubnetInUse subnet_id (Some e)), db')
  | r => r
  end.

Definition delete_subnet (context : Context) (id : string) : D unit :=
  in_transaction (
    db ← read_db;
    subnet ← lift_result (_get_subnet db id);
    _check_subnet_not_used context id;;
    let is_auto_addr_subnet :=
      is_auto_address_subnet (subnet_ipv6_address_mode subnet)
                             (subnet_ipv6_ra_mode subnet) in
    (if is_auto_addr_subnet
     then
       db ← read_db;
       lift_result (_subnet_check_ip_allocations_internal_router_ports db id)
     else mret tt);;
    db ← read_db;
    let qry_network_ports := allocations_with_port db (subnet_id subnet) in
    let qry_network_ports :=
      if is_auto_addr_subnet
      then qry_network_ports
      else filter (λ ap, port_device_owner ap.2 ∈ AUTO_DELETE_PORT_OWNERS)
                  qry_network_ports in
    let network_ports := qry_network_ports.*1 in
    session_delete_allocations network_ports;;
    (if negb is_auto_addr_subnet
     then
       db ← read_db;
       match _subnet_check_ip_allocations db id with
       | Some alloc => raise_delete (SubnetInUse id None)
       | None => mret tt
       end
     else mret tt);;
    session_delete_subnet subnet;;
    ipam_delete_subnet context id).

(** The loop of [delete_network] over the subnets of the network. *)
Fixpoint delete_subnets (context : Context) (subnet_ids : list string)
  : D unit :=
  match subnet_ids with
  | [] => mret tt
  | id :: rest => delete_subnet context id;; delete_subnets context rest
  end.

(** Modelled from the spec: the table of the allocations is not part of
    the sources; its rows refer to their port with [ondelete=CASCADE], so
    the query that deletes the automatically deleted ports of a network
    deletes the allocations of these ports with them. *)
Definition delete_auto_ports (id : string) : D unit := λ db,
  let deleted :=
    port_id <$> filter (λ p, port_network_id p = id
                             ∧ port_device_owner p ∈ AUTO_DELETE_PORT_OWNERS)
                       (db_ports db) in
  (Ok tt,
   set_ipallocations
     (set_ports db
        (filter (λ p, ¬ (port_network_id p = id
                         ∧ port_device_owner p ∈ AUTO_DELETE_PORT_OWNERS))
                (db_ports db)))
     (filter (λ a, alloc_port_id a ∉ deleted) (db_ipallocations db))).

Definition delete_network (context : Context) (id : string) : D unit :=
  in_transaction (
    db ← read_db;
    network ← lift_plugin (_get_network db id);
    delete_auto_ports id;;
    db ← read_db;
    let port_in_use := head (filter (λ p, port_network_id p = id)
                                    (db_ports db)) in
    match port_in_use with
    | Some _ => raise_delete (NetworkInUse id)
    | None => mret tt
    end;;
    let subnets := _get_subnets_by_network db id in
    delete_subnets context (subnet_id <$> subnets);;
    session_delete_network network).

Definition delete_subnetpool (context : Context) (id : string) : D unit :=
  in_transaction (
    db ← read_db;
    subnetpool ← lift_plugin (_get_subnetpool db id);
    let subnets := _get_subnets_by_subnetpool db id in
    match subnets with
    | _ :: _ =>
        raise_delete
          (SubnetPoolDeleteError "Subnet pool has existing allocations")
    | [] => SubnetPool_delete subnetpool
    end).

End Deleting.

(** ** Further example data *)

(** A request for 10.0.0.0/24 with a gateway, two name servers and one host
    route, all of IPv4. *)
Definition served_spec : SubnetSpec :=
  {| s_ip_version := Val 4; s_cidr := Val (net4 10 0 0 0 24);
     s_prefixlen := NotSpecified; s_enable_dhcp := Val true;
     s_gateway_ip := Val (mkAddr 4 (ipv4 10 0 0 1));
     s_dns_nameservers :=
       Val [Some (mkAddr 4 (ipv4 8 8 8 8)); Some (mkAddr 4 (ipv4 8 8 4 4))];
     s_host_routes :=
       Val [mkRoute (Some (net4 192 168 0 0 16))
                    (Some (mkAddr 4 (ipv4 10 0 0 254)))];
     s_ipv6_ra_mode := NotSpecified; s_ipv6_address_mode := NotSpecified;
     s_id := Absent; s_subnetpool_id := NotSpecified;
     s_use_default_subnetpool := NotSpecified; s_network_id := "net-1" |}.

(** 2001:db8::/64 *)
Definition net6_db8_64 : IPNetwork :=
  mkNet 6 (8193 * 2 ^ 112 + 3512 * 2 ^ 96) 64.

(** An IPv6 subnet as stored, with SLAAC addressing. *)
Definition slaac_subnet : Subnet :=
  mkSubnet "subnet-6" "tenant-1" "net-1" net6_db8_64 6 None true
           (Val IPV6_SLAAC) (Val IPV6_SLAAC) PyNone.

(** An update of [slaac_subnet] that only turns DHCP off. *)
Definition disable_dhcp : SubnetSpec :=
  {| s_ip_version := Val 6; s_cidr := Val net6_db8_64;
     s_prefixlen := Absent; s_enable_dhcp := Val false;
     s_gateway_ip := Absent; s_dns_nameservers := Absent;
     s_host_routes := Absent; s_ipv6_ra_mode := Absent;
     s_ipv6_address_mode := Absent; s_id := Val "subnet-6";
     s_subnetpool_id := PyNone; s_use_default_subnetpool := Absent;
     s_network_id := "net-1" |}.

(** A new IPv6 subnet with both modes given. *)
Definition spec_v6_modes (ra_mode address_mode : string) (enable_dhcp : bool)
  : SubnetSpec :=
  {| s_ip_version := Val 6; s_cidr := Val net6_db8_64;
     s_prefixlen := NotSpecified; s_enable_dhcp := Val enable_dhcp;
     s_gateway_ip := PyNone; s_dns_nameservers := NotSpecified;
     s_host_routes := NotSpecified; s_ipv6_ra_mode := Val ra_mode;
     s_ipv6_address_mode := Val address_mode; s_id := Absent;
     s_subnetpool_id := NotSpecified;
     s_use_default_subnetpool := NotSpecified; s_network_id := "net-1" |}.

(** An IPv4 request that carries an IPv6 address mode. *)
Definition spec_v4_with_mode : SubnetSpec :=
  {| s_ip_version := Val 4; s_cidr := Val (net4 10 0 0 0 24);
     s_prefixlen := NotSpecified; s_enable_dhcp := Val true;
     s_gateway_ip := PyNone; s_dns_nameservers := NotSpecified;
     s_host_routes := NotSpecified; s_ipv6_ra_mode := NotSpecified;
     s_ipv6_address_mode := Val IPV6_SLAAC; s_id := Absent;
     s_subnetpool_id := NotSpecified;
     s_use_default_subnetpool := NotSpecified; s_network_id := "net-1" |}.

(** A deployment whose L3 plugin knows one router, of tenant-2. *)
Definition l3_env : Env :=
  {| SubnetPoolReader := read_subnetpool;
     is_address_scope_owned_by_tenant := λ _ _, Ok true;
     get_ip_version_for_address_scope := λ _ _, Ok 4;
     apply_dict_extend_functions := λ _ d _, d;
     generate_uuid := "uuid-1";
     max_dns_nameservers := 5;
     max_subnet_host_routes := 20;
     ipv6_pd_enabled := true;
     check_gateway_invalid_in_subnet := gateway_invalid_in_subnet;
     model_query_ports := λ _ db, db_ports db;
     model_query_subnets := λ _ db, db_subnets db;
     has_get_router := false;
     self_get_router := λ id, Raise (RouterNotFound id);
     l3plugin_get_router :=
       Some (λ id, if String.eqb id "router-2"
                   then Ok (mkRouter "tenant-2")
                   else Raise (RouterNotFound id));
     ipam_update_port := λ _ _ _, mret tt;
     ipam_validate_pools_with_subnetpool := λ _, Ok tt;
     _create_subnet := λ _ _ _, raise (OtherError "NetworkNotFound") |}.

Definition tenant_1 : Context := mkContext false "tenant-1".

(** A store whose only pool is the default pool of IPv4. *)
Definition default_db : DB := mkDB [default_pool] [] [] [] [] [] [].

(** A request that leaves the choice of the pool to the default. *)
Definition spec_from_default (ip_version : Z) : SubnetSpec :=
  {| s_ip_version := Val ip_version; s_cidr := NotSpecified;
     s_prefixlen := NotSpecified; s_enable_dhcp := Val true;
     s_gateway_ip := NotSpecified; s_dns_nameservers := NotSpecified;
     s_host_routes := NotSpecified; s_ipv6_ra_mode := NotSpecified;
     s_ipv6_address_mode := NotSpecified; s_id := Absent;
     s_subnetpool_id := NotSpecified;
     s_use_default_subnetpool := Val true; s_network_id := "net-1" |}.

(** A request for a prefix delegated subnet. *)
Definition spec_pd (ra_mode address_mode : attr string) : SubnetSpec :=
  {| s_ip_version := Val 6; s_cidr := NotSpecified;
     s_prefixlen := NotSpecified; s_enable_dhcp := Val true;
     s_gateway_ip := NotSpecified; s_dns_nameservers := NotSpecified;
     s_host_routes := NotSpecified; s_ipv6_ra_mode := ra_mode;
     s_ipv6_address_mode := address_mode; s_id := Absent;
     s_subnetpool_id := Val IPV6_PD_POOL_ID;
     s_use_default_subnetpool := NotSpecified; s_network_id := "net-1" |}.

(** An IPv4 request that names a pool and carries an IPv6 address mode. *)
Definition spec_v4_from_pool : SubnetSpec :=
  {| s_ip_version := Val 4; s_cidr := Val (net4 10 0 0 77 24);
     s_prefixlen := NotSpecified; s_enable_dhcp := Val true;
     s_gateway_ip := PyNone; s_dns_nameservers := NotSpecified;
     s_host_routes := NotSpecified; s_ipv6_ra_mode := NotSpecified;
     s_ipv6_address_mode := Val IPV6_SLAAC; s_id := Absent;
     s_subnetpool_id := Val "pool-a";
     s_use_default_subnetpool := NotSpecified; s_network_id := "net-1" |}.

(** A private network and a store that holds it. *)
Definition private_net : Network :=
  mkNetwork "net-2" "tenant-1" "green" false [].

Definition private_db : DB :=
  mkDB []
    [ mkPort "port-5" "tenant-2" "net-2" "compute:nova" "vm-5"
             "fa:16:3e:00:00:05" ]
    [] [] [] [] [private_net].

(** The request that only turns sharing on. *)
Definition grant_shared : NetworkUpdate := mkNetworkUpdate (Some true) None.

(** A deployment in which the caller owns no address scope. *)
Definition foreign_scope_env : Env :=
  {| SubnetPoolReader := read_subnetpool;
     is_address_scope_owned_by_tenant := λ _ _, Ok false;
     get_ip_version_for_address_scope := λ _ _, Ok 4;
     apply_dict_extend_functions := λ _ d _, d;
     generate_uuid := "uuid-1";
     max_dns_nameservers := 5;
     max_subnet_host_routes := 20;
     ipv6_pd_enabled := false;
     check_gateway_invalid_in_subnet := gateway_invalid_in_subnet;
     model_query_ports := λ _ db, db_ports db;
     model_query_subnets := λ _ db, db_subnets db;
     has_get_router := false;
     self_get_router := λ id, Raise (RouterNotFound id);
     l3plugin_get_router := None;
     ipam_update_port := λ _ _ _, mret tt;
     ipam_validate_pools_with_subnetpool := λ _, Ok tt;
     _create_subnet := λ _ _ _, raise (OtherError "NetworkNotFound") |}.

(** A request for a new pool bound to scope-1. *)
Definition new_scoped_pool : dict :=
  {[ "tenant_id" := VStr "tenant-1"; "id" := VStr "pool-n";
     "name" := VStr "n"; "address_scope_id" := VStr "scope-1";
     "prefixes" := VPrefixes [net4 10 9 0 0 16] ]}.

(** A network shared with tenant-2 by name and with every tenant. *)
Definition granted_net : Network :=
  mkNetwork "net-3" "tenant-1" "red" true
    [ mkRbac "rbac-2" "access_as_shared" "tenant-2" "tenant-1";
      mkRbac "rbac-3" "access_as_shared" "*" "tenant-1" ].

Definition granted_db : DB :=
  mkDB []
    [ mkPort "port-6" "tenant-2" "net-3" "compute:nova" "vm-6"
             "fa:16:3e:00:00:06";
      mkPort "port-7" "tenant-3" "net-3" "compute:nova" "vm-7"
             "fa:16:3e:00:00:07" ]
    [] [] [] [] [granted_net].

Definition wildcard_policy : Policy :=
  mkPolicy "net-3" "access_as_shared" "*".

(** A [_create_subnet] that stores the subnet as it is requested. *)
Definition store_subnet (context : Context) (s : SubnetSpec)
           (subnetpool_id : option string) : M Subnet := λ db,
  match s_cidr s, s_ip_version s with
  | Val c, Val v =>
      let row :=
        mkSubnet (generate_uuid demo_env) (ctx_tenant_id context)
                 (s_network_id s) c v None
                 (attr_bool_truthy (s_enable_dhcp s))
                 (s_ipv6_ra_mode s) (s_ipv6_address_mode s)
                 (s_subnetpool_id s) in
      (Ok row,
       {| db_subnetpools := db_subnetpools db;
          db_ports := db_ports db;
          db_subnets := db_subnets db ++ [row];
          db_ipallocations := db_ipallocations db;
          db_routerports := db_routerports db;
          db_events := db_events db;
          db_networks := db_networks db |})
  | _, _ => (Raise (OtherError "SubnetAllocationError"), db)
  end.

Definition storing_env : Env :=
  {| SubnetPoolReader := read_subnetpool;
     is_address_scope_owned_by_tenant := λ _ _, Ok true;
     get_ip_version_for_address_scope := λ _ _, Ok 4;
     apply_dict_extend_functions := λ _ d _, d;
     generate_uuid := "uuid-1";
     max_dns_nameservers := 5;
     max_subnet_host_routes := 20;
     ipv6_pd_enabled := false;
     check_gateway_invalid_in_subnet := gateway_invalid_in_subnet;
     model_query_ports := λ _ db, db_ports db;
     model_query_subnets := λ _ db, db_subnets db;
     has_get_router := false;
     self_get_router := λ id, Raise (RouterNotFound id);
     l3plugin_get_router := None;
     ipam_update_port := λ _ _ _, mret tt;
     ipam_validate_pools_with_subnetpool := λ _, Ok tt;
     _create_subnet := store_subnet |}.

(** An IPAM backend that deletes the row of the port, and one that fails on
    port-7. *)
Definition without_port (id : string) (db : DB) : DB :=
  {| db_subnetpools := db_subnetpools db;
     db_ports := filter (λ p, port_id p ≠ id) (db_ports db);
     db_subnets := db_subnets db;
     db_ipallocations := db_ipallocations db;
     db_routerports := db_routerports db;
     db_events := db_events db;
     db_networks := db_networks db |}.

Definition remove_port (context : Context) (id : string) : M unit := λ db,
  if existsb (λ p, String.eqb (port_id p) id) (db_ports db)
  then (Ok tt, without_port id db)
  else (Raise (PortNotFound id), db).

Definition remove_port_but_7 (context : Context) (id : string) : M unit :=
  if String.eqb id "port-7"
  then raise (OtherError "DBError")
  else remove_port context id.

(** Two ports of one device. *)
Definition device_db : DB :=
  mkDB []
    [ mkPort "port-6" "tenant-1" "net-1" "compute:nova" "vm-6"
             "fa:16:3e:00:00:06";
      mkPort "port-7" "tenant-1" "net-2" "compute:nova" "vm-6"
             "fa:16:3e:00:00:07";
      mkPort "port-8" "tenant-1" "net-1" "compute:nova" "vm-8"
             "fa:16:3e:00:00:08" ]
    [] [] [] [] [].

(** Collaborators of the delete operations that let everything pass, and a
    callback that vetoes. *)
Definition notify_pass (resource event : string) (context : Context)
           (subnet_id : string) : D unit := mret tt.

Definition notify_veto (resource event : string) (context : Context)
           (subnet_id : string) : D unit :=
  raise_delete (CallbackFailure "router interface").

Definition ipam_delete_pass (context : Context) (id : string) : D unit :=
  mret tt.

(** A network with an IPv4 subnet that serves a DHCP port and a port of a
    tenant, and the same network with the DHCP port alone. *)
Definition served_subnet : Subnet :=
  mkSubnet "subnet-1" "tenant-1" "net-1" (net4 10 0 0 0 24) 4 None true
           PyNone PyNone (Val "pool-a").

Definition dhcp_port : Port :=
  mkPort "port-d" "service" "net-1" "network:dhcp" "dhcp-1"
         "fa:16:3e:00:00:0d".

Definition vm_port : Port :=
  mkPort "port-v" "tenant-1" "net-1" "compute:nova" "vm-1"
         "fa:16:3e:00:00:0e".

Definition busy_db : DB :=
  mkDB [pool_a] [dhcp_port; vm_port] [served_subnet]
       [ mkAlloc (mkAddr 4 (ipv4 10 0 0 2)) "subnet-1" "port-d" "net-1";
         mkAlloc (mkAddr 4 (ipv4 10 0 0 5)) "subnet-1" "port-v" "net-1" ]
       [] [] [mkNetwork "net-1" "tenant-1" "blue" false []].

Definition idle_db : DB :=
  mkDB [pool_a; pool_b] [dhcp_port] [served_subnet]
       [ mkAlloc (mkAddr 4 (ipv4 10 0 0 2)) "subnet-1" "port-d" "net-1" ]
       [] [] [mkNetwork "net-1" "tenant-1" "blue" false []].

(** * Properties *)

(** ** Facts about the address library *)

Example cidr_merge_halves :
  cidr_merge [mkNet 4 (ipv4 10 0 0 128) 25; mkNet 4 (ipv4 10 0 0 0) 25]
  = [mkNet 4 (ipv4 10 0 0 0) 24].
Proof. vm_compute. reflexivity. Qed.

Example cidr_merge_apart :
  cidr_merge [mkNet 4 (ipv4 10 0 2 0) 24; mkNet 4 (ipv4 10 0 0 0) 24;
              mkNet 4 (ipv4 10 0 0 7) 32]
  = [mkNet 4 (ipv4 10 0 0 0) 24; mkNet 4 (ipv4 10 0 2 0) 24].
Proof. vm_compute. reflexivity. Qed.

Example iprange_to_cidrs_hosts :
  iprange_to_cidrs (mkRange 4 (ipv4 10 0 0 1) (ipv4 10 0 0 6))
  = [mkNet 4 (ipv4 10 0 0 1) 32; mkNet 4 (ipv4 10 0 0 2) 31;
     mkNet 4 (ipv4 10 0 0 4) 31; mkNet 4 (ipv4 10 0 0 6) 32].
Proof. vm_compute. reflexivity. Qed.

Module netaddr_facts.

Lemma pow_hostbits_pos n : 0 < 2 ^ hostbits n.
Proof. apply Z.pow_pos_nonneg; [lia | unfold hostbits; lia]. Qed.

Lemma first_le_last n : first n ≤ last n.
Proof. unfold last. pose proof (pow_hostbits_pos n). lia. Qed.

Lemma range_of_nonempty n : nonempty (range_of n).
Proof. apply first_le_last. Qed.





Lemma in_rangeb_spec a r : in_rangeb a r = true ↔ in_range a r.
Proof. unfold in_rangeb, in_range. zbool; intuition (try lia; done). Qed.

(** *** Merging runs *)

Lemma in_range_hull a r t :
  nonempty r → nonempty t → before r t = false → before t r = false →
  in_range a (hull r t) ↔ in_range a r ∨ in_range a t.
Proof.
  unfold nonempty, before, hull, in_range. simpl. intros Hr Ht Hrt Htr.
  zbool; try discriminate; intuition lia.
Qed.

Lemma hull_nonempty r t : nonempty r → nonempty (hull r t).
Proof. unfold nonempty, hull. simpl. lia. Qed.

Lemma add_range_nonempty r s :
  nonempty r → Forall nonempty s → Forall nonempty (add_range r s).
Proof.
  intros Hr Hs. revert r Hr. induction Hs as [|t s Ht Hs IH]; intros r Hr.
  - simpl. by constructor.
  - simpl. destruct (before r t); [by repeat constructor|].
    destruct (before t r).
    + constructor; [done|]. by apply IH.
    + apply IH. by apply hull_nonempty.
Qed.

Lemma in_ranges_cons a r s :
  in_ranges a (r :: s) ↔ in_range a r ∨ in_ranges a s.
Proof. unfold in_ranges. apply Exists_cons. Qed.

Lemma in_ranges_add_range a r s :
  nonempty r → Forall nonempty s →
  in_ranges a (add_range r s) ↔ in_range a r ∨ in_ranges a s.
Proof.
  intros Hr Hs. revert r Hr. induction Hs as [|t s Ht Hs IH]; intros r Hr.
  - simpl. rewrite in_ranges_cons. reflexivity.
  - simpl. destruct (before r t) eqn:Hrt.
    { rewrite in_ranges_cons. reflexivity. }
    destruct (before t r) eqn:Htr.
    + rewrite !in_ranges_cons, IH by done. tauto.
    + rewrite IH by (by apply hull_nonempty).
      rewrite in_range_hull, in_ranges_cons by done. tauto.
Qed.





Lemma mkIPSet_nonempty l : Forall nonempty (mkIPSet l).
Proof.
  induction l as [|n l IH]; simpl; [constructor|].
  apply add_range_nonempty; [apply range_of_nonempty | done].
Qed.


(** The set built from a list of networks holds exactly their addresses. *)
Lemma in_mkIPSet a l : in_ranges a (mkIPSet l) ↔ in_networks a l.
Proof.
  induction l as [|n l IH]; simpl.
  - unfold in_ranges, in_networks. by rewrite !Exists_nil.
  - rewrite in_ranges_add_range
      by (apply range_of_nonempty || apply mkIPSet_nonempty).
    unfold in_networks. rewrite Exists_cons, IH. reflexivity.
Qed.



(** *** Subset and intersection *)






Lemma in_range_inter a r q :
  (∃ x, x ∈ range_inter r q ∧ in_range a x) ↔ in_range a r ∧ in_range a q.
Proof.
  unfold range_inter, in_range. split.
  - intros (x & Hx & Ha). revert Hx.
    zbool; intros Hx; try (by apply elem_of_nil in Hx).
    apply list_elem_of_singleton in Hx as ->. simpl in *. lia.
  - intros [[Hv1 H1] [Hv2 H2]].
    zbool; [|lia..]; try congruence.
    eexists. split; [apply list_elem_of_singleton; reflexivity|].
    simpl. lia.
Qed.

Lemma in_intersection a s t :
  in_ranges a (intersection s t) ↔ in_ranges a s ∧ in_ranges a t.
Proof.
  unfold in_ranges, intersection. rewrite !Exists_exists. split.
  - intros (x & Hx & Ha).
    apply list_elem_of_In, in_flat_map in Hx as (r & Hr & Hx).
    apply in_flat_map in Hx as (q & Hq & Hx).
    destruct (proj1 (in_range_inter a r q)) as [Har Haq].
    { exists x. split; [by apply list_elem_of_In|done]. }
    split; [exists r | exists q]; split; auto; by apply list_elem_of_In.
  - intros [(r & Hr & Har) (q & Hq & Haq)].
    destruct (proj2 (in_range_inter a r q)) as (x & Hx & Ha); [done|].
    exists x. split; [|done].
    apply list_elem_of_In, in_flat_map. exists r.
    split; [by apply list_elem_of_In|].
    apply in_flat_map. exists q. split; by apply list_elem_of_In.
Qed.

Lemma range_inter_nonempty r q : Forall nonempty (range_inter r q).
Proof.
  unfold range_inter. zbool; repeat constructor.
  unfold nonempty. simpl. lia.
Qed.

Lemma intersection_nonempty s t : Forall nonempty (intersection s t).
Proof.
  unfold intersection. apply Forall_forall. intros x Hx.
  apply list_elem_of_In, in_flat_map in Hx as (r & Hr & Hx).
  apply in_flat_map in Hx as (q & Hq & Hx).
  pose proof (range_inter_nonempty r q) as Hne.
  rewrite Forall_forall in Hne. by apply Hne, list_elem_of_In.
Qed.

(** The intersection is truthy exactly when the sets share an address. *)
Lemma truth_intersection s t :
  truth (intersection s t) = true ↔
  ∃ a, in_ranges a s ∧ in_ranges a t.
Proof.
  split.
  - intros Htruth. destruct (intersection s t) as [|x l] eqn:E; [done|].
    pose proof (intersection_nonempty s t) as Hne. rewrite E in Hne.
    apply Forall_cons in Hne as [Hx _].
    exists (mkAddr (r_version x) (r_first x)).
    apply in_intersection. rewrite E. apply Exists_cons. left.
    unfold in_range, nonempty in *. simpl. lia.
  - intros (a & Ha). apply in_intersection in Ha.
    destruct (intersection s t); [|done]. by apply Exists_nil in Ha.
Qed.

Lemma truth_intersection_networks l1 l2 :
  truth (intersection (mkIPSet l1) (mkIPSet l2)) = true ↔
  ∃ a, in_networks a l1 ∧ in_networks a l2.
Proof.
  rewrite truth_intersection.
  split; intros (a & H1 & H2); exists a; split; by apply in_mkIPSet.
Qed.

(** *** From runs back to CIDR blocks *)













(** *** The ends of a block, with masks *)

Lemma testbit_above v w i : 0 ≤ v < 2 ^ w → w ≤ i → Z.testbit v i = false.
Proof.
  intros [H0 Hlt] Hi.
  destruct (Z.eq_dec v 0) as [->|Hne]; [apply Z.bits_0|].
  apply Z.bits_above_log2; [lia|].
  assert (0 ≤ w).
  { destruct (Z_lt_le_dec w 0); [|done]. rewrite Z.pow_neg_r in Hlt; lia. }
  assert (Z.log2 v < w) by (apply Z.log2_lt_pow2; lia). lia.
Qed.

Lemma land_mask v w h :
  0 ≤ v < 2 ^ w → 0 ≤ h ≤ w →
  Z.land v (Z.lxor (Z.ones w) (Z.ones h)) = 2 ^ h * (v / 2 ^ h).
Proof.
  intros Hv Hh.
  rewrite <- Z.shiftr_div_pow2, (Z.mul_comm (2 ^ h)), <- Z.shiftl_mul_pow2
    by lia.
  rewrite <- Z.ldiff_ones_r by lia.
  apply Z.bits_inj'. intros i Hi.
  rewrite Z.land_spec, Z.lxor_spec, Z.ldiff_spec.
  destruct (Z_lt_le_dec i w).
  - rewrite (Z.ones_spec_low w i) by lia.
    destruct (Z_lt_le_dec i h).
    + rewrite (Z.ones_spec_low h i) by lia. simpl.
      by destruct (Z.testbit v i).
    + rewrite (Z.ones_spec_high h i) by lia. simpl.
      by destruct (Z.testbit v i).
  - rewrite (testbit_above v w i) by (done || lia). done.
Qed.

Lemma lor_mask v h :
  0 ≤ h → Z.lor v (Z.ones h) = 2 ^ h * (v / 2 ^ h) + 2 ^ h - 1.
Proof.
  intros Hh.
  rewrite <- Z.shiftr_div_pow2, (Z.mul_comm (2 ^ h)), <- Z.shiftl_mul_pow2
    by lia.
  rewrite <- Z.ldiff_ones_r by lia.
  replace (Z.ldiff v (Z.ones h) + 2 ^ h - 1)
    with (Z.ldiff v (Z.ones h) + Z.ones h) by (rewrite Z.ones_equiv; lia).
  rewrite Z.add_nocarry_lxor, Z.lxor_lor by (apply Z.land_ldiff).
  apply Z.bits_inj'. intros i Hi.
  rewrite !Z.lor_spec, Z.ldiff_spec.
  by destruct (Z.testbit v i), (Z.testbit (Z.ones h) i).
Qed.

(** On the objects the constructor accepts, [first] and [last] are the
    masked values. *)
Lemma first_last_masked n :
  valid_network n = true →
  first_masked n = first n ∧ last_masked n = last n.
Proof.
  unfold valid_network, first_masked, last_masked, hostmask, last, first,
    hostbits.
  rewrite !andb_true_iff, orb_true_iff.
  intros ((((Hv & H0%Z.leb_le) & Hlt%Z.ltb_lt) & Hp0%Z.leb_le) & Hpw%Z.leb_le).
  replace (Z.max 0 (width (n_version n) - n_prefixlen n))
    with (width (n_version n) - n_prefixlen n) by lia.
  split; [apply land_mask | apply lor_mask]; lia.
Qed.

(** *** The blocks of a compacted set are in ascending order *)







(** *** Compacting twice *)












End netaddr_facts.
Import netaddr_facts.

(** ** Subnetpool updates *)

Section PoolFacts.
Context (env : Env).

Lemma updated_fields_prefixlens orig_pool new_pool :
  updated_fields orig_pool new_pool !! "min_prefixlen"
    = Some (default (sp_min_prefixlen orig_pool)
                    (new_pool !! "min_prefixlen"))
  ∧ updated_fields orig_pool new_pool !! "max_prefixlen"
    = Some (default (sp_max_prefixlen orig_pool)
                    (new_pool !! "max_prefixlen"))
  ∧ updated_fields orig_pool new_pool !! "default_prefixlen"
    = Some (default (sp_default_prefixlen orig_pool)
                    (new_pool !! "default_prefixlen"))
  ∧ updated_fields orig_pool new_pool !! "key" = None.
Proof. repeat split; vm_compute; reflexivity. Qed.

(** Every result of [_update_subnetpool_dict] is the comprehension with
    the prefixes put in. *)
Lemma _update_subnetpool_dict_shape orig_pool new_pool updated :
  _update_subnetpool_dict orig_pool new_pool = Ok updated →
  ∃ ps, updated = <["prefixes" := VPrefixes ps]>
                    (updated_fields orig_pool new_pool).
Proof.
  unfold _update_subnetpool_dict. intros H.
  destruct (default VNotSpecified (new_pool !! "prefixes"));
    cbn [IPSet_of_value mbind result_bind] in H; try done;
    try (destruct (negb _); [done|]); injection H as <-; eauto.
Qed.

Lemma stringify_prefixlens_spec (d : dict) v1 v2 v3 :
  d !! "min_prefixlen" = Some v1 →
  d !! "max_prefixlen" = Some v2 →
  d !! "default_prefixlen" = Some v3 →
  stringify_prefixlens d = Ok (<["key" := py_str v3]> d).
Proof.
  intros H1 H2 H3. unfold stringify_prefixlens.
  cbn [foldl mbind result_bind].
  rewrite H1. cbn [mbind result_bind].
  rewrite lookup_insert_ne, H2 by done. cbn [mbind result_bind].
  rewrite !lookup_insert_ne, H3 by done.
  by rewrite !insert_insert_eq.
Qed.

Lemma stringify_updated orig_pool new_pool updated :
  _update_subnetpool_dict orig_pool new_pool = Ok updated →
  stringify_prefixlens updated
  = Ok (<["key" := py_str (default (sp_default_prefixlen orig_pool)
                                   (new_pool !! "default_prefixlen"))]>
          updated).
Proof.
  intros H. apply _update_subnetpool_dict_shape in H as [ps ->].
  destruct (updated_fields_prefixlens orig_pool new_pool)
    as (H1 & H2 & H3 & _).
  eapply stringify_prefixlens_spec; rewrite lookup_insert_ne by done; eauto.
Qed.

(** What a successful [update_subnetpool] has gone through. *)
Lemma update_subnetpool_inv context id new_sp db d db' :
  update_subnetpool env context id new_sp db = (Ok d, db') →
  ∃ orig updated r updated',
    _get_subnetpool db id = Ok orig
    ∧ _update_subnetpool_dict orig new_sp = Ok updated
    ∧ SubnetPoolReader env updated = Ok r
    ∧ default_check_on_update db orig r = Ok tt
    ∧ update_allowed_check env context id orig = Ok tt
    ∧ _validate_address_scope_id env context db (rd_address_scope_id r)
        (PoolId id) (rd_prefixes r) (rd_ip_version r) = Ok tt
    ∧ stringify_prefixlens updated = Ok updated'
    ∧ d = apply_dict_extend_functions env "subnetpools" updated'
            (pool_of_reader (rd_tenant_id r) id r)
    ∧ db_subnetpools db' = updated_pools id r (db_subnetpools db).
Proof.
  unfold update_subnetpool, transaction, mbind, M_bind, lift, get_db, mret,
    M_ret, SubnetPool_update.
  intros H.
  destruct (_get_subnetpool db id) as [orig|] eqn:E1; [|done].
  destruct (_update_subnetpool_dict orig new_sp) as [updated|] eqn:E2;
    [|done].
  destruct (SubnetPoolReader env updated) as [r|] eqn:E3; [|done].
  destruct (default_check_on_update db orig r) as [[]|] eqn:E4; [|done].
  destruct (update_allowed_check env context id orig) as [[]|] eqn:E5;
    [|done].
  destruct (_validate_address_scope_id _ _ _ _ _ _ _) as [[]|] eqn:E6;
    [|done].
  exists orig, updated, r.
  destruct (bool_decide _);
    destruct (stringify_prefixlens updated) as [updated'|] eqn:E7;
    try done; injection H as <- <-; exists updated'; by repeat split.
Qed.


End PoolFacts.

(** ** Claim C1: a pool's prefixes only grow *)

Section PoolUpdateOk.
Context (env : Env).

Lemma update_subnetpool_ok context id new_sp db orig updated r :
  _get_subnetpool db id = Ok orig →
  _update_subnetpool_dict orig new_sp = Ok updated →
  SubnetPoolReader env updated = Ok r →
  default_check_on_update db orig r = Ok tt →
  update_allowed_check env context id orig = Ok tt →
  _validate_address_scope_id env context db (rd_address_scope_id r)
    (PoolId id) (rd_prefixes r) (rd_ip_version r) = Ok tt →
  ∃ d db', update_subnetpool env context id new_sp db = (Ok d, db')
           ∧ db_subnetpools db' = updated_pools id r (db_subnetpools db).
Proof.
  intros E1 E2 E3 E4 E5 E6.
  unfold update_subnetpool, transaction, mbind, M_bind, lift, get_db, mret,
    M_ret, SubnetPool_update.
  rewrite E1, E2, E3, E4, E5, E6, (stringify_updated _ _ _ E2).
  destruct (bool_decide _); eauto.
Qed.

End PoolUpdateOk.








(** A request whose [prefixes] entry is [None] is read as the empty set,
    which does not cover the prefixes of a pool that has any. *)
Example prefixes_none_rejected :
  _update_subnetpool_dict pool_a {[ "prefixes" := VNone ]}
  = Raise (IllegalSubnetPoolPrefixUpdate prefix_update_msg).
Proof. vm_compute. reflexivity. Qed.


(** ** Claim C8: the loop over the prefix-length fields *)

(** C8.  Every successful [update_subnetpool] ends its loop over
    [min_prefixlen], [max_prefixlen] and [default_prefixlen] with one entry
    written, under the key ["key"], holding the string form of
    [default_prefixlen], the last field of the loop; every other entry of
    the dictionary is as before the loop, so the three prefix-length fields
    keep the values they had, unconverted.  The returned dictionary is
    what the extension hooks make of it: it has the ["key"] entry and the
    three fields unconverted whenever the hooks keep the entries they are
    given. *)
Theorem C8_prefixlen_loop_writes_key
  (env : Env) (context : Context) (id : string) (new_sp : dict)
  (db db' : DB) (d : dict) :
  update_subnetpool env context id new_sp db = (Ok d, db') →
  ∃ orig updated row,
    _get_subnetpool db id = Ok orig
    ∧ _update_subnetpool_dict orig new_sp = Ok updated
    ∧ let last_value :=
        default (sp_default_prefixlen orig) (new_sp !! "default_prefixlen") in
      let returned := <["key" := py_str last_value]> updated in
      stringify_prefixlens updated = Ok returned
      ∧ d = apply_dict_extend_functions env "subnetpools" returned row
      ∧ returned !! "key" = Some (py_str last_value)
      ∧ (∀ k, k ≠ "key" → returned !! k = updated !! k)
      ∧ returned !! "min_prefixlen"
        = Some (default (sp_min_prefixlen orig) (new_sp !! "min_prefixlen"))
      ∧ returned !! "max_prefixlen"
        = Some (default (sp_max_prefixlen orig) (new_sp !! "max_prefixlen"))
      ∧ returned !! "default_prefixlen" = Some last_value
      ∧ ((∀ (d0 : dict) k x,
            d0 !! k = Some x →
            apply_dict_extend_functions env "subnetpools" d0 row !! k
            = Some x) →
         d !! "key" = Some (py_str last_value)
         ∧ d !! "min_prefixlen"
           = Some (default (sp_min_prefixlen orig)
                           (new_sp !! "min_prefixlen"))
         ∧ d !! "max_prefixlen"
           = Some (default (sp_max_prefixlen orig)
                           (new_sp !! "max_prefixlen"))
         ∧ d !! "default_prefixlen" = Some last_value).
Proof.
  intros H.
  apply update_subnetpool_inv in H
    as (orig & updated & r & updated' & E1 & E2 & _ & _ & _ & _ & E7 & -> & _).
  exists orig, updated, (pool_of_reader (rd_tenant_id r) id r).
  split; [done|]. split; [done|]. cbn zeta.
  rewrite (stringify_updated _ _ _ E2) in E7. injection E7 as <-.
  pose proof E2 as Hshape.
  apply _update_subnetpool_dict_shape in Hshape as [ps ->].
  destruct (updated_fields_prefixlens orig new_sp) as (H1 & H2 & H3 & _).
  assert (∀ k x, k ≠ "key" → k ≠ "prefixes" →
            updated_fields orig new_sp !! k = Some x →
            <["key" := py_str (default (sp_default_prefixlen orig)
                                       (new_sp !! "default_prefixlen"))]>
              (<["prefixes" := VPrefixes ps]> (updated_fields orig new_sp))
              !! k = Some x) as Hkeep.
  { intros k x Hk Hp Hx. by rewrite !lookup_insert_ne. }
  split; [by apply stringify_updated|]. split; [done|].
  split; [apply lookup_insert_eq|].
  split; [by intros k Hk; rewrite lookup_insert_ne|].
  split; [by apply Hkeep|]. split; [by apply Hkeep|]. split; [by apply Hkeep|].
  intros Hhooks. repeat split; apply Hhooks;
    (apply lookup_insert_eq || by apply Hkeep).
Qed.

Lemma C8_prefixlen_loop_writes_key_witness :
  ∃ d db',
    update_subnetpool demo_env admin "pool-a" {[ "min_prefixlen" := VInt 25 ]}
      scoped_db = (Ok d, db')
    ∧ d !! "key" = Some (VStr "26")
    ∧ d !! "min_prefixlen" = Some (VInt 25)
    ∧ d !! "max_prefixlen" = Some (VInt 32)
    ∧ d !! "default_prefixlen" = Some (VInt 26).
Proof.
  assert (∃ d db',
            update_subnetpool demo_env admin "pool-a"
              {[ "min_prefixlen" := VInt 25 ]} scoped_db = (Ok d, db'))
    as (d & db' & E).
  { eexists _, _. vm_compute. reflexivity. }
  exists d, db'. split; [exact E|].
  destruct (C8_prefixlen_loop_writes_key _ _ _ _ _ _ _ E)
    as (orig & updated & row & E1 & E2 & H).
  vm_compute in E1. injection E1 as <-. cbn zeta in H.
  destruct H as (_ & _ & _ & _ & _ & _ & _ & H).
  destruct H as (K1 & K2 & K3 & K4); [by intros d0 k x Hx|].
  rewrite K1, K2, K3, K4. repeat split.
Defined.

(** ** Claim C2: revoking the shared flag of a network *)

Section SharedFacts.
Context (env : Env).




Lemma _validate_shared_update_revoke context db id original :
  net_shared original = true →
  _validate_shared_update env context db id original false
  = if shared_in_use (shared_update_tenant_ids env context db id)
                     (net_tenant_id original)
    then Raise (InvalidSharedSetting (net_name original))
    else Ok tt.
Proof.
  intros Hshared. unfold _validate_shared_update.
  by rewrite Hshared, bool_decide_eq_false_2 by done.
Qed.

End SharedFacts.

Lemma _get_network_Ok db id network :
  _get_network db id = Ok network →
  net_id network = id ∧ network ∈ db_networks db.
Proof.
  unfold _get_network.
  destruct (head _) as [n|] eqn:E; [|done]. intros [= ->].
  apply head_Some_elem_of, list_elem_of_filter in E. by destruct E.
Qed.

(** Reading a network back after it has been stored. *)
Lemma _get_network_store_network db id network network' :
  _get_network db id = Ok network →
  net_id network' = id →
  _get_network (store_network network' db).2 id = Ok network'.
Proof.
  unfold _get_network, store_network. cbn [snd db_networks].
  intros H Hid. subst id. revert H.
  induction (db_networks db) as [|n l IH]; [done|]. intros H.
  cbn [fmap list_fmap]. rewrite filter_cons in H.
  destruct (String.eqb_spec (net_id n) (net_id network')) as [E|E].
  - rewrite filter_cons. by rewrite decide_True by done.
  - rewrite filter_cons. rewrite decide_False by done.
    rewrite decide_False in H by done. by apply IH.
Qed.


(** A string that starts with the prefix as it is written matches it in
    the query as well. *)
Lemma sql_startswith_prefix (prefix s : string) :
  String.prefix prefix s = true → sql_startswith prefix s = true.
Proof.
  unfold sql_startswith. revert s.
  induction prefix as [|c p IH]; intros [|d s]; cbn; try done.
  destruct (Ascii.ascii_dec c d) as [->|Hne]; [|done]. intros H.
  destruct (Ascii.ascii_dec _ _); [by apply IH|done].
Qed.

Section UpdateNetworkFacts.
Context (env : Env).

Lemma update_network_revoke context db id network entry n :
  _get_network db id = Ok network →
  wildcard_entry network = Some entry →
  nu_shared n = Some false →
  update_network env context id n db
  = if shared_in_use (shared_update_tenant_ids env context db id)
                     (net_tenant_id network)
    then (Raise (InvalidSharedSetting (net_name network)), db)
    else
      let network' :=
        _make_network_dict
          (with_network network true
             (default (net_name network) (nu_name n))
             (filter (λ item, rbac_id item ≠ rbac_id entry)
                     (net_rbac_entries network))) in
      (Ok network', (store_network network' db).2).
Proof.
  intros Hget Hentry Hn.
  unfold update_network, transaction, mbind, M_bind, lift, get_db, mret, M_ret.
  rewrite Hget, Hn. cbn [nu_shared]. rewrite Hentry.
  rewrite _validate_shared_update_revoke by done.
  cbn [with_network net_tenant_id net_name].
  by destruct (shared_in_use _ _).
Qed.

End UpdateNetworkFacts.



(** A device owner written in capitals is matched by the query as well:
    a port of another tenant owned by ["NETWORK:dhcp"] does not count. *)
Example revoking_shared_owner_in_capitals :
  sql_startswith DEVICE_OWNER_NETWORK_PREFIX "NETWORK:dhcp" = true
  ∧ String.prefix DEVICE_OWNER_NETWORK_PREFIX "NETWORK:dhcp" = false
  ∧ shared_update_tenant_ids demo_env admin
      (mkDB []
         [ mkPort "port-9" "tenant-2" "net-1" "NETWORK:dhcp" "dhcp-2"
                  "fa:16:3e:00:00:09" ]
         [] [] [] [] [shared_net]) "net-1" = ∅.
Proof. repeat split; vm_compute; reflexivity. Qed.

(** ** Claim C3: prefixes of the pools of one address scope *)

Section ScopeFacts.
Context (env : Env).

Lemma check_scope_prefixes_ok ref new_set sps :
  check_scope_prefixes ref new_set sps = Ok tt →
  ∀ sp, sp ∈ sps → pool_ref_is ref (sp_id sp) = false →
        truth (intersection (mkIPSet (sp_prefixes sp)) new_set) = false.
Proof.
  induction sps as [|x sps IH]; simpl; intros Hok sp Hsp Hother.
  - by apply elem_of_nil in Hsp.
  - apply elem_of_cons in Hsp as [->|Hsp].
    + rewrite Hother in Hok. by destruct (truth _).
    + destruct (pool_ref_is ref (sp_id x)); [by apply IH|].
      destruct (truth (intersection (mkIPSet (sp_prefixes x)) new_set));
        [done|by apply IH].
Qed.

Lemma check_scope_prefixes_conflict ref new_set sps sp :
  sp ∈ sps → pool_ref_is ref (sp_id sp) = false →
  truth (intersection (mkIPSet (sp_prefixes sp)) new_set) = true →
  check_scope_prefixes ref new_set sps = Raise AddressScopePrefixConflict.
Proof.
  induction sps as [|x sps IH]; simpl; intros Hsp Hother Htruth.
  - by apply elem_of_nil in Hsp.
  - apply elem_of_cons in Hsp as [<-|Hsp].
    + by rewrite Hother, Htruth.
    + destruct (pool_ref_is ref (sp_id x)); [by apply IH|].
      destruct (truth (intersection (mkIPSet (sp_prefixes x)) new_set));
        [done|by apply IH].
Qed.

Lemma elem_of_get_objects_by_scope db scope sp :
  sp ∈ get_objects_by_scope db scope
  ↔ sp_address_scope_id sp = Val scope ∧ sp ∈ db_subnetpools db.
Proof. unfold get_objects_by_scope. by rewrite list_elem_of_filter. Qed.

(** A passed scope validation has compared the new prefixes with every
    other pool of the scope. *)
Lemma _validate_address_scope_id_ok context db scope ref prefixes ip_version :
  _validate_address_scope_id env context db (Val scope) ref prefixes ip_version
  = Ok tt →
  ∀ sp, sp ∈ db_subnetpools db → sp_address_scope_id sp = Val scope →
        pool_ref_is ref (sp_id sp) = false →
        ¬ shares_address (sp_prefixes sp) prefixes.
Proof.
  unfold _validate_address_scope_id. cbn [mbind result_bind].
  destruct (is_address_scope_owned_by_tenant env context scope) as [[]|];
    cbn [mbind result_bind check negb]; try done.
  destruct (get_ip_version_for_address_scope env context scope) as [v|];
    cbn [mbind result_bind]; try done.
  destruct (negb (ip_version =? v)); cbn [mbind result_bind check]; try done.
  intros Hok sp Hsp Hscope Hother Hshare.
  apply truth_intersection_networks in Hshare.
  rewrite (check_scope_prefixes_ok _ _ _ Hok sp) in Hshare; try done.
  by apply elem_of_get_objects_by_scope.
Qed.

Lemma _validate_address_scope_id_conflict context db scope ref prefixes
      ip_version other :
  other ∈ db_subnetpools db → sp_address_scope_id other = Val scope →
  pool_ref_is ref (sp_id other) = false →
  shares_address (sp_prefixes other) prefixes →
  ∃ e, _validate_address_scope_id env context db (Val scope) ref prefixes
         ip_version = Raise e
       ∧ (is_address_scope_owned_by_tenant env context scope = Ok true →
          get_ip_version_for_address_scope env context scope = Ok ip_version →
          e = AddressScopePrefixConflict).
Proof.
  intros Hin Hscope Hother Hshare.
  apply truth_intersection_networks in Hshare.
  assert (check_scope_prefixes ref (mkIPSet prefixes)
            (get_objects_by_scope db scope)
          = Raise AddressScopePrefixConflict) as Hc.
  { apply check_scope_prefixes_conflict with other; try done.
    by apply elem_of_get_objects_by_scope. }
  unfold _validate_address_scope_id. cbn [mbind result_bind].
  destruct (is_address_scope_owned_by_tenant env context scope) as [[]|];
    cbn [mbind result_bind check negb];
    [|eexists; split; [reflexivity|]; intros H1 H2; discriminate..].
  destruct (get_ip_version_for_address_scope env context scope) as [v|];
    cbn [mbind result_bind];
    [|eexists; split; [reflexivity|]; intros H1 H2; discriminate].
  destruct (Z.eqb_spec ip_version v) as [->|Hne];
    cbn [mbind result_bind check negb].
  - rewrite Hc. eauto.
  - eexists. split; [done|]. intros _ [=]. congruence.
Qed.

(** What a successful [create_subnetpool] has gone through. *)
Lemma create_subnetpool_inv context sp db row db' :
  create_subnetpool env context sp db = (Ok row, db') →
  ∃ r,
    default_check_on_create db r = Ok tt
    ∧ _validate_address_scope_id env context db (rd_address_scope_id r)
        BuiltinId (rd_prefixes r) (rd_ip_version r) = Ok tt
    ∧ sp_is_default row = rd_is_default r
    ∧ sp_ip_version row = rd_ip_version r
    ∧ sp_address_scope_id row = rd_address_scope_id r
    ∧ sp_prefixes row = rd_prefixes r
    ∧ db_subnetpools db' = db_subnetpools db ++ [row].
Proof.
  unfold create_subnetpool, mbind, M_bind, lift, get_db, mret, M_ret,
    SubnetPool_create.
  intros H.
  destruct (SubnetPoolReader env sp) as [r0|]; [|done].
  set (r := scope_or_none r0) in *.
  exists r.
  destruct (default_check_on_create db r) as [[]|]; [|done].
  destruct (_validate_address_scope_id _ _ _ _ _ _ _) as [[]|]; [|done].
  destruct (read_tenant_id sp) as [t|]; [|done].
  destruct (existsb _ _); [done|].
  injection H as <- <-. by repeat split.
Qed.

Lemma scopes_disjoint_create context sp db row db' :
  scopes_disjoint (db_subnetpools db) →
  create_subnetpool env context sp db = (Ok row, db') →
  scopes_disjoint (db_subnetpools db').
Proof.
  intros Hinv Hc.
  apply create_subnetpool_inv in Hc
    as (r & _ & Hv & _ & _ & Hs & Hp & ->).
  intros p q scope Hp' Hq' Hid Hps Hqs Hshare.
  apply elem_of_app in Hp' as [Hp'|Hp']; apply elem_of_app in Hq' as [Hq'|Hq'].
  - by apply (Hinv p q scope).
  - apply list_elem_of_singleton in Hq' as ->.
    rewrite Hs in Hqs. rewrite Hqs in Hv. rewrite Hp in Hshare.
    by apply (_validate_address_scope_id_ok _ _ _ _ _ _ Hv p).
  - apply list_elem_of_singleton in Hp' as ->.
    rewrite Hs in Hps. rewrite Hps in Hv. rewrite Hp in Hshare.
    destruct Hshare as (a & Ha & Hb).
    apply (_validate_address_scope_id_ok _ _ _ _ _ _ Hv q); try done.
    by exists a.
  - apply list_elem_of_singleton in Hp' as ->.
    apply list_elem_of_singleton in Hq' as ->. done.
Qed.

Lemma elem_of_updated_pools id r pools p' :
  p' ∈ updated_pools id r pools →
  (p' = pool_of_reader (rd_tenant_id r) id r ∧ ∃ p, p ∈ pools ∧ sp_id p = id)
  ∨ (p' ∈ pools ∧ sp_id p' ≠ id).
Proof.
  unfold updated_pools. intros (p & -> & Hp)%list_elem_of_fmap.
  destruct (String.eqb_spec (sp_id p) id); eauto.
Qed.

Lemma scopes_disjoint_update context id new_sp db d db' :
  scopes_disjoint (db_subnetpools db) →
  update_subnetpool env context id new_sp db = (Ok d, db') →
  scopes_disjoint (db_subnetpools db').
Proof.
  intros Hinv Hu.
  apply update_subnetpool_inv in Hu
    as (orig & updated & r & updated' & _ & _ & _ & _ & _ & Hv & _ & _ & ->).
  intros p q scope Hp Hq Hid Hps Hqs Hshare.
  apply elem_of_updated_pools in Hp as [[-> _]|[Hp Hpid]];
    apply elem_of_updated_pools in Hq as [[-> _]|[Hq Hqid]].
  - done.
  - cbn in Hps, Hshare. rewrite Hps in Hv.
    destruct Hshare as (a & Ha & Hb).
    apply (_validate_address_scope_id_ok _ _ _ _ _ _ Hv q); try done.
    + cbn. by apply String.eqb_neq.
    + by exists a.
  - cbn in Hqs, Hshare. rewrite Hqs in Hv.
    apply (_validate_address_scope_id_ok _ _ _ _ _ _ Hv p); try done.
    cbn. by apply String.eqb_neq.
  - by apply (Hinv p q scope).
Qed.

End ScopeFacts.

(** C3 (as amended).  Whenever the scope validation of a subnetpool create
    or update finds another pool bound to the same address scope whose
    prefixes share an address with the pool's prefixes, the operation is
    rejected; once the ownership and IP-version checks pass, the error is
    [AddressScopePrefixConflict], which carries no pool identifier.
    Consequently every successful [create_subnetpool] and
    [update_subnetpool] keeps the prefixes of the pools of one address
    scope pairwise disjoint. *)
Theorem C3_scope_prefixes_disjoint (env : Env) (context : Context) :
  (∀ db scope ref prefixes ip_version other,
     other ∈ db_subnetpools db →
     sp_address_scope_id other = Val scope →
     pool_ref_is ref (sp_id other) = false →
     shares_address (sp_prefixes other) prefixes →
     ∃ e, _validate_address_scope_id env context db (Val scope) ref prefixes
            ip_version = Raise e
          ∧ (is_address_scope_owned_by_tenant env context scope = Ok true →
             get_ip_version_for_address_scope env context scope
             = Ok ip_version →
             e = AddressScopePrefixConflict ∧ exn_pool_ids e = []))
  ∧ (∀ sp db row db',
       scopes_disjoint (db_subnetpools db) →
       create_subnetpool env context sp db = (Ok row, db') →
       scopes_disjoint (db_subnetpools db'))
  ∧ (∀ id new_sp db d db',
       scopes_disjoint (db_subnetpools db) →
       update_subnetpool env context id new_sp db = (Ok d, db') →
       scopes_disjoint (db_subnetpools db')).
Proof.
  split; [|split].
  - intros db scope ref prefixes ip_version other Hin Hscope Hother Hshare.
    destruct (_validate_address_scope_id_conflict env context db scope ref
                prefixes ip_version other Hin Hscope Hother Hshare)
      as (e & He & Hkind).
    exists e. split; [done|]. intros Ho Hv. by rewrite (Hkind Ho Hv).
  - intros sp db row db'. apply scopes_disjoint_create.
  - intros id new_sp db d db'. apply scopes_disjoint_update.
Qed.

Lemma scopes_disjoint_scoped_db : scopes_disjoint (db_subnetpools scoped_db).
Proof.
  intros p q scope Hp Hq Hid _ _ Hshare.
  apply truth_intersection_networks in Hshare.
  cbn in Hp, Hq.
  apply elem_of_cons in Hp as [->|Hp]; apply elem_of_cons in Hq as [->|Hq];
    try done;
    repeat match goal with
      | H : _ ∈ [_] |- _ => apply list_elem_of_singleton in H as ->
      end;
    try done; vm_compute in Hshare; discriminate.
Qed.

Lemma C3_scope_prefixes_disjoint_witness :
  scopes_disjoint (db_subnetpools scoped_db)
  ∧ ∃ d db',
      update_subnetpool demo_env admin "pool-a"
        (prefixes_request [net4 10 0 0 0 24; net4 10 0 2 0 24]) scoped_db
      = (Ok d, db')
      ∧ scopes_disjoint (db_subnetpools db').
Proof.
  split; [exact scopes_disjoint_scoped_db|].
  assert (∃ d db',
            update_subnetpool demo_env admin "pool-a"
              (prefixes_request [net4 10 0 0 0 24; net4 10 0 2 0 24])
              scoped_db = (Ok d, db')) as (d & db' & E).
  { eexists _, _. vm_compute. reflexivity. }
  exists d, db'. split; [exact E|].
  destruct (C3_scope_prefixes_disjoint demo_env admin) as (_ & _ & Hupdate).
  exact (Hupdate _ _ _ _ _ scopes_disjoint_scoped_db E).
Defined.

(** C3, as stated, fails: growing pool-a to 10.0.0.0/23 overlaps pool-b of
    the same scope, and the conflict error raised names neither pool. *)
Lemma C3_conflict_error_names_no_pool :
  ∃ e, _validate_address_scope_id demo_env admin scoped_db (Val "scope-1")
         (PoolId "pool-a") [net4 10 0 0 0 23] 4 = Raise e
       ∧ exn_pool_ids e = [].
Proof.
  exists AddressScopePrefixConflict. split; [vm_compute; reflexivity|].
  reflexivity.
Qed.

(** ** Claim C4: one default pool per IP version *)

Section DefaultFacts.
Context (env : Env).

Lemma get_default_subnetpool_None db v :
  get_default_subnetpool db v = None →
  ∀ p, p ∈ db_subnetpools db → sp_is_default p = true → sp_ip_version p ≠ v.
Proof.
  unfold get_default_subnetpool. intros Hnone p Hp Hd Hv.
  assert (p ∈ filter (λ p, sp_is_default p = true ∧ sp_ip_version p = v)
                     (db_subnetpools db)) as Hin
    by (by apply list_elem_of_filter).
  destruct (filter _ _); [by apply elem_of_nil in Hin | done].
Qed.

Lemma _get_subnetpool_Ok db id orig :
  _get_subnetpool db id = Ok orig →
  orig ∈ db_subnetpools db ∧ sp_id orig = id.
Proof.
  unfold _get_subnetpool. intros H.
  destruct (head _) as [p|] eqn:E; [|done]. injection H as ->.
  apply head_Some_elem_of, list_elem_of_filter in E. tauto.
Qed.

Lemma default_check_on_update_Ok db orig r :
  default_check_on_update db orig r = Ok tt →
  rd_is_default r = true → sp_is_default orig = false →
  get_default_subnetpool db (rd_ip_version r) = None.
Proof.
  unfold default_check_on_update, _check_default_subnetpool_exists.
  intros H Hr Ho. rewrite Hr, Ho in H. cbn in H.
  by destruct (get_default_subnetpool _ _).
Qed.

Lemma default_check_on_create_Ok db r :
  default_check_on_create db r = Ok tt →
  rd_is_default r = true →
  get_default_subnetpool db (rd_ip_version r) = None.
Proof.
  unfold default_check_on_create, _check_default_subnetpool_exists.
  intros H Hr. rewrite Hr in H. by destruct (get_default_subnetpool _ _).
Qed.

Lemma create_subnetpool_default_exists context sp db r existing :
  SubnetPoolReader env sp = Ok r →
  rd_is_default r = true →
  get_default_subnetpool db (rd_ip_version r) = Some existing →
  create_subnetpool env context sp db
  = (Raise (InvalidInput default_exists_msg), db).
Proof.
  intros Hr Hd He.
  unfold create_subnetpool, mbind, M_bind, lift, get_db.
  rewrite Hr.
  assert (default_check_on_create db (scope_or_none r)
          = Raise (InvalidInput default_exists_msg)) as Hcheck.
  { unfold default_check_on_create, _check_default_subnetpool_exists,
      scope_or_none.
    destruct (rd_address_scope_id r); cbn; by rewrite Hd, He. }
  by rewrite Hcheck.
Qed.

Lemma create_subnetpool_ok context sp db r tenant_id :
  SubnetPoolReader env sp = Ok r →
  default_check_on_create db (scope_or_none r) = Ok tt →
  _validate_address_scope_id env context db
    (rd_address_scope_id (scope_or_none r)) BuiltinId
    (rd_prefixes (scope_or_none r)) (rd_ip_version (scope_or_none r))
  = Ok tt →
  read_tenant_id sp = Ok tenant_id →
  (∀ p, p ∈ db_subnetpools db → sp_id p ≠ rd_id (scope_or_none r)) →
  ∃ row db',
    create_subnetpool env context sp db = (Ok row, db')
    ∧ db_subnetpools db' = db_subnetpools db ++ [row].
Proof.
  intros Hr Hd Hv Ht Hfresh.
  unfold create_subnetpool, mbind, M_bind, lift, get_db, mret, M_ret,
    SubnetPool_create.
  rewrite Hr, Hd, Hv, Ht.
  destruct (existsb _ _) eqn:E; [|eauto].
  apply existsb_exists in E as (p & Hp & Heq).
  apply list_elem_of_In, Hfresh in Hp. by apply String.eqb_eq in Heq.
Qed.

Lemma update_subnetpool_default_exists context id new_sp db orig updated r
      existing :
  _get_subnetpool db id = Ok orig →
  _update_subnetpool_dict orig new_sp = Ok updated →
  SubnetPoolReader env updated = Ok r →
  rd_is_default r = true → sp_is_default orig = false →
  get_default_subnetpool db (rd_ip_version r) = Some existing →
  update_subnetpool env context id new_sp db
  = (Raise (InvalidInput default_exists_msg), db).
Proof.
  intros E1 E2 E3 Hd Ho He.
  unfold update_subnetpool, transaction, mbind, M_bind, lift, get_db.
  rewrite E1, E2, E3.
  unfold default_check_on_update, _check_default_subnetpool_exists.
  by rewrite Hd, Ho, He.
Qed.

Lemma one_default_create context sp db row db' :
  one_default_per_version (db_subnetpools db) →
  create_subnetpool env context sp db = (Ok row, db') →
  one_default_per_version (db_subnetpools db').
Proof.
  intros Hinv Hc.
  apply create_subnetpool_inv in Hc
    as (r & Hcheck & _ & Hd & Hv & _ & _ & ->).
  assert (sp_is_default row = true →
          ∀ p, p ∈ db_subnetpools db → sp_is_default p = true →
               sp_ip_version p ≠ sp_ip_version row) as Hfresh.
  { intros Hrow. rewrite Hv. apply get_default_subnetpool_None.
    apply default_check_on_create_Ok; congruence. }
  intros p q Hp Hq Hpd Hqd Hpq.
  apply elem_of_app in Hp as [Hp|Hp]; apply elem_of_app in Hq as [Hq|Hq];
    repeat match goal with
      | H : _ ∈ [_] |- _ => apply list_elem_of_singleton in H as ->
      end.
  - by apply Hinv.
  - by destruct (Hfresh Hqd p).
  - by destruct (Hfresh Hpd q).
  - done.
Qed.

Lemma one_default_update context id new_sp db d db' :
  one_default_per_version (db_subnetpools db) →
  (∀ orig updated r,
     _get_subnetpool db id = Ok orig →
     _update_subnetpool_dict orig new_sp = Ok updated →
     SubnetPoolReader env updated = Ok r →
     sp_is_default orig = true → rd_is_default r = true →
     rd_ip_version r = sp_ip_version orig) →
  update_subnetpool env context id new_sp db = (Ok d, db') →
  one_default_per_version (db_subnetpools db').
Proof.
  intros Hinv Hstable Hu.
  apply update_subnetpool_inv in Hu
    as (orig & updated & r & updated' & E1 & E2 & E3 & Hcheck & _ & _ & _
        & _ & ->).
  destruct (_get_subnetpool_Ok _ _ _ E1) as [Horig Hid].
  assert (rd_is_default r = true →
          ∀ q, q ∈ db_subnetpools db → sp_id q ≠ id →
               sp_is_default q = true →
               sp_ip_version q ≠ rd_ip_version r) as Hfresh.
  { intros Hr q Hq Hqid Hqd Hqv.
    destruct (sp_is_default orig) eqn:Ho.
    - rewrite (Hstable orig updated r) in Hqv by done.
      apply Hqid. rewrite <- Hid. by apply Hinv.
    - by apply (get_default_subnetpool_None db (rd_ip_version r)
                  (default_check_on_update_Ok _ _ _ Hcheck Hr Ho) q). }
  intros p q Hp Hq Hpd Hqd Hpq.
  apply elem_of_updated_pools in Hp as [[-> _]|[Hp Hpid]];
    apply elem_of_updated_pools in Hq as [[-> _]|[Hq Hqid]].
  - done.
  - cbn in Hpd, Hpq. by destruct (Hfresh Hpd q).
  - cbn in Hqd, Hpq. by destruct (Hfresh Hqd p).
  - by apply Hinv.
Qed.

End DefaultFacts.

(** C4.  Creating a pool with [is_default] set, or updating a pool so that
    [is_default] newly becomes true, is rejected when a default pool of
    that IP version exists; the rule is not applied to a pool that already
    is the default, and it lets the operation through when no default of
    that version exists: the operation then succeeds if its other checks
    pass.  Consequently every successful [create_subnetpool], and every
    successful [update_subnetpool] that leaves the IP version of an already
    default pool as it is, keeps at most one default pool per IP version. *)
Theorem C4_one_default_pool (env : Env) (context : Context) :
  (∀ sp db r existing,
     SubnetPoolReader env sp = Ok r →
     rd_is_default r = true →
     get_default_subnetpool db (rd_ip_version r) = Some existing →
     create_subnetpool env context sp db
     = (Raise (InvalidInput default_exists_msg), db))
  ∧ (∀ id new_sp db orig updated r existing,
       _get_subnetpool db id = Ok orig →
       _update_subnetpool_dict orig new_sp = Ok updated →
       SubnetPoolReader env updated = Ok r →
       rd_is_default r = true → sp_is_default orig = false →
       get_default_subnetpool db (rd_ip_version r) = Some existing →
       update_subnetpool env context id new_sp db
       = (Raise (InvalidInput default_exists_msg), db))
  ∧ (∀ db orig r,
       sp_is_default orig = true ∨
       get_default_subnetpool db (rd_ip_version r) = None →
       default_check_on_update db orig r = Ok tt)
  ∧ (∀ db r,
       get_default_subnetpool db (rd_ip_version r) = None →
       _check_default_subnetpool_exists db (rd_ip_version r) = Ok tt
       ∧ default_check_on_create db r = Ok tt)
  ∧ (∀ sp db r tenant_id,
       SubnetPoolReader env sp = Ok r →
       get_default_subnetpool db (rd_ip_version r) = None →
       _validate_address_scope_id env context db
         (rd_address_scope_id (scope_or_none r)) BuiltinId
         (rd_prefixes (scope_or_none r)) (rd_ip_version (scope_or_none r))
       = Ok tt →
       read_tenant_id sp = Ok tenant_id →
       (∀ p, p ∈ db_subnetpools db → sp_id p ≠ rd_id (scope_or_none r)) →
       ∃ row db', create_subnetpool env context sp db = (Ok row, db'))
  ∧ (∀ id new_sp db orig updated r,
       _get_subnetpool db id = Ok orig →
       _update_subnetpool_dict orig new_sp = Ok updated →
       SubnetPoolReader env updated = Ok r →
       sp_is_default orig = true ∨
       get_default_subnetpool db (rd_ip_version r) = None →
       update_allowed_check env context id orig = Ok tt →
       _validate_address_scope_id env context db (rd_address_scope_id r)
         (PoolId id) (rd_prefixes r) (rd_ip_version r) = Ok tt →
       ∃ d db', update_subnetpool env context id new_sp db = (Ok d, db'))
  ∧ (∀ sp db row db',
       one_default_per_version (db_subnetpools db) →
       create_subnetpool env context sp db = (Ok row, db') →
       one_default_per_version (db_subnetpools db'))
  ∧ (∀ id new_sp db d db',
       one_default_per_version (db_subnetpools db) →
       (∀ orig updated r,
          _get_subnetpool db id = Ok orig →
          _update_subnetpool_dict orig new_sp = Ok updated →
          SubnetPoolReader env updated = Ok r →
          sp_is_default orig = true → rd_is_default r = true →
          rd_ip_version r = sp_ip_version orig) →
       update_subnetpool env context id new_sp db = (Ok d, db') →
       one_default_per_version (db_subnetpools db')).
Proof.
  assert (∀ db orig r,
            sp_is_default orig = true ∨
            get_default_subnetpool db (rd_ip_version r) = None →
            default_check_on_update db orig r = Ok tt) as Hupdate_rule.
  { intros db orig r [Ho|Hnone];
      unfold default_check_on_update, _check_default_subnetpool_exists.
    - by rewrite Ho, andb_false_r.
    - rewrite Hnone. by destruct (_ && _). }
  assert (∀ db r,
            get_default_subnetpool db (rd_ip_version r) = None →
            default_check_on_create db r = Ok tt) as Hcreate_rule.
  { intros db r Hnone.
    unfold default_check_on_create, _check_default_subnetpool_exists.
    rewrite Hnone. by destruct (rd_is_default r). }
  split; [|split; [|split; [|split; [|split; [|split; [|split]]]]]].
  - intros sp db r existing. apply create_subnetpool_default_exists.
  - intros id new_sp db orig updated r existing.
    apply update_subnetpool_default_exists.
  - exact Hupdate_rule.
  - intros db r Hnone. split; [|by apply Hcreate_rule].
    unfold _check_default_subnetpool_exists. by rewrite Hnone.
  - intros sp db r tenant_id Hr Hnone Hv Ht Hfresh.
    destruct (create_subnetpool_ok env context sp db r tenant_id)
      as (row & db' & Hc & _); try done; [|eauto].
    apply Hcreate_rule. unfold scope_or_none.
    by destruct (rd_address_scope_id r).
  - intros id new_sp db orig updated r E1 E2 E3 Hrule Ha Hv.
    destruct (update_subnetpool_ok env context id new_sp db orig updated r)
      as (d & db' & Hu & _); try done; [by apply Hupdate_rule|eauto].
  - intros sp db row db'. apply one_default_create.
  - intros id new_sp db d db'. apply one_default_update.
Qed.

Lemma C4_one_default_pool_witness :
  create_subnetpool demo_env admin
    {[ "id" := VStr "pool-e"; "tenant_id" := VStr "tenant-1";
       "is_default" := VBool true;
       "prefixes" := VPrefixes [net4 10 9 0 0 16] ]}
    (mkDB [default_pool] [] [] [] [] [] [])
  = (Raise (InvalidInput default_exists_msg),
     mkDB [default_pool] [] [] [] [] [] []).
Proof.
  destruct (C4_one_default_pool demo_env admin) as (Hcreate & _).
  eapply Hcreate; vm_compute; reflexivity.
Defined.

(** ** Subnet validation *)

Section SubnetFacts.
Context (env : Env).

Lemma raises_only_bind {A B} P (m : result exn A) (k : A → result exn B) :
  raises_only P m → (∀ a, raises_only P (k a)) → raises_only P (m ≫= k).
Proof. destruct m; simpl; auto. Qed.

Lemma raises_only_check P b e : P e = true → raises_only P (check b e).
Proof. by destruct b. Qed.

Lemma raises_only_weaken {A} (P Q : exn → bool) (r : result exn A) :
  (∀ e, P e = true → Q e = true) → raises_only P r → raises_only Q r.
Proof. destruct r; simpl; auto. Qed.

Lemma _validate_ip_version_raises ip_ver version name :
  raises_only is_InvalidInput (_validate_ip_version ip_ver version name).
Proof. unfold _validate_ip_version. by apply raises_only_check. Qed.

Lemma dns_loop_raises ip_ver l acc :
  raises_only is_InvalidInput acc →
  raises_only is_InvalidInput
    (foldl (λ acc dns,
              acc;;
              match dns with
              | Some ip =>
                  _validate_ip_version ip_ver (a_version ip) "dns_nameserver"
              | None => Raise (InvalidInput msg_dns_parse)
              end) acc l).
Proof.
  revert acc. induction l as [|dns l IH]; intros acc Hacc; [done|].
  cbn [foldl]. apply IH. apply raises_only_bind; [done|]. intros _.
  destruct dns; [apply _validate_ip_version_raises|done].
Qed.

Lemma _validate_host_route_raises rt ip_ver :
  raises_only is_InvalidInput (_validate_host_route rt ip_ver).
Proof.
  unfold _validate_host_route.
  destruct (route_destination rt), (route_nexthop rt); try done.
  apply raises_only_bind; intros; apply _validate_ip_version_raises.
Qed.

Lemma route_loop_raises ip_ver l acc :
  raises_only is_InvalidInput acc →
  raises_only is_InvalidInput
    (foldl (λ acc rt, acc;; _validate_host_route rt ip_ver) acc l).
Proof.
  revert acc. induction l as [|rt l IH]; intros acc Hacc; [done|].
  cbn [foldl]. apply IH. apply raises_only_bind; [done|]. intros _.
  apply _validate_host_route_raises.
Qed.

Lemma validate_dns_nameservers_raises ip_ver s :
  raises_only is_creation_error (validate_dns_nameservers env ip_ver s).
Proof.
  unfold validate_dns_nameservers. destruct (s_dns_nameservers s); try done.
  apply raises_only_bind; [by apply raises_only_check|]. intros _.
  apply (raises_only_weaken is_InvalidInput); [by intros []|].
  by apply dns_loop_raises.
Qed.

Lemma validate_host_routes_raises ip_ver s :
  raises_only is_creation_error (validate_host_routes env ip_ver s).
Proof.
  unfold validate_host_routes. destruct (s_host_routes s); try done.
  apply raises_only_bind; [by apply raises_only_check|]. intros _.
  apply (raises_only_weaken is_InvalidInput); [by intros []|].
  by apply route_loop_raises.
Qed.

Lemma validate_dns_nameservers_invalid ip_ver s :
  within_quota (max_dns_nameservers env) (s_dns_nameservers s) →
  raises_only is_InvalidInput (validate_dns_nameservers env ip_ver s).
Proof.
  unfold validate_dns_nameservers, within_quota.
  destruct (s_dns_nameservers s) as [| | |l]; try done. intros Hq.
  destruct (Z.ltb_spec (max_dns_nameservers env) (Z.of_nat (length l)));
    [lia|].
  cbn [check mbind result_bind]. by apply dns_loop_raises.
Qed.

Lemma validate_host_routes_invalid ip_ver s :
  within_quota (max_subnet_host_routes env) (s_host_routes s) →
  raises_only is_InvalidInput (validate_host_routes env ip_ver s).
Proof.
  unfold validate_host_routes, within_quota.
  destruct (s_host_routes s) as [| | |l]; try done. intros Hq.
  destruct (Z.ltb_spec (max_subnet_host_routes env) (Z.of_nat (length l)));
    [lia|].
  cbn [check mbind result_bind]. by apply route_loop_raises.
Qed.

Lemma validate_dhcp_raises ip_ver s cur :
  raises_only is_creation_error (validate_dhcp ip_ver s cur).
Proof.
  unfold validate_dhcp. destruct (_ && _); [|done].
  destruct (s_cidr s); try done. cbn [IPNetwork_of_item mbind result_bind].
  apply raises_only_bind; [by apply raises_only_check|]. intros _.
  by destruct (is_multicast a), (is_loopback a).
Qed.

Lemma validate_gateway_creation_raises db ip_ver s :
  raises_only is_creation_error (validate_gateway env db ip_ver s None).
Proof.
  unfold validate_gateway. destruct (s_gateway_ip s); try done.
  apply raises_only_bind.
  { apply (raises_only_weaken is_InvalidInput); [by intros []|].
    apply _validate_ip_version_raises. }
  intros _. destruct (s_cidr s); try done.
  cbn [IPNetwork_of_item mbind result_bind].
  apply raises_only_bind; [by apply raises_only_check|done].
Qed.

Lemma _validate_ipv6_attributes_creation_raises s :
  raises_only is_creation_error (_validate_ipv6_attributes s None).
Proof.
  unfold _validate_ipv6_attributes.
  apply raises_only_bind; [by destruct (s_enable_dhcp s)|]. intros enable_dhcp.
  apply raises_only_bind; [by apply raises_only_check|]. intros _.
  apply raises_only_bind.
  { destruct (_ && _); [by apply raises_only_check|done]. }
  intros _. destruct (_ || _); [|done].
  unfold _validate_eui64_applicable. destruct (is_auto_address_subnet _ _);
    [|done].
  destruct (s_cidr s); try done. by apply raises_only_check.
Qed.

(** Validating a new subnet raises a validation error or nothing. *)
Lemma _validate_subnet_creation_raises db s :
  raises_only is_creation_error (_validate_subnet env db s None).
Proof.
  unfold _validate_subnet.
  apply raises_only_bind; [by destruct (s_ip_version s)|]. intros ip_ver.
  apply raises_only_bind.
  { destruct (s_cidr s); try done.
    apply (raises_only_weaken is_InvalidInput); [by intros []|].
    apply _validate_ip_version_raises. }
  intros _. apply raises_only_bind; [apply validate_dhcp_raises|]. intros _.
  apply raises_only_bind; [apply validate_gateway_creation_raises|]. intros _.
  apply raises_only_bind; [apply validate_dns_nameservers_raises|]. intros _.
  apply raises_only_bind; [apply validate_host_routes_raises|]. intros _.
  apply raises_only_bind.
  { destruct (attr_is ip_ver 4); [|done].
    apply raises_only_bind; intros; by apply raises_only_check. }
  intros _. destruct (attr_is ip_ver 6); [|done].
  apply _validate_ipv6_attributes_creation_raises.
Qed.

Lemma bind_invalid {A B} (m : result exn A) (k : A → result exn B) :
  raises_only is_InvalidInput m →
  (∀ a, ∃ msg, k a = Raise (InvalidInput msg)) →
  ∃ msg, m ≫= k = Raise (InvalidInput msg).
Proof.
  destruct m as [a|e]; simpl; [auto|]. destruct e; try done. eauto.
Qed.

Lemma bind_raises {A B} (m : result exn A) (k : A → result exn B) :
  (∀ a, ∃ e, k a = Raise e) → ∃ e, m ≫= k = Raise e.
Proof. destruct m as [a|e]; simpl; eauto. Qed.

Lemma validate_dhcp_invalid ip_ver s cur c :
  s_cidr s = Val c →
  raises_only is_InvalidInput (validate_dhcp ip_ver s cur).
Proof.
  intros Hc. unfold validate_dhcp. destruct (_ && _); [|done].
  rewrite Hc. cbn [IPNetwork_of_item mbind result_bind].
  apply raises_only_bind; [by apply raises_only_check|]. intros _.
  by destruct (is_multicast c), (is_loopback c).
Qed.

Lemma validate_gateway_creation_invalid db ip_ver s c :
  s_cidr s = Val c →
  raises_only is_InvalidInput (validate_gateway env db ip_ver s None).
Proof.
  intros Hc. unfold validate_gateway. destruct (s_gateway_ip s); try done.
  apply raises_only_bind; [apply _validate_ip_version_raises|]. intros _.
  rewrite Hc. cbn [IPNetwork_of_item mbind result_bind].
  apply raises_only_bind; [by apply raises_only_check|done].
Qed.

Lemma auto_address_mode_set address_mode ra_mode :
  is_auto_address_subnet address_mode ra_mode = true →
  is_attr_set address_mode || is_attr_set ra_mode = true.
Proof.
  unfold is_auto_address_subnet, mode_in_auto_modes.
  destruct address_mode, ra_mode; simpl; try done.
  all: by rewrite ?orb_true_r.
Qed.

Lemma _validate_eui64_applicable_spec s c :
  is_auto_address_subnet (s_ipv6_address_mode s) (s_ipv6_ra_mode s) = true →
  s_cidr s = Val c →
  _validate_eui64_applicable s
  = if n_prefixlen c =? 64 then Ok tt else Raise (InvalidInput msg_eui64).
Proof.
  intros Hauto Hc. unfold _validate_eui64_applicable. rewrite Hauto, Hc.
  cbn [IPNetwork_of_item mbind result_bind]. by destruct (_ =? 64).
Qed.

Lemma _validate_ipv6_attributes_eui64 s c :
  s_cidr s = Val c → s_enable_dhcp s ≠ Absent →
  is_auto_address_subnet (s_ipv6_address_mode s) (s_ipv6_ra_mode s) = true →
  n_prefixlen c ≠ 64 →
  ∃ msg, _validate_ipv6_attributes s None = Raise (InvalidInput msg).
Proof.
  intros Hc Hdhcp Hauto Hlen. unfold _validate_ipv6_attributes.
  destruct (s_enable_dhcp s) eqn:E; try done;
    cbn [getitem mbind result_bind].
  all: apply bind_invalid; [by apply raises_only_check|]; intros _.
  all: apply bind_invalid;
    [destruct (_ && _); [by apply raises_only_check|done]|]; intros _.
  all: rewrite (auto_address_mode_set _ _ Hauto).
  all: rewrite (_validate_eui64_applicable_spec s c Hauto Hc).
  all: destruct (Z.eqb_spec (n_prefixlen c) 64); [done|eauto].
Qed.

Lemma _validate_subnet_eui64 db s c :
  s_ip_version s = Val 6 → s_cidr s = Val c → s_enable_dhcp s ≠ Absent →
  within_quota (max_dns_nameservers env) (s_dns_nameservers s) →
  within_quota (max_subnet_host_routes env) (s_host_routes s) →
  is_auto_address_subnet (s_ipv6_address_mode s) (s_ipv6_ra_mode s) = true →
  n_prefixlen c ≠ 64 →
  ∃ msg, _validate_subnet env db s None = Raise (InvalidInput msg).
Proof.
  intros Hv Hc Hdhcp Hdns Hroutes Hauto Hlen. unfold _validate_subnet.
  rewrite Hv. cbn [getitem mbind result_bind]. rewrite Hc.
  apply bind_invalid; [apply _validate_ip_version_raises|]. intros _.
  apply bind_invalid; [by apply validate_dhcp_invalid with c|]. intros _.
  apply bind_invalid; [by apply validate_gateway_creation_invalid with c|].
  intros _.
  apply bind_invalid; [by apply validate_dns_nameservers_invalid|]. intros _.
  apply bind_invalid; [by apply validate_host_routes_invalid|]. intros _.
  cbn. by apply _validate_ipv6_attributes_eui64 with c.
Qed.

End SubnetFacts.

(** ** Claim C5: auto-addressed subnets need a /64 *)

(** C5 (as amended).  For a subnet spec whose [ipv6_address_mode] or
    [ipv6_ra_mode] is SLAAC or DHCPv6-stateless, [_validate_eui64_applicable]
    raises [InvalidInput] unless the prefix length of the cidr is 64.
    Validating such a spec for a new IPv6 subnet, that is without a current
    subnet, with another prefix length fails with [InvalidInput] (the
    [enable_dhcp] entry being present and the name servers and host routes
    within their quotas); in particular an IPv6 subnet with
    [ipv6_address_mode=slaac] and a /80 prefix fails validation at
    creation. *)
Theorem C5_eui64_prefix_length (env : Env) (db : DB) (s : SubnetSpec)
        (c : IPNetwork) :
  is_auto_address_subnet (s_ipv6_address_mode s) (s_ipv6_ra_mode s) = true →
  s_cidr s = Val c →
  (_validate_eui64_applicable s
   = if n_prefixlen c =? 64 then Ok tt else Raise (InvalidInput msg_eui64))
  ∧ (n_prefixlen c ≠ 64 →
     s_ip_version s = Val 6 → s_enable_dhcp s ≠ Absent →
     within_quota (max_dns_nameservers env) (s_dns_nameservers s) →
     within_quota (max_subnet_host_routes env) (s_host_routes s) →
     ∃ msg, _validate_subnet env db s None = Raise (InvalidInput msg))
  ∧ _validate_subnet env db (spec_v6 net6_db8_80 (Val IPV6_SLAAC)) None
    = Raise (InvalidInput msg_eui64).
Proof.
  intros Hauto Hc. split; [by apply _validate_eui64_applicable_spec|].
  split; [|reflexivity].
  intros Hlen Hv Hdhcp Hdns Hroutes. by apply _validate_subnet_eui64 with c.
Qed.

Lemma C5_eui64_prefix_length_witness :
  _validate_eui64_applicable (spec_v6 net6_db8_80 (Val IPV6_SLAAC))
  = Raise (InvalidInput msg_eui64)
  ∧ ∃ msg, _validate_subnet demo_env empty_db
             (spec_v6 net6_db8_80 (Val IPV6_SLAAC)) None
           = Raise (InvalidInput msg).
Proof.
  destruct (C5_eui64_prefix_length demo_env empty_db
              (spec_v6 net6_db8_80 (Val IPV6_SLAAC)) net6_db8_80
              eq_refl eq_refl) as (Hstep & Hcreate & _).
  split; [exact Hstep|].
  apply Hcreate; cbn; (lia || done).
Defined.

(** C5, as stated, fails for the validation of an update: with a current
    subnet, [_validate_ipv6_attributes] returns after its check of
    [enable_dhcp] and never looks at the prefix length.  The update of the
    stored subnet 2001:db8::/80 by a spec with [ipv6_address_mode=slaac],
    which implies auto-addressing, passes validation. *)
Lemma C5_update_skips_eui64 :
  is_auto_address_subnet
    (s_ipv6_address_mode (spec_v6 net6_db8_80 (Val IPV6_SLAAC)))
    (s_ipv6_ra_mode (spec_v6 net6_db8_80 (Val IPV6_SLAAC))) = true
  ∧ s_cidr (spec_v6 net6_db8_80 (Val IPV6_SLAAC)) = Val net6_db8_80
  ∧ n_prefixlen net6_db8_80 = 80
  ∧ _validate_subnet demo_env plain_80_db
      (spec_v6 net6_db8_80 (Val IPV6_SLAAC)) (Some plain_subnet_80) = Ok tt.
Proof. repeat split; vm_compute; reflexivity. Qed.

(** ** Claim C6: DHCP being newly enabled *)

Section DhcpFacts.
Context (env : Env).

Lemma validate_dhcp_newly_enabled v s cur c :
  s_cidr s = Val c → s_enable_dhcp s = Val true →
  dhcp_was_enabled cur = false →
  validate_dhcp (Val v) s cur
  = if ((v =? 4) && (30 <? n_prefixlen c))
       || ((v =? 6) && (126 <? n_prefixlen c))
    then Raise (InvalidInput msg_dhcp_prefixlen)
    else if is_multicast c then Raise (InvalidInput msg_dhcp_multicast)
    else if is_loopback c then Raise (InvalidInput msg_dhcp_loopback)
    else Ok tt.
Proof.
  intros Hc Hd Hw. unfold validate_dhcp. rewrite Hc, Hd, Hw.
  cbn [attr_bool_truthy negb andb IPNetwork_of_item mbind result_bind attr_is].
  by destruct (_ || _).
Qed.

Lemma validate_dhcp_already_enabled ip_ver s cur :
  dhcp_was_enabled cur = true → validate_dhcp ip_ver s cur = Ok tt.
Proof.
  intros Hw. unfold validate_dhcp. by rewrite Hw, andb_false_r.
Qed.

Lemma _validate_subnet_dhcp db v s cur c :
  s_ip_version s = Val v → s_cidr s = Val c → s_enable_dhcp s = Val true →
  dhcp_was_enabled cur = false →
  (v = 4 ∧ 30 < n_prefixlen c) ∨ (v = 6 ∧ 126 < n_prefixlen c)
  ∨ is_multicast c = true ∨ is_loopback c = true →
  ∃ msg, _validate_subnet env db s cur = Raise (InvalidInput msg).
Proof.
  intros Hv Hc Hd Hw Hbad. unfold _validate_subnet. rewrite Hv, Hc.
  cbn [getitem mbind result_bind].
  apply bind_invalid; [apply _validate_ip_version_raises|]. intros _.
  rewrite (validate_dhcp_newly_enabled v s cur c Hc Hd Hw).
  destruct (((v =? 4) && (30 <? n_prefixlen c))
            || ((v =? 6) && (126 <? n_prefixlen c))) eqn:E;
    [cbn; eauto|].
  destruct (is_multicast c); [cbn; eauto|].
  destruct (is_loopback c); [cbn; eauto|].
  exfalso. apply orb_false_iff in E as [E4 E6].
  destruct Hbad as [[-> Hp]|[[-> Hp]|[?|?]]]; try done;
    apply Z.ltb_lt in Hp; by rewrite Hp in *.
Qed.

End DhcpFacts.

(** C6.  When subnet validation runs with [enable_dhcp] requested true and
    DHCP not enabled on the existing subnet (at creation, or going from
    false to true), it raises [InvalidInput] if the prefix length of the
    cidr exceeds 30 for IPv4 or 126 for IPv6, or if the cidr lies in a
    multicast or loopback range.  When DHCP already is enabled on the
    existing subnet these checks are skipped. *)
Theorem C6_dhcp_newly_enabled
  (env : Env) (db : DB) (s : SubnetSpec) (cur_subnet : option Subnet)
  (ip_version : Z) (c : IPNetwork) :
  s_ip_version s = Val ip_version →
  s_cidr s = Val c →
  s_enable_dhcp s = Val true →
  (dhcp_was_enabled cur_subnet = false →
   (ip_version = 4 ∧ 30 < n_prefixlen c)
   ∨ (ip_version = 6 ∧ 126 < n_prefixlen c)
   ∨ is_multicast c = true ∨ is_loopback c = true →
   ∃ msg, _validate_subnet env db s cur_subnet = Raise (InvalidInput msg))
  ∧ (dhcp_was_enabled cur_subnet = true →
     validate_dhcp (Val ip_version) s cur_subnet = Ok tt).
Proof.
  intros Hv Hc Hd. split.
  - intros Hw Hbad. by apply _validate_subnet_dhcp with ip_version c.
  - apply validate_dhcp_already_enabled.
Qed.

Lemma C6_dhcp_newly_enabled_witness :
  ∃ msg, _validate_subnet demo_env empty_db (spec_v4 (net4 10 0 0 0 31) true)
           None = Raise (InvalidInput msg).
Proof.
  destruct (C6_dhcp_newly_enabled demo_env empty_db
              (spec_v4 (net4 10 0 0 0 31) true) None 4 (net4 10 0 0 0 31)
              eq_refl eq_refl eq_refl) as [Hnew _].
  apply Hnew; [reflexivity|]. left. cbn. lia.
Defined.

Example dhcp_multicast_rejected :
  _validate_subnet demo_env empty_db (spec_v4 (net4 224 0 1 0 24) true) None
  = Raise (InvalidInput msg_dhcp_multicast).
Proof. reflexivity. Qed.

Example dhcp_loopback_rejected :
  _validate_subnet demo_env empty_db (spec_v4 (net4 127 0 0 0 24) true) None
  = Raise (InvalidInput msg_dhcp_loopback).
Proof. reflexivity. Qed.

Example dhcp_already_enabled_skips :
  _validate_subnet demo_env routed_db (spec_v4 (net4 10 0 0 0 31) true)
    (Some routed_subnet) = Ok tt.
Proof. reflexivity. Qed.

(** ** Claim C7: the gateway of a subnet in use by a router *)

Section GatewayFacts.
Context (env : Env).

Lemma elem_of_router_port_allocations db a :
  a ∈ router_port_allocations db ↔
  a ∈ db_ipallocations db
  ∧ ∃ p, p ∈ db_ports db ∧ port_id p = alloc_port_id a
         ∧ ∃ rp, rp ∈ db_routerports db ∧ rp_port_id rp = port_id p.
Proof.
  unfold router_port_allocations. rewrite list_elem_of_bind. split.
  - intros (a' & Hin & Ha').
    apply list_elem_of_bind in Hin as (p & Hin & Hp).
    apply list_elem_of_bind in Hin as (rp & Hin & Hrp).
    apply list_elem_of_singleton in Hin as ->.
    apply list_elem_of_filter in Hp as [Hpid Hp].
    apply list_elem_of_filter in Hrp as [Hrpid Hrp]. eauto 8.
  - intros (Ha & p & Hp & Hpid & rp & Hrp & Hrpid).
    exists a. split; [|done].
    apply list_elem_of_bind. exists p. split; [|by apply list_elem_of_filter].
    apply list_elem_of_bind. exists rp.
    split; [by apply list_elem_of_singleton|by apply list_elem_of_filter].
Qed.

(** The allocation found binds the old gateway to a router port. *)
Lemma gateway_allocation_Some db cur allocated :
  gateway_allocation db cur = Some allocated →
  allocated ∈ db_ipallocations db
  ∧ Some (alloc_ip_address allocated) = subnet_gateway_ip cur
  ∧ alloc_subnet_id allocated = subnet_id cur
  ∧ ∃ p, p ∈ db_ports db ∧ port_id p = alloc_port_id allocated
         ∧ ∃ rp, rp ∈ db_routerports db ∧ rp_port_id rp = port_id p.
Proof.
  unfold gateway_allocation. intros H.
  apply head_Some_elem_of, list_elem_of_filter in H as [[Hip Hsub] Hin].
  apply elem_of_router_port_allocations in Hin as [Hin Hjoin]. done.
Qed.

(** Any such allocation makes the query return one. *)
Lemma gateway_allocation_exists db cur a p rp :
  a ∈ db_ipallocations db →
  Some (alloc_ip_address a) = subnet_gateway_ip cur →
  alloc_subnet_id a = subnet_id cur →
  p ∈ db_ports db → port_id p = alloc_port_id a →
  rp ∈ db_routerports db → rp_port_id rp = port_id p →
  ∃ allocated, gateway_allocation db cur = Some allocated.
Proof.
  intros Ha Hip Hsub Hp Hpid Hrp Hrpid. unfold gateway_allocation.
  assert (a ∈ filter (λ a, Some (alloc_ip_address a) = subnet_gateway_ip cur
                           ∧ alloc_subnet_id a = subnet_id cur)
                     (router_port_allocations db)) as Hin.
  { apply list_elem_of_filter. split; [done|].
    apply elem_of_router_port_allocations. eauto 8. }
  destruct (filter _ _) as [|x l]; [by apply elem_of_nil in Hin|].
  by exists x.
Qed.

Lemma validate_gateway_in_use db ip_ver s cur gateway_ip allocated :
  s_gateway_ip s = Val gateway_ip →
  is_ipv6_pd_enabled (s_subnetpool_id s) = false →
  gateway_allocation db cur = Some allocated →
  alloc_port_id allocated ≠ "" →
  (∃ e, validate_gateway env db ip_ver s (Some cur) = Raise e)
  ∧ ∀ c, s_cidr s = Val c →
         attr_is ip_ver (a_version gateway_ip) = true →
         check_gateway_invalid_in_subnet env c gateway_ip = false →
         validate_gateway env db ip_ver s (Some cur)
         = Raise (GatewayIpInUse (subnet_gateway_ip cur)
                                 (alloc_port_id allocated)).
Proof.
  intros Hg Hpd Halloc Hport.
  assert (check (negb (String.eqb (alloc_port_id allocated) ""))
                (GatewayIpInUse (subnet_gateway_ip cur)
                                (alloc_port_id allocated))
          = Raise (GatewayIpInUse (subnet_gateway_ip cur)
                                  (alloc_port_id allocated))) as Hcheck.
  { apply String.eqb_neq in Hport. by rewrite Hport. }
  unfold validate_gateway. rewrite Hg, Hpd, Halloc, Hcheck. split.
  - apply bind_raises. intros _. apply bind_raises. intros net.
    apply bind_raises. intros _. cbn. eauto.
  - intros c Hc Hversion Hvalid. unfold _validate_ip_version.
    rewrite Hversion, Hc. cbn. by rewrite Hvalid.
Qed.

Lemma _validate_subnet_gateway_in_use db s cur gateway_ip allocated :
  s_gateway_ip s = Val gateway_ip →
  is_ipv6_pd_enabled (s_subnetpool_id s) = false →
  gateway_allocation db cur = Some allocated →
  alloc_port_id allocated ≠ "" →
  (∃ e, _validate_subnet env db s (Some cur) = Raise e)
  ∧ ∀ v c, s_ip_version s = Val v → s_cidr s = Val c → n_version c = v →
           validate_dhcp (Val v) s (Some cur) = Ok tt →
           a_version gateway_ip = v →
           check_gateway_invalid_in_subnet env c gateway_ip = false →
           _validate_subnet env db s (Some cur)
           = Raise (GatewayIpInUse (subnet_gateway_ip cur)
                                   (alloc_port_id allocated)).
Proof.
  intros Hg Hpd Halloc Hport. unfold _validate_subnet. split.
  - apply bind_raises. intros ip_ver. apply bind_raises. intros _.
    apply bind_raises. intros _.
    destruct (validate_gateway_in_use db ip_ver s cur gateway_ip allocated
                Hg Hpd Halloc Hport) as [[e ->] _].
    cbn. eauto.
  - intros v c Hv Hc Hcv Hdhcp Hgv Hvalid.
    destruct (validate_gateway_in_use db (Val v) s cur gateway_ip allocated
                Hg Hpd Halloc Hport) as [_ Hin_use].
    rewrite Hv. cbn [getitem mbind result_bind]. rewrite Hc.
    unfold _validate_ip_version. cbn [attr_is]. rewrite Hcv, Z.eqb_refl.
    cbn [negb check mbind result_bind]. rewrite Hdhcp.
    cbn [mbind result_bind]. rewrite (Hin_use c); try done.
    cbn. rewrite Hgv. apply Z.eqb_refl.
Qed.

End GatewayFacts.

(** C7.  On a subnet update that sets [gateway_ip] with prefix delegation
    not enabled, if an address allocation binds the old gateway of the
    subnet to a port that has a router binding, the update is rejected;
    when the rules that come first pass, it is rejected as
    [GatewayIpInUse], reporting the old gateway and the port of the
    allocation found.  At creation (no current subnet) the check is not
    performed: the result does not depend on the stored allocations and is
    never [GatewayIpInUse]. *)
Theorem C7_gateway_in_use
  (env : Env) (db : DB) (s : SubnetSpec) (cur_subnet : Subnet)
  (gateway_ip : IPAddress) (a : IPAllocation) (p : Port) (rp : RouterPort) :
  s_gateway_ip s = Val gateway_ip →
  is_ipv6_pd_enabled (s_subnetpool_id s) = false →
  a ∈ db_ipallocations db →
  Some (alloc_ip_address a) = subnet_gateway_ip cur_subnet →
  alloc_subnet_id a = subnet_id cur_subnet →
  p ∈ db_ports db → port_id p = alloc_port_id a →
  rp ∈ db_routerports db → rp_port_id rp = port_id p →
  (∀ q, q ∈ db_ports db → port_id q ≠ "") →
  (∃ allocated,
     gateway_allocation db cur_subnet = Some allocated
     ∧ Some (alloc_ip_address allocated) = subnet_gateway_ip cur_subnet
     ∧ alloc_subnet_id allocated = subnet_id cur_subnet
     ∧ (∃ e, _validate_subnet env db s (Some cur_subnet) = Raise e)
     ∧ ∀ v c,
         s_ip_version s = Val v → s_cidr s = Val c → n_version c = v →
         validate_dhcp (Val v) s (Some cur_subnet) = Ok tt →
         a_version gateway_ip = v →
         check_gateway_invalid_in_subnet env c gateway_ip = false →
         _validate_subnet env db s (Some cur_subnet)
         = Raise (GatewayIpInUse (subnet_gateway_ip cur_subnet)
                                 (alloc_port_id allocated)))
  ∧ (∀ db', _validate_subnet env db' s None = _validate_subnet env db s None)
  ∧ (∀ ip port,
       _validate_subnet env db s None ≠ Raise (GatewayIpInUse ip port)).
Proof.
  intros Hg Hpd Ha Hip Hsub Hp Hpid Hrp Hrpid Hids. split; [|split].
  - destruct (gateway_allocation_exists db cur_subnet a p rp)
      as [allocated Halloc]; try done.
    destruct (gateway_allocation_Some db cur_subnet allocated Halloc)
      as (_ & Hip' & Hsub' & q & Hq & Hqid & _).
    assert (alloc_port_id allocated ≠ "") as Hport.
    { rewrite <- Hqid. by apply Hids. }
    destruct (_validate_subnet_gateway_in_use env db s cur_subnet gateway_ip
                allocated Hg Hpd Halloc Hport) as [Hrej Hin_use].
    exists allocated. by repeat split.
  - intros db'. reflexivity.
  - intros ip port Heq.
    pose proof (_validate_subnet_creation_raises env db s) as Hraises.
    by rewrite Heq in Hraises.
Qed.

Lemma C7_gateway_in_use_witness :
  _validate_subnet demo_env routed_db move_gateway (Some routed_subnet)
  = Raise (GatewayIpInUse (Some gw_address) "port-r").
Proof.
  assert (mkAlloc gw_address "subnet-1" "port-r" "net-1"
          ∈ db_ipallocations routed_db) as Ha
    by (apply list_elem_of_singleton; reflexivity).
  assert (mkPort "port-r" "tenant-1" "net-1" "network:router_interface"
                 "router-1" "fa:16:3e:00:00:09" ∈ db_ports routed_db) as Hp
    by (apply list_elem_of_singleton; reflexivity).
  assert (mkRouterPort "router-1" "port-r" ∈ db_routerports routed_db) as Hrp
    by (apply list_elem_of_singleton; reflexivity).
  assert (∀ q, q ∈ db_ports routed_db → port_id q ≠ "") as Hids.
  { intros q Hq. apply list_elem_of_singleton in Hq as ->. done. }
  destruct (C7_gateway_in_use demo_env routed_db move_gateway routed_subnet
              (mkAddr 4 167772162) _ _ _
              eq_refl eq_refl Ha eq_refl eq_refl Hp eq_refl Hrp eq_refl Hids)
    as [(allocated & Halloc & _ & _ & _ & Hin_use) _].
  vm_compute in Halloc. injection Halloc as <-.
  apply (Hin_use 4 (mkNet 4 167772160 24)); reflexivity.
Defined.

(** ** Claim C9: a port update racing a subnet deletion *)

(** C9.  When the IPAM step of [update_port] fails with
    [IpAddressAllocationNotFound], [update_port] raises a [RetryRequest]
    wrapping that failure; every other failure of the IPAM step, and every
    failure of the port lookup and of the validation that come before it,
    is raised as it is.  In each case the store is left as it was. *)
Theorem C9_update_port_retry
  (env : Env) (context : Context) (id : string) (new_port : PortUpdate)
  (db : DB) :
  (∀ e, _get_port db id = Raise e →
        update_port env context id new_port db = (Raise e, db))
  ∧ ∀ db_port,
      _get_port db id = Ok db_port →
      (∀ e, _validate_port_for_update env context db_port new_port
              (get (pu_mac_address new_port)) = Raise e →
            update_port env context id new_port db = (Raise e, db))
      ∧ (_validate_port_for_update env context db_port new_port
           (get (pu_mac_address new_port)) = Ok tt →
         ∀ r db1,
           ipam_update_port env context db_port new_port db = (r, db1) →
           update_port env context id new_port db
           = match r with
             | Ok _ => (Ok db_port, db1)
             | Raise (IpAddressAllocationNotFound ip sn p) =>
                 (Raise (RetryRequest (IpAddressAllocationNotFound ip sn p)),
                  db)
             | Raise e => (Raise e, db)
             end).
Proof.
  unfold update_port, transaction, retry_on_allocation_not_found, mbind,
    M_bind, lift, get_db, mret, M_ret.
  split.
  - by intros e ->.
  - intros db_port ->. split.
    + by intros e ->.
    + intros -> r db1 ->. by destruct r as [[]|[]].
Qed.

Lemma C9_update_port_retry_witness :
  update_port racing_env admin "port-1" (mkPortUpdate Absent Absent Absent)
    owner_only_db
  = (Raise (RetryRequest
              (IpAddressAllocationNotFound "10.0.0.5" "subnet-1" "port-1")),
     owner_only_db).
Proof.
  destruct (C9_update_port_retry racing_env admin "port-1"
              (mkPortUpdate Absent Absent Absent) owner_only_db)
    as [_ Hfound].
  destruct (Hfound _ eq_refl) as [_ Hipam].
  exact (Hipam eq_refl _ _ eq_refl).
Defined.

Example update_port_mac_of_network_port :
  update_port racing_env admin "port-2"
    (mkPortUpdate Absent Absent (Val "fa:16:3e:00:00:ff")) owner_only_db
  = (Raise (UnsupportedPortDeviceOwner "mac address update" "network:dhcp"),
     owner_only_db).
Proof. reflexivity. Qed.

(** ** Claim C10: cidr and prefixlen given together *)

(** C10.  A [create_subnet] request in which both [cidr] and [prefixlen]
    are set is rejected with [BadRequest], whatever the collaborators
    (validation, pool lookup, allocation) would do, and the store is left
    as it was. *)
Theorem C10_cidr_and_prefixlen
  (env : Env) (context : Context) (subnet : SubnetSpec) (db : DB)
  (cidr : IPNetwork) (prefixlen : Z) :
  s_cidr subnet = Val cidr →
  s_prefixlen subnet = Val prefixlen →
  create_subnet env context subnet db
  = (Raise (BadRequest "subnets" msg_cidr_and_prefixlen), db).
Proof.
  intros Hc Hp. unfold create_subnet. by rewrite Hc, Hp.
Qed.

Lemma C10_cidr_and_prefixlen_witness :
  create_subnet demo_env admin both_cidr_and_prefixlen scoped_db
  = (Raise (BadRequest "subnets" msg_cidr_and_prefixlen), scoped_db).
Proof.
  exact (C10_cidr_and_prefixlen demo_env admin both_cidr_and_prefixlen
           scoped_db (net4 10 0 0 0 24) 24 eq_refl eq_refl).
Defined.

(** * Properties of the further operations *)

(** ** Subnet validation: what an accepted request guarantees *)

Section ValidationFacts.
Context (env : Env).

Lemma bind_Ok {A B} (m : result exn A) (k : A → result exn B) b :
  m ≫= k = Ok b → ∃ a, m = Ok a ∧ k a = Ok b.
Proof. destruct m; simpl; [eauto|done]. Qed.

Lemma check_Ok b e : check b e = Ok tt → b = false.
Proof. by destruct b. Qed.

Lemma attr_is_Val x v : attr_is x v = true ↔ x = Val v.
Proof.
  destruct x; simpl; try (split; intros; done).
  rewrite Z.eqb_eq. split; congruence.
Qed.

Lemma _validate_ip_version_Ok ip_ver v name :
  _validate_ip_version ip_ver v name = Ok tt → ip_ver = Val v.
Proof.
  unfold _validate_ip_version. intros H%check_Ok.
  apply negb_false_iff in H. by apply attr_is_Val.
Qed.

Lemma loop_Ok {X} (f : X → result exn unit) l acc :
  foldl (λ acc x, acc;; f x) acc l = Ok tt →
  acc = Ok tt ∧ ∀ x, x ∈ l → f x = Ok tt.
Proof.
  revert acc. induction l as [|y l IH]; intros acc H.
  - split; [done|]. intros x Hx. by apply elem_of_nil in Hx.
  - cbn [foldl] in H. apply IH in H as [H Hl].
    apply bind_Ok in H as ([] & Hacc & Hy). split; [done|].
    intros x [->|Hx]%elem_of_cons; auto.
Qed.

Lemma validate_dns_nameservers_Ok ip_ver s l :
  validate_dns_nameservers env ip_ver s = Ok tt →
  s_dns_nameservers s = Val l →
  Z.of_nat (length l) ≤ max_dns_nameservers env
  ∧ ∀ dns, dns ∈ l → ∃ ip, dns = Some ip ∧ ip_ver = Val (a_version ip).
Proof.
  unfold validate_dns_nameservers. intros H Hl. rewrite Hl in H.
  apply bind_Ok in H as ([] & Hq%check_Ok & H).
  apply Z.ltb_ge in Hq. split; [done|].
  apply loop_Ok in H as [_ H]. intros dns Hdns. specialize (H dns Hdns).
  destruct dns as [ip|]; [|done]. exists ip. split; [done|].
  by apply _validate_ip_version_Ok in H.
Qed.

Lemma _validate_host_route_Ok rt ip_ver :
  _validate_host_route rt ip_ver = Ok tt ↔
  ∃ destination nexthop,
    route_destination rt = Some destination
    ∧ route_nexthop rt = Some nexthop
    ∧ ip_ver = Val (n_version destination)
    ∧ ip_ver = Val (a_version nexthop).
Proof.
  unfold _validate_host_route. split.
  - destruct (route_destination rt) as [d|], (route_nexthop rt) as [n|];
      try done.
    intros H. apply bind_Ok in H as ([] & H1 & H2).
    apply _validate_ip_version_Ok in H1, H2. by exists d, n.
  - intros (d & n & -> & -> & Hd & Hn). unfold _validate_ip_version.
    rewrite Hn. cbn. rewrite Z.eqb_refl. cbn.
    assert (a_version n = n_version d) as -> by congruence.
    by rewrite Z.eqb_refl.
Qed.

Lemma validate_host_routes_Ok ip_ver s l :
  validate_host_routes env ip_ver s = Ok tt →
  s_host_routes s = Val l →
  Z.of_nat (length l) ≤ max_subnet_host_routes env
  ∧ ∀ rt, rt ∈ l → _validate_host_route rt ip_ver = Ok tt.
Proof.
  unfold validate_host_routes. intros H Hl. rewrite Hl in H.
  apply bind_Ok in H as ([] & Hq%check_Ok & H).
  apply Z.ltb_ge in Hq. split; [done|].
  by apply loop_Ok in H as [_ H].
Qed.

Lemma validate_gateway_Ok db ip_ver s cur g :
  validate_gateway env db ip_ver s cur = Ok tt →
  s_gateway_ip s = Val g →
  ip_ver = Val (a_version g)
  ∧ ∃ c, s_cidr s = Val c ∧ check_gateway_invalid_in_subnet env c g = false.
Proof.
  unfold validate_gateway. intros H Hg. rewrite Hg in H.
  apply bind_Ok in H as ([] & Hv & H).
  apply _validate_ip_version_Ok in Hv. split; [done|].
  apply bind_Ok in H as (c & Hc & H).
  apply bind_Ok in H as ([] & Hvalid%check_Ok & _).
  exists c. split; [|done]. destruct (s_cidr s); by simplify_eq/=.
Qed.

(** The steps of a validation that succeeds all succeed. *)
Lemma _validate_subnet_Ok db s cur :
  _validate_subnet env db s cur = Ok tt →
  s_ip_version s ≠ Absent
  ∧ (∀ c, s_cidr s = Val c → s_ip_version s = Val (n_version c))
  ∧ validate_dhcp (s_ip_version s) s cur = Ok tt
  ∧ validate_gateway env db (s_ip_version s) s cur = Ok tt
  ∧ validate_dns_nameservers env (s_ip_version s) s = Ok tt
  ∧ validate_host_routes env (s_ip_version s) s = Ok tt
  ∧ (s_ip_version s = Val 4 →
     is_attr_set (s_ipv6_ra_mode s) = false
     ∧ is_attr_set (s_ipv6_address_mode s) = false)
  ∧ (s_ip_version s = Val 6 → _validate_ipv6_attributes s cur = Ok tt).
Proof.
  unfold _validate_subnet. intros H.
  apply bind_Ok in H as (ip_ver & Hv & H).
  assert (s_ip_version s ≠ Absent ∧ ip_ver = s_ip_version s) as [Hp ->].
  { destruct (s_ip_version s); by simplify_eq/=. }
  apply bind_Ok in H as ([] & Hc & H).
  apply bind_Ok in H as ([] & Hdhcp & H).
  apply bind_Ok in H as ([] & Hgw & H).
  apply bind_Ok in H as ([] & Hdns & H).
  apply bind_Ok in H as ([] & Hrt & H).
  apply bind_Ok in H as ([] & H4 & H6).
  split; [done|]. split.
  { intros c Ec. rewrite Ec in Hc. by apply _validate_ip_version_Ok in Hc. }
  do 4 (split; [done|]). split.
  - intros E. rewrite E in H4. cbn in H4.
    apply bind_Ok in H4 as ([] & Hra%check_Ok & Ham%check_Ok). done.
  - intros E. rewrite E in H6. by cbn in H6.
Qed.

End ValidationFacts.

Section ValidationRules.
Context (env : Env).

Lemma _validate_subnet_not_Ok db s cur :
  (_validate_subnet env db s cur = Ok tt → False) →
  ∃ e, _validate_subnet env db s cur = Raise e.
Proof.
  destruct (_validate_subnet env db s cur) as [[]|e]; [|eauto].
  intros H. by destruct H.
Qed.

Lemma _validate_ipv6_update_dhcp_spec s cur :
  _validate_ipv6_update_dhcp s cur
  = if bool_decide (s_enable_dhcp s ≠ Absent)
       && negb (attr_bool_truthy (s_enable_dhcp s))
       && (is_attr_set (s_ipv6_ra_mode s)
           || is_attr_set (s_ipv6_address_mode s)
           || is_attr_set (subnet_ipv6_ra_mode cur)
           || is_attr_set (subnet_ipv6_address_mode cur))
    then Raise (InvalidInput msg_ipv6_update_dhcp)
    else Ok tt.
Proof.
  unfold _validate_ipv6_update_dhcp.
  destruct (bool_decide _ && negb _); [|done]. cbn [andb].
  destruct (is_attr_set (s_ipv6_ra_mode s)),
    (is_attr_set (s_ipv6_address_mode s)); done.
Qed.

Lemma _validate_ipv6_attributes_creation_spec s :
  s_enable_dhcp s ≠ Absent →
  _validate_ipv6_attributes s None
  = if (is_attr_set (s_ipv6_ra_mode s) || is_attr_set (s_ipv6_address_mode s))
       && negb (attr_bool_truthy (s_enable_dhcp s))
    then Raise (InvalidInput msg_ipv6_dhcp)
    else if is_attr_set (s_ipv6_ra_mode s)
            && is_attr_set (s_ipv6_address_mode s)
            && bool_decide (s_ipv6_ra_mode s ≠ s_ipv6_address_mode s)
    then Raise (InvalidInput msg_ipv6_combination)
    else if is_attr_set (s_ipv6_address_mode s)
            || is_attr_set (s_ipv6_ra_mode s)
    then _validate_eui64_applicable s
    else Ok tt.
Proof.
  intros Hd. unfold _validate_ipv6_attributes, _validate_ipv6_dhcp,
    _validate_ipv6_combination.
  assert (getitem "enable_dhcp" (s_enable_dhcp s) = Ok (s_enable_dhcp s))
    as -> by by destruct (s_enable_dhcp s).
  cbn [mbind result_bind].
  destruct ((_ || _) && negb _); [done|]. cbn [check mbind result_bind].
  destruct (is_attr_set (s_ipv6_ra_mode s)),
    (is_attr_set (s_ipv6_address_mode s)); cbn; try done.
  by destruct (bool_decide _).
Qed.

End ValidationRules.

(** X1.  A request that [_validate_subnet] accepts is of one IP family: the
    cidr, the gateway, every name server and both ends of every host route
    are parsed addresses of the request's [ip_version]. *)
Theorem validated_subnet_single_family
  (env : Env) (db : DB) (s : SubnetSpec) (cur_subnet : option Subnet) :
  _validate_subnet env db s cur_subnet = Ok tt →
  (∀ c, s_cidr s = Val c → s_ip_version s = Val (n_version c))
  ∧ (∀ g, s_gateway_ip s = Val g → s_ip_version s = Val (a_version g))
  ∧ (∀ l dns, s_dns_nameservers s = Val l → dns ∈ l →
       ∃ ip, dns = Some ip ∧ s_ip_version s = Val (a_version ip))
  ∧ (∀ l rt, s_host_routes s = Val l → rt ∈ l →
       ∃ destination nexthop,
         route_destination rt = Some destination
         ∧ route_nexthop rt = Some nexthop
         ∧ s_ip_version s = Val (n_version destination)
         ∧ s_ip_version s = Val (a_version nexthop)).
Proof.
  intros H. apply _validate_subnet_Ok in H
    as (_ & Hc & _ & Hgw & Hdns & Hrt & _).
  split; [done|]. split; [|split].
  - intros g Hg. by destruct (validate_gateway_Ok _ _ _ _ _ _ Hgw Hg).
  - intros l dns Hl Hin.
    destruct (validate_dns_nameservers_Ok _ _ _ _ Hdns Hl) as [_ Hall]. auto.
  - intros l rt Hl Hin.
    destruct (validate_host_routes_Ok _ _ _ _ Hrt Hl) as [_ Hall].
    by apply _validate_host_route_Ok, Hall.
Qed.

Lemma validated_subnet_single_family_witness :
  _validate_subnet demo_env empty_db served_spec None = Ok tt
  ∧ ∀ g, s_gateway_ip served_spec = Val g →
         s_ip_version served_spec = Val (a_version g).
Proof.
  assert (_validate_subnet demo_env empty_db served_spec None = Ok tt) as E.
  { vm_compute. reflexivity. }
  split; [exact E|].
  exact (proj1 (proj2 (validated_subnet_single_family _ _ _ _ E))).
Defined.

(** X2.  A request that [_validate_subnet] accepts has at most
    [max_dns_nameservers] name servers and [max_subnet_host_routes] host
    routes.  A longer list is reported as exhausted, under the id of the
    subnet or as 'new subnet', whatever its entries are. *)
Theorem validated_subnet_within_quotas
  (env : Env) (db : DB) (s : SubnetSpec) (cur_subnet : option Subnet) :
  (_validate_subnet env db s cur_subnet = Ok tt →
   within_quota (max_dns_nameservers env) (s_dns_nameservers s)
   ∧ within_quota (max_subnet_host_routes env) (s_host_routes s))
  ∧ (∀ ip_ver l,
       s_dns_nameservers s = Val l →
       max_dns_nameservers env < Z.of_nat (length l) →
       validate_dns_nameservers env ip_ver s
       = Raise (DNSNameServersExhausted (subnet_id_or_new s)
                  (max_dns_nameservers env)))
  ∧ (∀ ip_ver l,
       s_host_routes s = Val l →
       max_subnet_host_routes env < Z.of_nat (length l) →
       validate_host_routes env ip_ver s
       = Raise (HostRoutesExhausted (subnet_id_or_new s)
                  (max_subnet_host_routes env))).
Proof.
  split; [|split].
  - intros H. apply _validate_subnet_Ok in H
      as (_ & _ & _ & _ & Hdns & Hrt & _).
    unfold within_quota. split.
    + destruct (s_dns_nameservers s) as [| | |l] eqn:E; try done.
      by destruct (validate_dns_nameservers_Ok _ _ _ _ Hdns E).
    + destruct (s_host_routes s) as [| | |l] eqn:E; try done.
      by destruct (validate_host_routes_Ok _ _ _ _ Hrt E).
  - intros ip_ver l Hl Hlen. unfold validate_dns_nameservers. rewrite Hl.
    apply Z.ltb_lt in Hlen. by rewrite Hlen.
  - intros ip_ver l Hl Hlen. unfold validate_host_routes. rewrite Hl.
    apply Z.ltb_lt in Hlen. by rewrite Hlen.
Qed.

Lemma validated_subnet_within_quotas_witness :
  within_quota (max_dns_nameservers demo_env) (s_dns_nameservers served_spec)
  ∧ within_quota (max_subnet_host_routes demo_env)
      (s_host_routes served_spec).
Proof.
  assert (_validate_subnet demo_env empty_db served_spec None = Ok tt) as E.
  { vm_compute. reflexivity. }
  exact (proj1 (validated_subnet_within_quotas demo_env empty_db served_spec
                  None) E).
Defined.

(** X3.  An IPv4 request that sets [ipv6_ra_mode] or [ipv6_address_mode] never
    passes validation, at creation or on update.  At creation, with a cidr
    given and the lists within their quotas, the error is [InvalidInput]. *)
Theorem ipv4_subnet_rejects_ipv6_modes
  (env : Env) (db : DB) (s : SubnetSpec) (cur_subnet : option Subnet) :
  s_ip_version s = Val 4 →
  is_attr_set (s_ipv6_ra_mode s) || is_attr_set (s_ipv6_address_mode s)
  = true →
  (∃ e, _validate_subnet env db s cur_subnet = Raise e)
  ∧ (∀ c, s_cidr s = Val c →
       within_quota (max_dns_nameservers env) (s_dns_nameservers s) →
       within_quota (max_subnet_host_routes env) (s_host_routes s) →
       ∃ msg, _validate_subnet env db s None = Raise (InvalidInput msg)).
Proof.
  intros Hv Hmode. split.
  - apply _validate_subnet_not_Ok. intros H.
    apply _validate_subnet_Ok in H as (_ & _ & _ & _ & _ & _ & H4 & _).
    destruct (H4 Hv) as [Hra Ham]. by rewrite Hra, Ham in Hmode.
  - intros c Hc Hdns Hrt. unfold _validate_subnet. rewrite Hv, Hc.
    cbn [getitem mbind result_bind].
    apply bind_invalid; [apply _validate_ip_version_raises|]. intros _.
    apply bind_invalid; [by apply validate_dhcp_invalid with c|]. intros _.
    apply bind_invalid; [by apply validate_gateway_creation_invalid with c|].
    intros _.
    apply bind_invalid; [by apply validate_dns_nameservers_invalid|].
    intros _.
    apply bind_invalid; [by apply validate_host_routes_invalid|]. intros _.
    cbn. destruct (is_attr_set (s_ipv6_ra_mode s)); cbn; [eauto|].
    cbn in Hmode. rewrite Hmode. cbn. eauto.
Qed.

Lemma ipv4_subnet_rejects_ipv6_modes_witness :
  ∃ msg, _validate_subnet demo_env empty_db spec_v4_with_mode None
         = Raise (InvalidInput msg).
Proof.
  destruct (ipv4_subnet_rejects_ipv6_modes demo_env empty_db
              spec_v4_with_mode None eq_refl eq_refl) as [_ H].
  apply (H (net4 10 0 0 0 24)); cbn; done.
Defined.

(** X4.  On the update of an IPv6 subnet the only IPv6 rule applied is the one
    on DHCP: a request that carries [enable_dhcp] with a false value is
    rejected with [InvalidInput] when the request or the stored subnet has
    an RA mode or an address mode set, and such a request never passes
    validation; any other request passes the IPv6 step, the combination of
    the modes and the prefix length not being looked at again. *)
Theorem ipv6_update_cannot_disable_dhcp
  (env : Env) (db : DB) (s : SubnetSpec) (cur : Subnet) :
  s_ip_version s = Val 6 →
  _validate_ipv6_attributes s (Some cur)
  = (if bool_decide (s_enable_dhcp s ≠ Absent)
        && negb (attr_bool_truthy (s_enable_dhcp s))
        && (is_attr_set (s_ipv6_ra_mode s)
            || is_attr_set (s_ipv6_address_mode s)
            || is_attr_set (subnet_ipv6_ra_mode cur)
            || is_attr_set (subnet_ipv6_address_mode cur))
     then Raise (InvalidInput msg_ipv6_update_dhcp)
     else Ok tt)
  ∧ (s_enable_dhcp s ≠ Absent →
     attr_bool_truthy (s_enable_dhcp s) = false →
     is_attr_set (s_ipv6_ra_mode s) || is_attr_set (s_ipv6_address_mode s)
     || is_attr_set (subnet_ipv6_ra_mode cur)
     || is_attr_set (subnet_ipv6_address_mode cur) = true →
     ∃ e, _validate_subnet env db s (Some cur) = Raise e).
Proof.
  intros Hv. split; [apply _validate_ipv6_update_dhcp_spec|].
  intros Hp Hf Hmode. apply _validate_subnet_not_Ok. intros H.
  apply _validate_subnet_Ok in H as (_ & _ & _ & _ & _ & _ & _ & H6).
  specialize (H6 Hv). cbn [_validate_ipv6_attributes] in H6.
  rewrite _validate_ipv6_update_dhcp_spec in H6.
  rewrite (bool_decide_eq_true_2 _ Hp), Hf, Hmode in H6. done.
Qed.

Lemma ipv6_update_cannot_disable_dhcp_witness :
  ∃ e, _validate_subnet demo_env empty_db disable_dhcp (Some slaac_subnet)
       = Raise e.
Proof.
  destruct (ipv6_update_cannot_disable_dhcp demo_env empty_db disable_dhcp
              slaac_subnet eq_refl) as [_ H].
  apply H; done.
Defined.

(** X5.  At the creation of an IPv6 subnet, an RA mode or an address mode can
    only be set with DHCP enabled, and when both are set they must be
    equal: a request that breaks either rule never passes validation, and
    the IPv6 step reports the DHCP rule first, then the combination, then
    the prefix length of auto-addressed subnets. *)
Theorem ipv6_creation_modes
  (env : Env) (db : DB) (s : SubnetSpec) :
  s_ip_version s = Val 6 →
  s_enable_dhcp s ≠ Absent →
  _validate_ipv6_attributes s None
  = (if (is_attr_set (s_ipv6_ra_mode s)
         || is_attr_set (s_ipv6_address_mode s))
        && negb (attr_bool_truthy (s_enable_dhcp s))
     then Raise (InvalidInput msg_ipv6_dhcp)
     else if is_attr_set (s_ipv6_ra_mode s)
             && is_attr_set (s_ipv6_address_mode s)
             && bool_decide (s_ipv6_ra_mode s ≠ s_ipv6_address_mode s)
     then Raise (InvalidInput msg_ipv6_combination)
     else if is_attr_set (s_ipv6_address_mode s)
             || is_attr_set (s_ipv6_ra_mode s)
     then _validate_eui64_applicable s
     else Ok tt)
  ∧ ((is_attr_set (s_ipv6_ra_mode s)
      || is_attr_set (s_ipv6_address_mode s) = true
      ∧ attr_bool_truthy (s_enable_dhcp s) = false)
     ∨ (is_attr_set (s_ipv6_ra_mode s) = true
        ∧ is_attr_set (s_ipv6_address_mode s) = true
        ∧ s_ipv6_ra_mode s ≠ s_ipv6_address_mode s) →
     ∃ e, _validate_subnet env db s None = Raise e).
Proof.
  intros Hv Hp. split; [by apply _validate_ipv6_attributes_creation_spec|].
  intros Hbad. apply _validate_subnet_not_Ok. intros H.
  apply _validate_subnet_Ok in H as (_ & _ & _ & _ & _ & _ & _ & H6).
  specialize (H6 Hv).
  rewrite (_validate_ipv6_attributes_creation_spec s Hp) in H6.
  destruct Hbad as [[Hset Hf]|(Hra & Ham & Hne)].
  - by rewrite Hset, Hf in H6.
  - rewrite Hra, Ham, (bool_decide_eq_true_2 _ Hne) in H6. cbn in H6.
    by destruct (attr_bool_truthy (s_enable_dhcp s)).
Qed.

Lemma ipv6_creation_modes_witness :
  ∃ e, _validate_subnet demo_env empty_db
         (spec_v6_modes IPV6_SLAAC DHCPV6_STATELESS true) None = Raise e.
Proof.
  destruct (ipv6_creation_modes demo_env empty_db
              (spec_v6_modes IPV6_SLAAC DHCPV6_STATELESS true) eq_refl)
    as [_ H]; [done|].
  apply H. right. done.
Defined.

(** ** Port updates: device ownership and MAC addresses *)

Section PortFacts.
Context (env : Env).

Lemma update_port_validation_error context id new_port db db_port e :
  _get_port db id = Ok db_port →
  _validate_port_for_update env context db_port new_port
    (get (pu_mac_address new_port)) = Raise e →
  update_port env context id new_port db = (Raise e, db).
Proof.
  unfold update_port, transaction, mbind, M_bind, lift, get_db.
  by intros -> ->.
Qed.

Lemma router_owner_truthy owner :
  owner ∈ ROUTER_INTERFACE_OWNERS → attr_str_truthy (Val owner) = true.
Proof.
  unfold ROUTER_INTERFACE_OWNERS. rewrite !elem_of_cons, elem_of_nil.
  by intros [->|[->|[->|[]]]].
Qed.

Lemma nonempty_truthy (x : string) : x ≠ "" → attr_str_truthy (Val x) = true.
Proof.
  intros H. cbn. apply negb_true_iff.
  by destruct (String.eqb_spec x "").
Qed.

Lemma enforce_not_owned context owner device_id tenant_id :
  ctx_is_admin context = false →
  owner ∈ ROUTER_INTERFACE_OWNERS →
  device_id ≠ "" →
  (∃ router,
     router_tenant_id router ≠ tenant_id
     ∧ ((has_get_router env = true
         ∧ self_get_router env device_id = Ok router)
        ∨ (has_get_router env = false
           ∧ ∃ get_router,
               l3plugin_get_router env = Some get_router
               ∧ get_router device_id = Ok router)))
  ∨ (has_get_router env = false ∧ l3plugin_get_router env = None) →
  _enforce_device_owner_not_router_intf_or_device_id env context
    (Val owner) (Val device_id) tenant_id
  = Raise (DeviceIDNotOwnedByTenant device_id).
Proof.
  intros Hadmin Howner Hdev Hrouter.
  unfold _enforce_device_owner_not_router_intf_or_device_id.
  rewrite (bool_decide_eq_true_2 _ Howner), Hadmin,
    (nonempty_truthy _ Hdev).
  cbn [negb].
  assert (∀ t, t ≠ tenant_id →
            check (negb (String.eqb tenant_id t))
                  (DeviceIDNotOwnedByTenant device_id)
            = Raise (DeviceIDNotOwnedByTenant device_id)) as Hcheck.
  { intros t Ht. destruct (String.eqb_spec tenant_id t); [congruence|done]. }
  destruct Hrouter as [(router & Ht & [[-> Hr]|(-> & f & -> & Hr)])|[-> ->]];
    [| |done].
  - unfold lookup_router. rewrite Hr. cbn. by apply Hcheck.
  - unfold lookup_router. rewrite Hr. cbn. by apply Hcheck.
Qed.

End PortFacts.

(** X6.  A tenant cannot point a router-interface port at a router of another
    tenant: when a caller who is not an admin updates a port whose device
    owner, requested or stored, is a router-interface owner, and the update
    changes the device id or names the owner, a device id whose router
    belongs to another tenant than the port is rejected with
    [DeviceIDNotOwnedByTenant]; so is any device id when no L3 service is
    loaded.  The store is left as it was and the IPAM backend is not
    called. *)
Theorem update_port_router_of_other_tenant
  (env : Env) (context : Context) (id : string) (new_port : PortUpdate)
  (db : DB) (db_port : Port) (owner device_id : string) :
  ctx_is_admin context = false →
  _get_port db id = Ok db_port →
  attr_or (get (pu_device_owner new_port)) (port_device_owner db_port)
  = Val owner →
  owner ∈ ROUTER_INTERFACE_OWNERS →
  pu_device_id new_port = Val device_id →
  device_id ≠ "" →
  device_id ≠ port_device_id db_port ∨ pu_device_owner new_port ≠ Absent →
  (∃ router,
     router_tenant_id router ≠ port_tenant_id db_port
     ∧ ((has_get_router env = true
         ∧ self_get_router env device_id = Ok router)
        ∨ (has_get_router env = false
           ∧ ∃ get_router,
               l3plugin_get_router env = Some get_router
               ∧ get_router device_id = Ok router)))
  ∨ (has_get_router env = false ∧ l3plugin_get_router env = None) →
  update_port env context id new_port db
  = (Raise (DeviceIDNotOwnedByTenant device_id), db).
Proof.
  intros Hadmin Hget Howner Hin Hdev Hne Hchanged Hrouter.
  apply update_port_validation_error with db_port; [done|].
  unfold _validate_port_for_update. rewrite Howner, Hdev.
  cbn [get]. unfold attr_or at 1. rewrite (nonempty_truthy _ Hne).
  rewrite (router_owner_truthy _ Hin).
  assert (bool_decide (Val device_id ≠ Val (port_device_id db_port))
          || bool_decide (pu_device_owner new_port ≠ Absent) = true) as Hc.
  { destruct Hchanged as [H|H].
    - rewrite bool_decide_eq_true_2; [done|congruence].
    - rewrite (bool_decide_eq_true_2 _ H). apply orb_true_r. }
  cbn [andb]. rewrite Hc.
  by rewrite (enforce_not_owned env context owner device_id _ Hadmin Hin Hne
                Hrouter).
Qed.

Lemma update_port_router_of_other_tenant_witness :
  update_port l3_env tenant_1 "port-r"
    (mkPortUpdate Absent (Val "router-2") Absent) routed_db
  = (Raise (DeviceIDNotOwnedByTenant "router-2"), routed_db).
Proof.
  apply (update_port_router_of_other_tenant l3_env tenant_1 "port-r"
           (mkPortUpdate Absent (Val "router-2") Absent) routed_db
           (mkPort "port-r" "tenant-1" "net-1" "network:router_interface"
                   "router-1" "fa:16:3e:00:00:09")
           "network:router_interface" "router-2").
  - reflexivity.
  - reflexivity.
  - reflexivity.
  - apply list_elem_of_here.
  - reflexivity.
  - done.
  - left. done.
  - left. exists (mkRouter "tenant-2"). split; [done|]. right.
    split; [reflexivity|]. eexists. split; reflexivity.
Defined.

(** X7.  The MAC address of a port owned by the network itself cannot be
    changed: an update that gives a MAC address other than the stored one
    to a port whose device owner, requested or stored, starts with
    'network:' is rejected with [UnsupportedPortDeviceOwner] naming that
    owner, for an admin and, when the owner is not a router interface, for
    every caller.  The store is left as it was and the IPAM backend is not
    called. *)
Theorem update_port_mac_of_network_device
  (env : Env) (context : Context) (id : string) (new_port : PortUpdate)
  (db : DB) (db_port : Port) (owner mac : string) :
  _get_port db id = Ok db_port →
  attr_or (get (pu_device_owner new_port)) (port_device_owner db_port)
  = Val owner →
  String.prefix DEVICE_OWNER_NETWORK_PREFIX owner = true →
  ctx_is_admin context = true ∨ owner ∉ ROUTER_INTERFACE_OWNERS →
  pu_mac_address new_port = Val mac →
  mac ≠ "" →
  mac ≠ port_mac_address db_port →
  update_port env context id new_port db
  = (Raise (UnsupportedPortDeviceOwner "mac address update" owner), db).
Proof.
  intros Hget Howner Hprefix Hpass Hmac Hne Hnew.
  apply update_port_validation_error with db_port; [done|].
  unfold _validate_port_for_update. rewrite Howner, Hmac. cbn [get].
  assert (_enforce_device_owner_not_router_intf_or_device_id env context
            (Val owner)
            (attr_or (get (pu_device_id new_port)) (port_device_id db_port))
            (port_tenant_id db_port) = Ok tt) as Henforce.
  { unfold _enforce_device_owner_not_router_intf_or_device_id.
    destruct Hpass as [->|Hno].
    - by destruct (bool_decide _).
    - by rewrite (bool_decide_eq_false_2 _ Hno). }
  rewrite Henforce. destruct (_ || _); cbn [mbind result_bind].
  all: rewrite (nonempty_truthy _ Hne).
  all: rewrite bool_decide_eq_true_2 by congruence.
  all: cbn [andb _check_mac_addr_update]; rewrite Hprefix.
  all: assert (String.eqb owner "" = false) as ->
         by (destruct owner; [done|done]).
  all: done.
Qed.

Lemma update_port_mac_of_network_device_witness :
  update_port demo_env tenant_1 "port-2"
    (mkPortUpdate Absent Absent (Val "fa:16:3e:00:00:ff")) owner_only_db
  = (Raise (UnsupportedPortDeviceOwner "mac address update" "network:dhcp"),
     owner_only_db).
Proof.
  apply (update_port_mac_of_network_device demo_env tenant_1 "port-2"
           (mkPortUpdate Absent Absent (Val "fa:16:3e:00:00:ff"))
           owner_only_db
           (mkPort "port-2" "service" "net-1" "network:dhcp" "dhcp-1"
                   "fa:16:3e:00:00:02")
           "network:dhcp" "fa:16:3e:00:00:ff").
  - reflexivity.
  - reflexivity.
  - reflexivity.
  - right. unfold ROUTER_INTERFACE_OWNERS.
    rewrite !elem_of_cons, elem_of_nil. intros [H|[H|[H|[]]]]; discriminate.
  - reflexivity.
  - done.
  - done.
Defined.

(** ** The pool of a subnet request *)

Section PoolOfRequest.
Context (env : Env).

Lemma get_default_subnetpool_Some db v p :
  get_default_subnetpool db v = Some p →
  p ∈ db_subnetpools db ∧ sp_is_default p = true ∧ sp_ip_version p = v.
Proof.
  unfold get_default_subnetpool. intros H%head_Some_elem_of.
  apply list_elem_of_filter in H as [[? ?] ?]. done.
Qed.

(** The pool the request names, if it names one. *)
Lemma named_pool_cases (x : attr string) :
  (∃ i, x = Val i ∧ i ≠ ""
        ∧ match x with
          | Val i => if String.eqb i "" then None else Some i
          | _ => None
          end = Some i)
  ∨ ((∀ i, x = Val i → i = "")
     ∧ match x with
       | Val i => if String.eqb i "" then None else Some i
       | _ => None
       end = None).
Proof.
  destruct x as [| | |i]; try (right; split; [intros; done|done]).
  destruct (String.eqb_spec i "") as [->|Hi].
  - right. split; [|done]. by intros ? [= <-].
  - left. by exists i.
Qed.

Lemma use_default_cases (x : attr bool) :
  (x = Val true
   ∧ match x with
     | Absent => attr_bool_truthy Absent
     | PyNone => attr_bool_truthy PyNone
     | NotSpecified => false
     | Val b => attr_bool_truthy (Val b)
     end = true)
  ∨ (x ≠ Val true
     ∧ match x with
       | Absent => attr_bool_truthy Absent
       | PyNone => attr_bool_truthy PyNone
       | NotSpecified => false
       | Val b => attr_bool_truthy (Val b)
       end = false).
Proof. destruct x as [| | |[]]; cbn; auto. Qed.

(** The IP version a request that asks for the default pool is of. *)
Lemma request_version_cases subnet :
  (∃ v, ((∃ c, s_cidr subnet = Val c ∧ v = n_version c)
         ∨ (is_attr_set (s_cidr subnet) = false
            ∧ s_ip_version subnet = Val v))
        ∧ match s_cidr subnet with
          | Val c => Ok (n_version c)
          | _ =>
              match s_ip_version subnet with
              | Val v => Ok v
              | _ => Raise (BadRequest "subnets"
                              "ip_version must be specified in the absence of cidr and subnetpool_id")
              end
          end = Ok v)
  ∨ match s_cidr subnet with
    | Val c => Ok (n_version c)
    | _ =>
        match s_ip_version subnet with
        | Val v => Ok v
        | _ => Raise (BadRequest "subnets"
                        "ip_version must be specified in the absence of cidr and subnetpool_id")
        end
    end = Raise (BadRequest "subnets"
                   "ip_version must be specified in the absence of cidr and subnetpool_id").
Proof.
  destruct (s_cidr subnet) as [| | |c] eqn:Ec.
  4: { left. exists (n_version c). split; [|done]. left. by exists c. }
  all: destruct (s_ip_version subnet) as [| | |v] eqn:Ev; auto.
  all: left; exists v; split; [|done]; right; done.
Qed.

End PoolOfRequest.

(** X8.  The pool [_get_subnetpool_id] chooses for a request.  A pool id is
    returned only when it is the id the request names, without asking for
    the default pool, or when the request asks for the default pool and
    names none: then it is the prefix-delegation pool, for IP version 6
    with prefix delegation enabled, and the id of a stored default pool of
    the request's IP version otherwise, the version being that of the cidr
    when a cidr is given and [ip_version] when not.  No pool is returned
    exactly when the request names none and does not ask for the default.
    Every error is a [BadRequest] on subnets. *)
Theorem subnetpool_id_of_request (env : Env) (db : DB) (subnet : SubnetSpec) :
  (∀ id,
     _get_subnetpool_id env db subnet = Ok (Some id) →
     (s_subnetpool_id subnet = Val id ∧ id ≠ ""
      ∧ s_use_default_subnetpool subnet ≠ Val true)
     ∨ (s_use_default_subnetpool subnet = Val true
        ∧ ∃ v,
            ((∃ c, s_cidr subnet = Val c ∧ v = n_version c)
             ∨ (is_attr_set (s_cidr subnet) = false
                ∧ s_ip_version subnet = Val v))
            ∧ ((v = 6 ∧ ipv6_pd_enabled env = true ∧ id = IPV6_PD_POOL_ID)
               ∨ (∃ p, p ∈ db_subnetpools db ∧ sp_is_default p = true
                       ∧ sp_ip_version p = v ∧ sp_id p = id))))
  ∧ (_get_subnetpool_id env db subnet = Ok None
     ↔ (∀ id, s_subnetpool_id subnet = Val id → id = "")
       ∧ s_use_default_subnetpool subnet ≠ Val true)
  ∧ (∀ e, _get_subnetpool_id env db subnet = Raise e →
          ∃ msg, e = BadRequest "subnets" msg).
Proof.
  unfold _get_subnetpool_id.
  destruct (named_pool_cases (s_subnetpool_id subnet))
    as [(i & Hi & Hne & ->)|[Hnone ->]];
    destruct (use_default_cases (s_use_default_subnetpool subnet))
      as [[Hu ->]|[Hu ->]]; cbn [negb].
  - (* a pool is named and the default asked for *)
    split; [done|]. split; [|intros e [= <-]; eauto].
    split; [done|]. by intros [_ H].
  - (* a pool is named *)
    split; [|split; [|done]].
    + intros id [= <-]. by left.
    + split; [done|]. intros [H _]. destruct Hne. by apply H.
  - (* the default pool is asked for *)
    destruct (request_version_cases subnet) as [(v & Hv & ->) | ->];
      cbn [mbind result_bind].
    2: { split; [done|]. split; [|intros e [= <-]; eauto].
         split; [done|]. by intros [_ H]. }
    assert ((∀ id,
               match get_default_subnetpool db v with
               | Some subnetpool => Ok (Some (sp_id subnetpool))
               | None => Raise (BadRequest "subnets"
                                  "No default subnetpool found for IPv%s")
               end = Ok (Some id) →
               ∃ p, p ∈ db_subnetpools db ∧ sp_is_default p = true
                    ∧ sp_ip_version p = v ∧ sp_id p = id)
            ∧ match get_default_subnetpool db v with
              | Some subnetpool => Ok (Some (sp_id subnetpool))
              | None => Raise (BadRequest "subnets"
                                 "No default subnetpool found for IPv%s")
              end ≠ Ok None
            ∧ ∀ e,
                match get_default_subnetpool db v with
                | Some subnetpool => Ok (Some (sp_id subnetpool))
                | None => Raise (BadRequest "subnets"
                                   "No default subnetpool found for IPv%s")
                end = Raise e → ∃ msg, e = BadRequest "subnets" msg)
      as (Hsome & Hnone' & Herr).
    { destruct (get_default_subnetpool db v) as [p|] eqn:Ep.
      - apply get_default_subnetpool_Some in Ep as (Hin & Hdef & Hver).
        split; [|done]. intros id [= <-]. by exists p.
      - split; [done|]. split; [done|]. intros e [= <-]. eauto. }
    destruct ((v =? 6) && ipv6_pd_enabled env) eqn:Epd.
    + apply andb_true_iff in Epd as [E6%Z.eqb_eq Epd].
      split; [|split; [|done]].
      * intros id [= <-]. right. split; [done|]. exists v.
        split; [done|]. by left.
      * split; [done|]. by intros [_ H].
    + split; [|split; [|done]].
      * intros id Hid. right. split; [done|]. exists v.
        split; [done|]. right. by apply Hsome.
      * split; [done|]. by intros [_ H].
  - (* neither *)
    split; [done|]. split; [|done]. done.
Qed.

Lemma subnetpool_id_of_request_witness :
  ∃ p, p ∈ db_subnetpools default_db ∧ sp_is_default p = true
       ∧ sp_ip_version p = 4 ∧ sp_id p = "pool-d".
Proof.
  destruct (subnetpool_id_of_request demo_env default_db
              (spec_from_default 4)) as [H _].
  destruct (H "pool-d" eq_refl) as [(? & _)|(_ & v & Hv & Hp)]; [done|].
  destruct Hv as [(? & ? & _)|[_ [= <-]]]; [done|].
  destruct Hp as [(? & _)|Hp]; [done|exact Hp].
Defined.

(** ** Creating a subnet: what reaches the allocation *)

Section CreateSubnetFacts.
Context (env : Env).

(** The request with its cidr, if it gives one, turned into a proper
    block. *)
Lemma create_subnet_unfold context subnet db :
  is_attr_set (s_cidr subnet) && is_attr_set (s_prefixlen subnet) = false →
  ∀ s,
    s = match s_cidr subnet with
        | Val net => set_cidr subnet (Val (cidr net))
        | _ => subnet
        end →
    create_subnet env context subnet db
    = match _get_subnetpool_id env db s with
      | Raise e => (Raise e, db)
      | Ok None =>
          if is_attr_set (s_cidr subnet)
          then match _validate_subnet env db s None with
               | Ok _ => _create_subnet env context s None db
               | Raise e => (Raise e, db)
               end
          else (Raise (BadRequest "subnets"
                         "a subnetpool must be specified in the absence of a cidr"),
                db)
      | Ok (Some pool_id) =>
          match ipam_validate_pools_with_subnetpool env s with
          | Raise e => (Raise e, db)
          | Ok _ =>
              if String.eqb pool_id IPV6_PD_POOL_ID
              then
                if is_attr_set (s_cidr subnet)
                then match _validate_subnet env db s None with
                     | Ok _ => _create_subnet env context s None db
                     | Raise e => (Raise e, db)
                     end
                else
                  match _validate_subnet_for_pd
                          (set_cidr s (Val PROVISIONAL_IPV6_PD_PREFIX)) with
                  | Ok _ =>
                      _create_subnet env context
                        (set_cidr s (Val PROVISIONAL_IPV6_PD_PREFIX))
                        (Some pool_id) db
                  | Raise e => (Raise e, db)
                  end
              else _create_subnet env context s (Some pool_id) db
          end
      end.
Proof.
  intros Hboth s ->. unfold create_subnet.
  assert (∀ A (x : attr A),
            is_attr_set (get_or_not_specified x) = is_attr_set x) as Hset
    by by intros A [].
  rewrite !Hset, Hboth.
  unfold mbind, M_bind, lift, get_db, raise, mret, M_ret.
  destruct (_get_subnetpool_id env db _) as [[pool_id|]|e]; [| |done].
  - destruct (ipam_validate_pools_with_subnetpool env _) as [[]|e]; [|done].
    destruct (String.eqb pool_id IPV6_PD_POOL_ID); [|done].
    destruct (is_attr_set (s_cidr subnet)).
    + by destruct (_validate_subnet env db _ None) as [[]|e].
    + by destruct (_validate_subnet_for_pd _) as [[]|e].
  - destruct (is_attr_set (s_cidr subnet)); cbn [negb]; [|done].
    by destruct (_validate_subnet env db _ None) as [[]|e].
Qed.

Lemma _validate_subnet_for_pd_Ok subnet :
  _validate_subnet_for_pd subnet = Ok tt
  ↔ s_ip_version subnet = Val 6
    ∧ mode_in_auto_modes (s_ipv6_ra_mode subnet) = true
    ∧ mode_in_auto_modes (s_ipv6_address_mode subnet) = true.
Proof.
  unfold _validate_subnet_for_pd, IP_VERSION_6.
  rewrite <- attr_is_Val.
  destruct (attr_is (s_ip_version subnet) 6),
    (mode_in_auto_modes (s_ipv6_ra_mode subnet)),
    (mode_in_auto_modes (s_ipv6_address_mode subnet)); cbn;
    split; intros; try done; by intuition.
Qed.

Lemma _validate_subnet_for_pd_raises subnet e :
  _validate_subnet_for_pd subnet = Raise e →
  ∃ msg, e = BadRequest "subnets" msg.
Proof.
  unfold _validate_subnet_for_pd.
  destruct (attr_is (s_ip_version subnet) IP_VERSION_6),
    (mode_in_auto_modes (s_ipv6_ra_mode subnet)),
    (mode_in_auto_modes (s_ipv6_address_mode subnet)); cbn;
    intros; simplify_eq; eauto.
Qed.

End CreateSubnetFacts.

(** X9.  [create_subnet] writes nothing before it hands the request to
    [_create_subnet]: a failure that comes earlier leaves the store as it
    was.  The request that is handed over has its cidr, when the caller
    gave one, turned into a proper block (host bits cleared); when no pool
    is passed along, the caller gave a cidr and the request has passed
    [_validate_subnet]; without a cidr a pool is always passed along, and
    if it is the prefix-delegation pool the cidr is the provisional
    prefix and the request has passed [_validate_subnet_for_pd]. *)
Theorem create_subnet_reaches_allocation
  (env : Env) (context : Context) (subnet : SubnetSpec) (db db' : DB)
  (r : result exn Subnet) :
  create_subnet env context subnet db = (r, db') →
  (∃ e, r = Raise e ∧ db' = db)
  ∨ ∃ s pool,
      _create_subnet env context s pool db = (r, db')
      ∧ (∀ c, s_cidr subnet = Val c → s = set_cidr subnet (Val (cidr c)))
      ∧ (pool = None →
         is_attr_set (s_cidr subnet) = true
         ∧ _validate_subnet env db s None = Ok tt)
      ∧ (is_attr_set (s_cidr subnet) = false →
         ∃ id, pool = Some id
               ∧ (id = IPV6_PD_POOL_ID →
                  s = set_cidr subnet (Val PROVISIONAL_IPV6_PD_PREFIX)
                  ∧ _validate_subnet_for_pd s = Ok tt)
               ∧ (id ≠ IPV6_PD_POOL_ID → s = subnet)).
Proof.
  destruct (is_attr_set (s_cidr subnet) && is_attr_set (s_prefixlen subnet))
    eqn:Hboth.
  { unfold create_subnet.
    assert (∀ A (x : attr A),
              is_attr_set (get_or_not_specified x) = is_attr_set x) as Hset
      by by intros A [].
    rewrite !Hset, Hboth. intros [= <- <-]. left. eauto. }
  rewrite (create_subnet_unfold env context subnet db Hboth _ eq_refl).
  set (s := match s_cidr subnet with
            | Val net => set_cidr subnet (Val (cidr net))
            | _ => subnet
            end).
  assert (∀ c, s_cidr subnet = Val c → s = set_cidr subnet (Val (cidr c)))
    as Hs by (intros c Hc; subst s; by rewrite Hc).
  assert (is_attr_set (s_cidr subnet) = false → s = subnet) as Hs'
    by (intros Hc; subst s; by destruct (s_cidr subnet)).
  destruct (_get_subnetpool_id env db s) as [[pool_id|]|e];
    [| |intros [= <- <-]; left; eauto].
  - destruct (ipam_validate_pools_with_subnetpool env s) as [[]|e];
      [|intros [= <- <-]; left; eauto].
    destruct (String.eqb_spec pool_id IPV6_PD_POOL_ID) as [->|Hpd].
    + destruct (is_attr_set (s_cidr subnet)) eqn:Hc.
      * destruct (_validate_subnet env db s None) as [[]|e] eqn:Hv;
          [|intros [= <- <-]; left; eauto].
        intros H. right. exists s, None. by repeat split.
      * destruct (_validate_subnet_for_pd _) as [[]|e] eqn:Hv;
          [|intros [= <- <-]; left; eauto].
        intros H. right. rewrite (Hs' eq_refl) in H, Hv.
        exists (set_cidr subnet (Val PROVISIONAL_IPV6_PD_PREFIX)),
          (Some IPV6_PD_POOL_ID).
        split; [done|]. split; [by intros c Ec; rewrite Ec in Hc|].
        split; [done|]. intros _. exists IPV6_PD_POOL_ID. by repeat split.
    + intros H. right. exists s, (Some pool_id). split; [done|].
      split; [done|]. split; [done|]. intros Hc. exists pool_id.
      split; [done|]. split; [done|]. intros _. by apply Hs'.
  - destruct (is_attr_set (s_cidr subnet)) eqn:Hc;
      [|intros [= <- <-]; left; eauto].
    destruct (_validate_subnet env db s None) as [[]|e] eqn:Hv;
      [|intros [= <- <-]; left; eauto].
    intros H. right. exists s, None. by repeat split.
Qed.

Lemma create_subnet_reaches_allocation_witness :
  (∃ e, (Raise (OtherError "NetworkNotFound") : result exn Subnet) = Raise e
        ∧ empty_db = empty_db)
  ∨ ∃ s pool,
      _create_subnet demo_env admin s pool empty_db
      = (Raise (OtherError "NetworkNotFound") : result exn Subnet, empty_db)
      ∧ (∀ c, s_cidr (spec_v4 (net4 10 0 0 77 24) true) = Val c →
              s = set_cidr (spec_v4 (net4 10 0 0 77 24) true) (Val (cidr c)))
      ∧ (pool = None →
         is_attr_set (s_cidr (spec_v4 (net4 10 0 0 77 24) true)) = true
         ∧ _validate_subnet demo_env empty_db s None = Ok tt)
      ∧ (is_attr_set (s_cidr (spec_v4 (net4 10 0 0 77 24) true)) = false →
         ∃ id, pool = Some id
               ∧ (id = IPV6_PD_POOL_ID →
                  s = set_cidr (spec_v4 (net4 10 0 0 77 24) true)
                        (Val PROVISIONAL_IPV6_PD_PREFIX)
                  ∧ _validate_subnet_for_pd s = Ok tt)
               ∧ (id ≠ IPV6_PD_POOL_ID →
                  s = spec_v4 (net4 10 0 0 77 24) true)).
Proof.
  assert (create_subnet demo_env admin (spec_v4 (net4 10 0 0 77 24) true)
            empty_db
          = (Raise (OtherError "NetworkNotFound"), empty_db)) as E.
  { vm_compute. reflexivity. }
  exact (create_subnet_reaches_allocation _ _ _ _ _ _ E).
Defined.

(** X10.  A request that comes with a pool is checked by the IPAM backend and,
    unless the pool is the prefix-delegation pool, handed to
    [_create_subnet] with that pool without passing [_validate_subnet].
    With the prefix-delegation pool and no cidr, the request is handed
    over, with the provisional prefix as its cidr, exactly when it is of
    IP version 6 and both its RA mode and its address mode are SLAAC or
    DHCPv6-stateless (they need not be equal), and is rejected with
    [BadRequest] otherwise; with the prefix-delegation pool and a cidr, the
    pool is dropped and the request is validated like one without pool. *)
Theorem create_subnet_from_pool
  (env : Env) (context : Context) (subnet s : SubnetSpec) (db : DB)
  (pool_id : string) :
  is_attr_set (s_cidr subnet) && is_attr_set (s_prefixlen subnet) = false →
  s = match s_cidr subnet with
      | Val net => set_cidr subnet (Val (cidr net))
      | _ => subnet
      end →
  _get_subnetpool_id env db s = Ok (Some pool_id) →
  ipam_validate_pools_with_subnetpool env s = Ok tt →
  (pool_id ≠ IPV6_PD_POOL_ID →
   create_subnet env context subnet db
   = _create_subnet env context s (Some pool_id) db)
  ∧ (pool_id = IPV6_PD_POOL_ID → is_attr_set (s_cidr subnet) = false →
     (s_ip_version subnet = Val 6
      ∧ mode_in_auto_modes (s_ipv6_ra_mode subnet) = true
      ∧ mode_in_auto_modes (s_ipv6_address_mode subnet) = true →
      create_subnet env context subnet db
      = _create_subnet env context
          (set_cidr subnet (Val PROVISIONAL_IPV6_PD_PREFIX))
          (Some IPV6_PD_POOL_ID) db)
     ∧ (¬ (s_ip_version subnet = Val 6
           ∧ mode_in_auto_modes (s_ipv6_ra_mode subnet) = true
           ∧ mode_in_auto_modes (s_ipv6_address_mode subnet) = true) →
        ∃ msg, create_subnet env context subnet db
               = (Raise (BadRequest "subnets" msg), db)))
  ∧ (pool_id = IPV6_PD_POOL_ID → is_attr_set (s_cidr subnet) = true →
     create_subnet env context subnet db
     = match _validate_subnet env db s None with
       | Ok _ => _create_subnet env context s None db
       | Raise e => (Raise e, db)
       end).
Proof.
  intros Hboth Hs Hpool Hipam.
  rewrite (create_subnet_unfold env context subnet db Hboth s Hs), Hpool,
    Hipam.
  split; [|split].
  - intros Hpd. by destruct (String.eqb_spec pool_id IPV6_PD_POOL_ID).
  - intros -> Hc. rewrite String.eqb_refl, Hc.
    assert (s = subnet) as -> by (subst s; by destruct (s_cidr subnet)).
    pose proof (_validate_subnet_for_pd_Ok
                  (set_cidr subnet (Val PROVISIONAL_IPV6_PD_PREFIX))) as Hpd.
    cbn [set_cidr s_ip_version s_ipv6_ra_mode s_ipv6_address_mode] in Hpd.
    split.
    + intros H. apply Hpd in H. by rewrite H.
    + intros H.
      destruct (_validate_subnet_for_pd _) as [[]|e] eqn:E.
      * destruct H. by apply Hpd.
      * apply _validate_subnet_for_pd_raises in E as [msg ->]. eauto.
  - intros -> Hc. by rewrite String.eqb_refl, Hc.
Qed.

Lemma create_subnet_from_pool_witness :
  create_subnet demo_env admin spec_v4_from_pool scoped_db
  = _create_subnet demo_env admin
      (set_cidr spec_v4_from_pool (Val (net4 10 0 0 0 24)))
      (Some "pool-a") scoped_db
  ∧ ∃ msg, create_subnet demo_env admin
             (spec_pd (Val IPV6_SLAAC) NotSpecified) empty_db
           = (Raise (BadRequest "subnets" msg), empty_db).
Proof.
  split.
  - destruct (create_subnet_from_pool demo_env admin spec_v4_from_pool
                (set_cidr spec_v4_from_pool (Val (net4 10 0 0 0 24)))
                scoped_db "pool-a" eq_refl eq_refl eq_refl eq_refl)
      as [H _].
    apply H. done.
  - destruct (create_subnet_from_pool demo_env admin
                (spec_pd (Val IPV6_SLAAC) NotSpecified)
                (spec_pd (Val IPV6_SLAAC) NotSpecified)
                empty_db IPV6_PD_POOL_ID eq_refl eq_refl eq_refl eq_refl)
      as (_ & H & _).
    destruct (H eq_refl eq_refl) as [_ Hbad]. apply Hbad.
    intros (_ & _ & Hmode). done.
Defined.

(** ** Subnetpools: failed updates, foreign scopes, notifications *)

Section PoolOutcome.
Context (env : Env).

Lemma update_subnetpool_steps context id new_sp db :
  ∀ res db',
    update_subnetpool env context id new_sp db = (res, db') →
    (∃ e, res = Raise e ∧ db' = db
          ∧ (_get_subnetpool db id = Raise e
             ∨ ∃ orig,
                 _get_subnetpool db id = Ok orig
                 ∧ (_update_subnetpool_dict orig new_sp = Raise e
                    ∨ ∃ updated,
                        _update_subnetpool_dict orig new_sp = Ok updated
                        ∧ (SubnetPoolReader env updated = Raise e
                           ∨ ∃ r,
                               SubnetPoolReader env updated = Ok r
                               ∧ (default_check_on_update db orig r = Raise e
                                  ∨ (default_check_on_update db orig r = Ok tt
                                     ∧ (update_allowed_check env context id
                                          orig = Raise e
                                        ∨ (update_allowed_check env context id
                                             orig = Ok tt
                                           ∧ _validate_address_scope_id env
                                               context db
                                               (rd_address_scope_id r)
                                               (PoolId id) (rd_prefixes r)
                                               (rd_ip_version r)
                                             = Raise e))))))))
    ∨ (∃ d orig updated r,
         res = Ok d
         ∧ _get_subnetpool db id = Ok orig
         ∧ _update_subnetpool_dict orig new_sp = Ok updated
         ∧ SubnetPoolReader env updated = Ok r
         ∧ update_allowed_check env context id orig = Ok tt
         ∧ db' = (if bool_decide (sp_address_scope_id orig
                                  ≠ rd_address_scope_id r)
                  then with_event
                         (with_pools db
                            (updated_pools id r (db_subnetpools db)))
                         (mkEvent "subnetpool_address_scope" "after_update"
                                  id)
                  else with_pools db
                         (updated_pools id r (db_subnetpools db)))).
Proof.
  intros res db'.
  unfold update_subnetpool, transaction, mbind, M_bind, lift, get_db, mret,
    M_ret, SubnetPool_update.
  intros H.
  destruct (_get_subnetpool db id) as [orig|e] eqn:E1;
    [|injection H as <- <-; left; eauto 10].
  destruct (_update_subnetpool_dict orig new_sp) as [updated|e] eqn:E2;
    [|injection H as <- <-; left; eauto 10].
  destruct (SubnetPoolReader env updated) as [r|e] eqn:E3;
    [|injection H as <- <-; left; eauto 12].
  destruct (default_check_on_update db orig r) as [[]|e] eqn:E4;
    [|injection H as <- <-; left; eauto 14].
  destruct (update_allowed_check env context id orig) as [[]|e] eqn:E5;
    [|injection H as <- <-; left; eexists; split; [done|]; split; [done|];
      right; eexists; split; [done|]; right; eexists; split; [done|];
      right; eexists; split; [done|]; right; split; [done|]; by left].
  destruct (_validate_address_scope_id _ _ _ _ _ _ _) as [[]|e] eqn:E6;
    [|injection H as <- <-; left; eexists; split; [done|]; split; [done|];
      right; eexists; split; [done|]; right; eexists; split; [done|];
      right; eexists; split; [done|]; right; split; [done|]; right;
      by split].
  rewrite (stringify_updated _ _ _ E2) in H.
  destruct (bool_decide (sp_address_scope_id orig ≠ rd_address_scope_id r))
    eqn:Eb; injection H as <- <-; right;
    eexists _, orig, updated, r; rewrite Eb; by repeat split.
Qed.

Lemma update_allowed_check_foreign context id orig scope :
  sp_address_scope_id orig = Val scope → scope ≠ "" →
  is_address_scope_owned_by_tenant env context scope = Ok false →
  update_allowed_check env context id orig
  = Raise (IllegalSubnetPoolUpdate update_not_allowed_msg).
Proof.
  intros Hs Hne Howned. unfold update_allowed_check.
  rewrite Hs, (nonempty_truthy _ Hne).
  unfold _check_subnetpool_update_allowed. by rewrite Howned.
Qed.

End PoolOutcome.

(** X11.  [update_subnetpool] changes the store only when it succeeds: whatever
    step fails, the store is left as it was.  The steps that follow the
    commit (the notification and the loop over the prefix lengths) never
    fail. *)
Theorem update_subnetpool_failure_writes_nothing
  (env : Env) (context : Context) (id : string) (new_sp : dict)
  (db db' : DB) (e : exn) :
  update_subnetpool env context id new_sp db = (Raise e, db') → db' = db.
Proof.
  intros H.
  apply update_subnetpool_steps in H
    as [(e' & _ & -> & _)|(d & ? & ? & ? & ? & _)]; done.
Qed.

Lemma update_subnetpool_failure_writes_nothing_witness :
  update_subnetpool demo_env admin "pool-a"
    (prefixes_request [net4 10 0 0 0 23]) scoped_db
  = (Raise AddressScopePrefixConflict, scoped_db)
  ∧ scoped_db = scoped_db.
Proof.
  assert (update_subnetpool demo_env admin "pool-a"
            (prefixes_request [net4 10 0 0 0 23]) scoped_db
          = (Raise AddressScopePrefixConflict, scoped_db)) as E.
  { vm_compute. reflexivity. }
  split; [exact E|].
  exact (update_subnetpool_failure_writes_nothing _ _ _ _ _ _ _ E).
Defined.

(** X12.  A successful [update_subnetpool] hands one notification to the callback
    registry, [subnetpool_address_scope]/[after_update] for the pool,
    exactly when the address scope read from the updated attributes
    differs from the one the pool had; otherwise the notifications are
    left as they were. *)
Theorem update_subnetpool_notifies_scope_change
  (env : Env) (context : Context) (id : string) (new_sp : dict)
  (db db' : DB) (d : dict) :
  update_subnetpool env context id new_sp db = (Ok d, db') →
  ∃ orig updated r,
    _get_subnetpool db id = Ok orig
    ∧ _update_subnetpool_dict orig new_sp = Ok updated
    ∧ SubnetPoolReader env updated = Ok r
    ∧ (sp_address_scope_id orig ≠ rd_address_scope_id r →
       db_events db'
       = db_events db
         ++ [mkEvent "subnetpool_address_scope" "after_update" id])
    ∧ (sp_address_scope_id orig = rd_address_scope_id r →
       db_events db' = db_events db).
Proof.
  intros H.
  apply update_subnetpool_steps in H
    as [(e' & ? & _)|(d' & orig & updated & r & _ & E1 & E2 & E3 & _ & ->)];
    [done|].
  exists orig, updated, r. split; [done|]. split; [done|]. split; [done|].
  split.
  - intros Hne. by rewrite (bool_decide_eq_true_2 _ Hne).
  - intros Heq. rewrite bool_decide_eq_false_2; [done|]. by intros Hne.
Qed.

Lemma update_subnetpool_notifies_scope_change_witness :
  ∃ db', db_events db'
         = [mkEvent "subnetpool_address_scope" "after_update" "pool-a"].
Proof.
  assert (∃ d db',
            update_subnetpool demo_env admin "pool-a"
              {[ "address_scope_id" := VStr "scope-2" ]} scoped_db
            = (Ok d, db')) as (d & db' & E).
  { eexists _, _. vm_compute. reflexivity. }
  exists db'.
  destruct (update_subnetpool_notifies_scope_change _ _ _ _ _ _ _ E)
    as (orig & updated & r & E1 & E2 & E3 & Hchanged & _).
  vm_compute in E1. injection E1 as <-.
  vm_compute in E2. injection E2 as <-.
  vm_compute in E3. injection E3 as <-.
  apply Hchanged. done.
Defined.

(** X13.  A pool that is bound to an address scope the caller does not own
    cannot be updated: whatever the request, [update_subnetpool] fails and
    the store is left as it was; when the steps that come first pass, the
    error is [IllegalSubnetPoolUpdate]. *)
Theorem update_subnetpool_foreign_scope
  (env : Env) (context : Context) (id : string) (db : DB)
  (orig : SubnetPool) (scope : string) :
  _get_subnetpool db id = Ok orig →
  sp_address_scope_id orig = Val scope → scope ≠ "" →
  is_address_scope_owned_by_tenant env context scope = Ok false →
  ∀ new_sp,
    (∃ e, update_subnetpool env context id new_sp db = (Raise e, db))
    ∧ ∀ updated r,
        _update_subnetpool_dict orig new_sp = Ok updated →
        SubnetPoolReader env updated = Ok r →
        default_check_on_update db orig r = Ok tt →
        update_subnetpool env context id new_sp db
        = (Raise (IllegalSubnetPoolUpdate update_not_allowed_msg), db).
Proof.
  intros Hget Hs Hne Howned new_sp.
  pose proof (update_allowed_check_foreign env context id orig scope Hs Hne
                Howned) as Hcheck.
  split.
  - destruct (update_subnetpool env context id new_sp db) as [res db'] eqn:E.
    apply update_subnetpool_steps in E
      as [(e & -> & -> & _)|(d & o & u & r & _ & E1 & _ & _ & E5 & _)];
      [eauto|].
    rewrite Hget in E1. injection E1 as <-. by rewrite Hcheck in E5.
  - intros updated r E2 E3 E4.
    unfold update_subnetpool, transaction, mbind, M_bind, lift, get_db.
    by rewrite Hget, E2, E3, E4, Hcheck.
Qed.

Lemma update_subnetpool_foreign_scope_witness :
  ∃ e, update_subnetpool foreign_scope_env tenant_1 "pool-a"
         (prefixes_request [net4 10 0 0 0 23]) scoped_db
       = (Raise e, scoped_db).
Proof.
  destruct (update_subnetpool_foreign_scope foreign_scope_env tenant_1
              "pool-a" scoped_db pool_a "scope-1" eq_refl eq_refl)
    with (new_sp := prefixes_request [net4 10 0 0 0 23]) as [H _];
    done.
Defined.

(** ** Networks: granting and revoking shared access *)

Section NetworkFacts.
Context (env : Env).

(** [update_network] when the request keeps sharing as it is or turns it
    on. *)
Lemma update_network_kept context db id network n :
  _get_network db id = Ok network →
  nu_shared n = Some true ∨ nu_shared n = None
  ∨ wildcard_entry network = None →
  ∃ shared entries,
    entries
    = (if bool_decide (nu_shared n = Some true
                       ∧ wildcard_entry network = None)
       then net_rbac_entries network
            ++ [mkRbac (generate_uuid env) "access_as_shared" "*"
                       (net_tenant_id network)]
       else net_rbac_entries network)
    ∧ update_network env context id n db
      = (Ok (with_network network shared
               (default (net_name network) (nu_name n)) entries),
         (store_network
            (with_network network shared
               (default (net_name network) (nu_name n)) entries) db).2).
Proof.
  intros Hget Hkeep.
  unfold update_network, transaction, mbind, M_bind, lift, get_db, mret, M_ret.
  rewrite Hget.
  destruct (nu_shared n) as [[]|] eqn:En.
  - (* sharing is asked for *)
    unfold _validate_shared_update. rewrite orb_true_r.
    cbn [with_network net_id net_tenant_id net_name net_shared
           net_rbac_entries apply_shared _make_network_dict].
    destruct (wildcard_entry network) as [entry|] eqn:Ee.
    + eexists _, (net_rbac_entries network). split; [|reflexivity].
      rewrite bool_decide_eq_false_2; [done|]. by intros [? ?].
    + eexists _, (net_rbac_entries network ++ [_]). split; [|reflexivity].
      by rewrite (bool_decide_eq_true_2 (_ ∧ _)).
  - (* sharing is turned off on a network that is not shared *)
    destruct Hkeep as [?|[?|Hnone]]; try done.
    rewrite Hnone. unfold _validate_shared_update.
    cbn [with_network net_id net_tenant_id net_name net_shared
           net_rbac_entries apply_shared].
    assert (bool_decide (is_Some (None : option RbacEntry)) = false) as ->.
    { apply bool_decide_eq_false_2. by intros [? ?]. }
    cbn. eexists _, (net_rbac_entries network). split; [|reflexivity].
    rewrite bool_decide_eq_false_2; [done|]. by intros [? ?].
  - cbn [_make_network_dict with_network net_id net_tenant_id net_name
           net_shared net_rbac_entries].
    eexists _, (net_rbac_entries network). split; [|reflexivity].
    rewrite bool_decide_eq_false_2; [done|]. by intros [? ?].
Qed.

Lemma wildcard_entry_app_new network e :
  rbac_action e = "access_as_shared" → rbac_target_tenant e = "*" →
  wildcard_entry network = None →
  head (filter (λ item, rbac_action item = "access_as_shared"
                        ∧ rbac_target_tenant item = "*")
               (net_rbac_entries network ++ [e])) = Some e.
Proof.
  unfold wildcard_entry. intros Ha Ht.
  induction (net_rbac_entries network) as [|x l IH].
  - intros _. cbn. by rewrite decide_True.
  - rewrite filter_cons. cbn [app]. rewrite filter_cons.
    destruct (decide _); [done|]. apply IH.
Qed.

End NetworkFacts.

(** X14.  A network update is rejected for the sake of its tenants only when it
    turns sharing off on a shared network.  An update that asks for
    sharing, that does not mention it, or that turns it off on a network
    that has no wildcard grant succeeds whatever ports and subnets are on
    the network; it adds one wildcard grant, owned by the network's
    tenant, when sharing is asked for and the network has none, and leaves
    the grants as they are otherwise; the updated network is what a later
    lookup by id returns. *)
Theorem update_network_keeps_or_grants
  (env : Env) (context : Context) (db : DB) (id : string)
  (network : Network) (n : NetworkUpdate) :
  _get_network db id = Ok network →
  nu_shared n = Some true ∨ nu_shared n = None
  ∨ wildcard_entry network = None →
  ∃ network' db',
    update_network env context id n db = (Ok network', db')
    ∧ _get_network db' id = Ok network'
    ∧ net_name network' = default (net_name network) (nu_name n)
    ∧ (nu_shared n = Some true → wildcard_entry network = None →
       net_rbac_entries network'
       = net_rbac_entries network
         ++ [mkRbac (generate_uuid env) "access_as_shared" "*"
                    (net_tenant_id network)]
       ∧ wildcard_entry network'
         = Some (mkRbac (generate_uuid env) "access_as_shared" "*"
                        (net_tenant_id network)))
    ∧ (nu_shared n ≠ Some true ∨ wildcard_entry network ≠ None →
       net_rbac_entries network' = net_rbac_entries network).
Proof.
  intros Hget Hkeep.
  destruct (update_network_kept env context db id network n Hget Hkeep)
    as (shared & entries & Hentries & Hupdate).
  eexists _, _. split; [exact Hupdate|].
  destruct (_get_network_Ok db id network Hget) as [Hid _].
  split; [by apply (_get_network_store_network db id network _ Hget)|].
  split; [done|]. cbn [with_network net_rbac_entries]. split.
  - intros Hs Hnone. rewrite bool_decide_eq_true_2 in Hentries by done.
    split; [done|]. rewrite Hentries. unfold wildcard_entry at 1.
    cbn [net_rbac_entries]. by apply wildcard_entry_app_new.
  - intros Hno. rewrite bool_decide_eq_false_2 in Hentries; [done|].
    intros [? ?]. by destruct Hno.
Qed.

Lemma update_network_keeps_or_grants_witness :
  ∃ network' db',
    update_network demo_env tenant_1 "net-2" grant_shared private_db
    = (Ok network', db')
    ∧ wildcard_entry network'
      = Some (mkRbac "uuid-1" "access_as_shared" "*" "tenant-1").
Proof.
  destruct (update_network_keeps_or_grants demo_env tenant_1 private_db
              "net-2" private_net grant_shared eq_refl)
    as (network' & db' & Hupdate & _ & _ & Hgrant & _).
  { by left. }
  exists network', db'. split; [exact Hupdate|].
  by destruct (Hgrant eq_refl eq_refl).
Defined.

(** X15.  Sharing a network and revoking the sharing again restores its grants:
    when a network without a wildcard grant is shared by one update and
    the sharing is turned off by a second one that succeeds, the network
    has the grants it had before, provided the identifier generated for the
    new grant is not the identifier of a grant the network already has. *)
Theorem update_network_grant_then_revoke
  (env : Env) (context : Context) (db db1 db2 : DB) (id : string)
  (network network1 network2 : Network) :
  _get_network db id = Ok network →
  wildcard_entry network = None →
  (∀ e, e ∈ net_rbac_entries network → rbac_id e ≠ generate_uuid env) →
  update_network env context id (mkNetworkUpdate (Some true) None) db
  = (Ok network1, db1) →
  update_network env context id (mkNetworkUpdate (Some false) None) db1
  = (Ok network2, db2) →
  net_rbac_entries network2 = net_rbac_entries network
  ∧ wildcard_entry network2 = None
  ∧ _get_network db2 id = Ok network2.
Proof.
  intros Hget Hnone Hfresh H1 H2.
  destruct (_get_network_Ok db id network Hget) as [Hid _].
  destruct (update_network_kept env context db id network
              (mkNetworkUpdate (Some true) None) Hget)
    as (shared1 & entries1 & Hentries1 & Hu1); [by left|].
  rewrite (bool_decide_eq_true_2 (_ ∧ _)) in Hentries1 by done.
  rewrite H1 in Hu1. injection Hu1 as Hn1 Hdb1.
  assert (net_id network1 = id) as Hid1 by by rewrite Hn1.
  assert (net_rbac_entries network1 = entries1) as He1 by by rewrite Hn1.
  assert (_get_network db1 id = Ok network1) as Hget1.
  { rewrite Hdb1, Hn1.
    exact (_get_network_store_network db id network
             (with_network network shared1 (net_name network) entries1)
             Hget Hid). }
  assert (wildcard_entry network1
          = Some (mkRbac (generate_uuid env) "access_as_shared" "*"
                         (net_tenant_id network))) as Hwild1.
  { unfold wildcard_entry. rewrite He1, Hentries1.
    by apply wildcard_entry_app_new. }
  rewrite (update_network_revoke env context db1 id network1 _
             (mkNetworkUpdate (Some false) None) Hget1 Hwild1 eq_refl) in H2.
  destruct (shared_in_use _ _); [done|].
  cbn zeta in H2. injection H2 as <- <-.
  assert (filter (λ item, rbac_id item ≠ generate_uuid env)
                 (net_rbac_entries network1)
          = net_rbac_entries network) as Hback.
  { rewrite He1, Hentries1, filter_app. cbn.
    rewrite decide_False by (by intros H; apply H).
    rewrite app_nil_r. clear -Hfresh.
    induction (net_rbac_entries network) as [|x l IH]; [done|].
    rewrite filter_cons, decide_True by (apply Hfresh; left).
    f_equal. apply IH. intros e He. apply Hfresh. by right. }
  split; [|split].
  - cbn [_make_network_dict with_network net_rbac_entries rbac_id].
    exact Hback.
  - unfold wildcard_entry.
    cbn [_make_network_dict with_network net_rbac_entries rbac_id].
    by rewrite Hback.
  - exact (_get_network_store_network db1 id network1
             (_make_network_dict
                (with_network network1 true (net_name network1)
                   (filter (λ item, rbac_id item ≠ generate_uuid env)
                           (net_rbac_entries network1))))
             Hget1 Hid1).
Qed.

Lemma update_network_grant_then_revoke_witness :
  ∃ network2 db2, net_rbac_entries network2 = [] ∧
                  _get_network db2 "net-2" = Ok network2.
Proof.
  assert (∃ network1 db1,
            update_network demo_env tenant_1 "net-2"
              (mkNetworkUpdate (Some true) None)
              (mkDB [] [] [] [] [] [] [private_net])
            = (Ok network1, db1)
            ∧ ∃ network2 db2,
                update_network demo_env tenant_1 "net-2"
                  (mkNetworkUpdate (Some false) None) db1
                = (Ok network2, db2))
    as (network1 & db1 & E1 & network2 & db2 & E2).
  { eexists _, _. split; [vm_compute; reflexivity|].
    eexists _, _. vm_compute. reflexivity. }
  exists network2, db2.
  destruct (update_network_grant_then_revoke demo_env tenant_1
              (mkDB [] [] [] [] [] [] [private_net]) db1 db2 "net-2"
              private_net network1 network2 eq_refl eq_refl)
    as (H & _ & Hget); try done.
  intros e He. by apply elem_of_nil in He.
Defined.

(** ** Access policies on networks *)

Section PolicyFacts.
Context (env : Env).

Lemma nonempty_length {X} (l : list X) :
  (0 <? Z.of_nat (length l)) = true ↔ ∃ x, x ∈ l.
Proof.
  destruct l as [|x l]; cbn.
  - split; [done|]. intros [x Hx]. by apply elem_of_nil in Hx.
  - split; [|done]. intros _. exists x. by left.
Qed.

Lemma check_nonempty {X} (l : list X) e :
  ((∃ x, x ∈ l) → check (0 <? Z.of_nat (length l)) e = Raise e)
  ∧ (¬ (∃ x, x ∈ l) → check (0 <? Z.of_nat (length l)) e = Ok tt).
Proof.
  pose proof (nonempty_length l) as H.
  destruct (0 <? Z.of_nat (length l)); split; try done.
  - intros Hno. destruct Hno. by apply H.
  - intros Hx. apply H in Hx. done.
Qed.

End PolicyFacts.

(** X16.  Whether a tenant may lose its access to a network.  Taking away the
    access of every tenant (the wildcard) is refused exactly when the
    network has a port of a tenant that is neither the owner of the
    network nor named by one of its other shared-access grants.  Taking
    away the access of one tenant is refused exactly when the network has
    no wildcard grant and has a port of that tenant.  The ports are those
    an admin sees; the error is [InvalidSharedSetting] for the network. *)
Theorem tenant_access_removal
  (env : Env) (db : DB) (network_id net_tenant_id tenant_id : string) :
  let ports :=
    filter (λ p, port_network_id p = network_id)
           (model_query_ports env get_admin_context db) in
  let grants :=
    filter (λ e, rbac_action e = "access_as_shared")
           (network_rbac_entries db network_id) in
  let refused :=
    if String.eqb tenant_id "*"
    then ∃ p, p ∈ ports ∧ port_tenant_id p ≠ net_tenant_id
              ∧ ¬ ∃ e, e ∈ grants ∧ rbac_target_tenant e ≠ "*"
                       ∧ rbac_target_tenant e = port_tenant_id p
    else (¬ ∃ e, e ∈ grants ∧ rbac_target_tenant e = "*")
         ∧ ∃ p, p ∈ ports ∧ port_tenant_id p = tenant_id in
  (refused →
   ensure_no_tenant_ports_on_network env db network_id net_tenant_id
     tenant_id = Raise (InvalidSharedSetting network_id))
  ∧ (¬ refused →
     ensure_no_tenant_ports_on_network env db network_id net_tenant_id
       tenant_id = Ok tt).
Proof.
  intros ports grants refused. subst refused.
  unfold ensure_no_tenant_ports_on_network. fold ports. fold grants.
  destruct (String.eqb_spec tenant_id "*") as [->|Hne].
  - (* the wildcard *)
    set (left_over := filter _ ports).
    assert ((∃ p, p ∈ left_over)
            ↔ ∃ p, p ∈ ports ∧ port_tenant_id p ≠ net_tenant_id
                   ∧ ¬ ∃ e, e ∈ grants ∧ rbac_target_tenant e ≠ "*"
                            ∧ rbac_target_tenant e = port_tenant_id p)
      as Hiff.
    { subst left_over. split.
      - intros (p & Hp). apply list_elem_of_filter in Hp as [Hallowed Hp].
        exists p. split; [done|]. rewrite elem_of_app in Hallowed.
        split.
        + intros E. apply Hallowed. right. rewrite E. by left.
        + intros (e & He & Hstar & Et). apply Hallowed. left.
          rewrite <- Et. apply list_elem_of_fmap. exists e. split; [done|].
          by apply list_elem_of_filter.
      - intros (p & Hp & Howner & Hgrant). exists p.
        apply list_elem_of_filter. split; [|done].
        rewrite elem_of_app. intros [Hin|Hin].
        + apply list_elem_of_fmap in Hin as (e & Et & He).
          apply list_elem_of_filter in He as [Hstar He].
          apply Hgrant. by exists e.
        + apply list_elem_of_singleton in Hin. done. }
    destruct (check_nonempty left_over (InvalidSharedSetting network_id))
      as [Hyes Hno].
    split; intros H; [apply Hyes|apply Hno]; by rewrite Hiff.
  - (* one tenant *)
    set (wildcards := filter _ grants).
    set (theirs := filter _ ports).
    assert ((∃ e, e ∈ wildcards)
            ↔ ∃ e, e ∈ grants ∧ rbac_target_tenant e = "*") as Hw.
    { subst wildcards. split; intros (e & He); exists e.
      - apply list_elem_of_filter in He. by destruct He.
      - apply list_elem_of_filter. by destruct He. }
    assert ((∃ p, p ∈ theirs)
            ↔ ∃ p, p ∈ ports ∧ port_tenant_id p = tenant_id) as Ht.
    { subst theirs. split; intros (p & Hp); exists p.
      - apply list_elem_of_filter in Hp. by destruct Hp.
      - apply list_elem_of_filter. by destruct Hp. }
    pose proof (nonempty_length wildcards) as Hlen.
    destruct (check_nonempty theirs (InvalidSharedSetting network_id))
      as [Hyes Hno].
    destruct (0 <? Z.of_nat (length wildcards)).
    + assert (∃ e, e ∈ wildcards) as Hex by by apply Hlen.
      split; [|done]. intros [Hnone _]. destruct Hnone. by apply Hw.
    + assert (¬ ∃ e, e ∈ wildcards) as Hex.
      { intros H. apply Hlen in H. done. }
      split.
      * intros [_ Hp]. apply Hyes. by apply Ht.
      * intros Hnot. apply Hno. intros Hp. apply Hnot. split.
        -- intros He. apply Hex. by apply Hw.
        -- by apply Ht.
Qed.

Lemma tenant_access_removal_witness :
  ensure_no_tenant_ports_on_network demo_env granted_db "net-3" "tenant-1"
    "*" = Raise (InvalidSharedSetting "net-3")
  ∧ ensure_no_tenant_ports_on_network demo_env granted_db "net-3"
      "tenant-1" "tenant-2" = Ok tt.
Proof.
  split.
  - apply (tenant_access_removal demo_env granted_db "net-3" "tenant-1" "*").
    cbn beta iota zeta. exists (mkPort "port-7" "tenant-3" "net-3"
                                 "compute:nova" "vm-7" "fa:16:3e:00:00:07").
    split; [|split].
    + vm_compute. right. left.
    + done.
    + intros (e & He & Hstar & Et). vm_compute in He.
      apply elem_of_cons in He as [->|He]; [done|].
      apply elem_of_cons in He as [->|He]; [done|].
      by apply elem_of_nil in He.
  - apply (tenant_access_removal demo_env granted_db "net-3" "tenant-1"
             "tenant-2").
    cbn beta iota zeta. intros [Hnone _]. apply Hnone.
    exists (mkRbac "rbac-3" "access_as_shared" "*" "tenant-1").
    split; [|done]. vm_compute. right. left.
Defined.

(** X17.  The policy callback on networks.  A policy on another kind of object
    or of another action is never looked at, not even for the network it
    names.  For a shared-access policy on a stored network: creating or
    updating it is refused with [InvalidInput] to a caller who is neither
    an admin nor the owner of the network; creating it is otherwise
    accepted; deleting it is decided by the ports on the network alone,
    whoever the caller is; an update that keeps the target tenant is
    accepted for an admin or the owner without looking at the ports. *)
Theorem network_policy_change_rules
  (env : Env) (db : DB) (context : Context) (policy : Policy)
  (kwargs : gmap string (gmap string string)) (net : Network) :
  (∀ event object_type,
     object_type ≠ "network" ∨ policy_action policy ≠ "access_as_shared" →
     validate_network_rbac_policy_change env db event context object_type
       policy kwargs = Ok tt)
  ∧ (policy_action policy = "access_as_shared" →
     _get_network db (policy_object_id policy) = Ok net →
     (∀ event,
        event = BEFORE_CREATE ∨ event = BEFORE_UPDATE →
        ctx_is_admin context = false →
        net_tenant_id net ≠ ctx_tenant_id context →
        validate_network_rbac_policy_change env db event context "network"
          policy kwargs = Raise (InvalidInput msg_only_admins))
     ∧ (ctx_is_admin context = true
        ∨ net_tenant_id net = ctx_tenant_id context →
        validate_network_rbac_policy_change env db BEFORE_CREATE context
          "network" policy kwargs = Ok tt)
     ∧ (validate_network_rbac_policy_change env db BEFORE_DELETE context
          "network" policy kwargs
        = if String.eqb (policy_target_tenant policy) ""
          then Ok tt
          else ensure_no_tenant_ports_on_network env db (net_id net)
                 (net_tenant_id net) (policy_target_tenant policy))
     ∧ (∀ policy_update,
          ctx_is_admin context = true
          ∨ net_tenant_id net = ctx_tenant_id context →
          kwargs !! "policy_update" = Some policy_update →
          policy_update !! "target_tenant"
          = Some (policy_target_tenant policy) →
          validate_network_rbac_policy_change env db BEFORE_UPDATE context
            "network" policy kwargs = Ok tt)).
Proof.
  split.
  - intros event object_type Hother.
    unfold validate_network_rbac_policy_change.
    destruct (String.eqb_spec object_type "network") as [->|Ho]; [|done].
    destruct (String.eqb_spec (policy_action policy) "access_as_shared")
      as [Ea|Ea]; [|done].
    by destruct Hother.
  - intros Haction Hget.
    assert (∀ b, check (b && negb (String.eqb (net_tenant_id net)
                                              (ctx_tenant_id context)))
                       (InvalidInput msg_only_admins)
                 = if b && negb (String.eqb (net_tenant_id net)
                                            (ctx_tenant_id context))
                   then Raise (InvalidInput msg_only_admins) else Ok tt)
      as Hcheck by (intros b; by destruct (_ && _)).
    unfold validate_network_rbac_policy_change.
    rewrite Haction, Hget. cbn [String.eqb negb orb mbind result_bind].
    change (("network" =? "network")%string) with true.
    change (("access_as_shared" =? "access_as_shared")%string) with true.
    cbn [negb orb].
    split; [|split; [|split]].
    + intros event Hevent Hadmin Hown.
      assert (bool_decide (event ∈ [BEFORE_CREATE; BEFORE_UPDATE]) = true)
        as ->.
      { apply bool_decide_eq_true_2. destruct Hevent as [->| ->].
        - by left.
        - right. by left. }
      rewrite Hadmin. cbn [negb andb].
      by destruct (String.eqb_spec (net_tenant_id net)
                     (ctx_tenant_id context)).
    + intros Hmay.
      assert (negb (ctx_is_admin context)
              && negb (String.eqb (net_tenant_id net)
                                  (ctx_tenant_id context)) = false) as Hok.
      { destruct Hmay as [->|E]; [done|].
        rewrite E, String.eqb_refl. apply andb_false_r. }
      rewrite bool_decide_eq_true_2 by by left. rewrite Hok.
      reflexivity.
    + rewrite bool_decide_eq_false_2.
      2: { rewrite !elem_of_cons, elem_of_nil. by intros [?|[?|[]]]. }
      cbn [mbind result_bind].
      change ((BEFORE_DELETE =? BEFORE_UPDATE)%string) with false.
      change ((BEFORE_DELETE =? BEFORE_DELETE)%string) with true.
      cbn [mbind result_bind].
      by destruct (String.eqb (policy_target_tenant policy) "").
    + intros policy_update Hmay Hkw Htarget.
      assert (negb (ctx_is_admin context)
              && negb (String.eqb (net_tenant_id net)
                                  (ctx_tenant_id context)) = false) as Hok.
      { destruct Hmay as [->|E]; [done|].
        rewrite E, String.eqb_refl. apply andb_false_r. }
      rewrite bool_decide_eq_true_2 by (right; by left). rewrite Hok.
      cbn [check mbind result_bind].
      change ((BEFORE_UPDATE =? BEFORE_UPDATE)%string) with true.
      change ((BEFORE_UPDATE =? BEFORE_DELETE)%string) with false.
      unfold lookup_or_KeyError. rewrite Hkw. cbn [mbind result_bind].
      rewrite Htarget. cbn [mbind result_bind].
      by rewrite bool_decide_eq_false_2 by (by intros H; apply H).
Qed.

Lemma network_policy_change_rules_witness :
  validate_network_rbac_policy_change demo_env granted_db BEFORE_DELETE
    tenant_1 "network" wildcard_policy ∅
  = Raise (InvalidSharedSetting "net-3").
Proof.
  destruct (network_policy_change_rules demo_env granted_db tenant_1
              wildcard_policy ∅ granted_net) as [_ H].
  destruct (H eq_refl eq_refl) as (_ & _ & Hdelete & _).
  rewrite Hdelete. cbn [wildcard_policy policy_target_tenant String.eqb].
  change (("*" =? "")%string) with false. cbn iota.
  vm_compute. reflexivity.
Defined.

(** ** Bulk creation *)

Section BulkFacts.
Context {I A : Type}.

Lemma create_items_app (f : I → M A) l1 l2 objects db :
  create_items f (l1 ++ l2) objects db
  = match create_items f l1 objects db with
    | (Ok objs, db1) => create_items f l2 objs db1
    | (Raise e, db1) => (Raise e, db1)
    end.
Proof.
  revert objects db. induction l1 as [|x l1 IH]; intros objects db; [done|].
  cbn [app create_items]. unfold mbind, M_bind.
  destruct (f x db) as [[obj|e] db1]; [apply IH|done].
Qed.

Lemma create_items_length (f : I → M A) l objects db objs db' :
  create_items f l objects db = (Ok objs, db') →
  length objs = (length objects + length l)%nat.
Proof.
  revert objects db. induction l as [|x l IH]; intros objects db.
  - intros [= <- <-]. cbn. lia.
  - cbn [create_items]. unfold mbind, M_bind.
    destruct (f x db) as [[obj|e] db1]; [|done].
    intros H%IH. rewrite length_app in H. cbn in *. lia.
Qed.

End BulkFacts.

(** X18.  [_create_bulk] creates all the items or none.  The items are created
    in order, each one in the store its predecessors have left; when the
    creation of one item fails, the error is raised, the items created
    before it are undone (the store is the one the call started with) and
    the items after it are not tried.  When all succeed, one object is
    returned for each item. *)
Theorem create_bulk_all_or_nothing
  {I A : Type} (resource : string) (obj_creator : Context → I → M A)
  (context : Context) (request_items : gmap string (list I))
  (items : list I) (db : DB) :
  request_items !! (resource +:+ "s") = Some items →
  (∀ created item rest objs db1 e db2,
     items = created ++ item :: rest →
     create_items (obj_creator context) created [] db = (Ok objs, db1) →
     obj_creator context item db1 = (Raise e, db2) →
     _create_bulk resource obj_creator context request_items db
     = (Raise e, db))
  ∧ (∀ objs db',
       _create_bulk resource obj_creator context request_items db
       = (Ok objs, db') →
       length objs = length items
       ∧ create_items (obj_creator context) items [] db = (Ok objs, db'))
  ∧ (∀ e db',
       _create_bulk resource obj_creator context request_items db
       = (Raise e, db') → db' = db).
Proof.
  intros Hitems.
  unfold _create_bulk, transaction, mbind, M_bind, lift, lookup_or_KeyError.
  rewrite Hitems. split; [|split].
  - intros created item rest objs db1 e db2 -> Hcreated Hitem.
    rewrite create_items_app, Hcreated. cbn [create_items].
    unfold mbind, M_bind. by rewrite Hitem.
  - intros objs db' H.
    destruct (create_items (obj_creator context) items [] db)
      as [[objs'|e] db1] eqn:E; [|done].
    injection H as <- <-. split; [|done].
    by apply create_items_length in E.
  - intros e db' H.
    destruct (create_items (obj_creator context) items [] db)
      as [[objs'|e'] db1] eqn:E; [done|]. by injection H as _ <-.
Qed.

Lemma create_bulk_all_or_nothing_witness :
  create_subnet_bulk storing_env admin
    {[ "subnets" := [spec_v4 (net4 10 0 0 0 24) true;
                     both_cidr_and_prefixlen] ]}
    empty_db
  = (Raise (BadRequest "subnets" msg_cidr_and_prefixlen), empty_db).
Proof.
  assert (∃ row db1,
            create_items (create_subnet storing_env admin)
              [spec_v4 (net4 10 0 0 0 24) true] [] empty_db
            = (Ok [row], db1)
            ∧ db_subnets db1 = [row]) as (row & db1 & E & _).
  { eexists _, _. split; vm_compute; reflexivity. }
  assert (({[ "subnets" := [spec_v4 (net4 10 0 0 0 24) true;
                            both_cidr_and_prefixlen] ]}
             : gmap string (list SubnetSpec)) !! ("subnet" +:+ "s")
          = Some [spec_v4 (net4 10 0 0 0 24) true; both_cidr_and_prefixlen])
    as Hitems by reflexivity.
  destruct (create_bulk_all_or_nothing "subnet" (create_subnet storing_env)
              admin _ _ empty_db Hitems) as [Hfail _].
  apply (Hfail [spec_v4 (net4 10 0 0 0 24) true] both_cidr_and_prefixlen []
           [row] db1 _ db1); [done|exact E|reflexivity].
Defined.

(** ** Deleting the ports of a device *)

Section DeletePortsFacts.
Variable ipam_delete_port : Context → string → M unit.

Lemma delete_port_outcome context id db :
  delete_port ipam_delete_port context id db
  = match ipam_delete_port context id db with
    | (Ok a, db') => (Ok a, db')
    | (Raise e, _) => (Raise e, db)
    end.
Proof. done. Qed.

Lemma delete_each_app context l1 l2 db :
  delete_each ipam_delete_port context (l1 ++ l2) db
  = match delete_each ipam_delete_port context l1 db with
    | (Ok _, db1) => delete_each ipam_delete_port context l2 db1
    | (Raise e, db1) => (Raise e, db1)
    end.
Proof.
  revert db. induction l1 as [|x l1 IH]; intros db; [done|].
  cbn [app delete_each]. unfold mbind, M_bind.
  destruct (ignore_port_not_found _ db) as [[[]|e] db1]; [apply IH|done].
Qed.

Lemma delete_each_never_not_found context l db e db' :
  delete_each ipam_delete_port context l db = (Raise e, db') →
  ∀ id, e ≠ PortNotFound id.
Proof.
  revert db. induction l as [|x l IH]; intros db; [done|].
  cbn [delete_each]. unfold mbind, M_bind, ignore_port_not_found.
  rewrite delete_port_outcome.
  destruct (ipam_delete_port context x db) as [[[]|e'] db1].
  - apply IH.
  - destruct e'; try (intros [= <- <-]; done). apply IH.
Qed.

End DeletePortsFacts.

(** X19.  [delete_ports_by_device_id] never raises [PortNotFound]: a port that
    is gone when its turn comes is passed over.  It is not atomic: when
    the deletion of one port fails with another error, that error is
    raised and the ports deleted before it stay deleted, only the failed
    deletion being undone. *)
Theorem delete_ports_by_device_id_errors
  (ipam_delete_port : Context → string → M unit) (context : Context)
  (device_id : string) (network_id : option string) (db : DB) :
  (∀ e db',
     delete_ports_by_device_id ipam_delete_port context device_id network_id
       db = (Raise e, db') →
     ∀ id, e ≠ PortNotFound id)
  ∧ (∀ deleted id rest db1 e db2,
       ports_of_device db device_id network_id = deleted ++ id :: rest →
       delete_each ipam_delete_port context deleted db = (Ok tt, db1) →
       ipam_delete_port context id db1 = (Raise e, db2) →
       (∀ i, e ≠ PortNotFound i) →
       delete_ports_by_device_id ipam_delete_port context device_id
         network_id db = (Raise e, db1)).
Proof.
  unfold delete_ports_by_device_id, mbind, M_bind, get_db. split.
  - intros e db'. apply delete_each_never_not_found.
  - intros deleted id rest db1 e db2 -> Hdeleted Hfail Hother.
    rewrite delete_each_app, Hdeleted. cbn [delete_each].
    unfold mbind, M_bind, ignore_port_not_found.
    rewrite delete_port_outcome, Hfail.
    destruct e; try done. exfalso. by eapply Hother.
Qed.

Lemma delete_ports_by_device_id_errors_witness :
  delete_ports_by_device_id remove_port_but_7 admin "vm-6" None device_db
  = (Raise (OtherError "DBError"), without_port "port-6" device_db).
Proof.
  destruct (delete_ports_by_device_id_errors remove_port_but_7 admin "vm-6"
              None device_db) as [_ H].
  apply (H ["port-6"] "port-7" [] (without_port "port-6" device_db)
           (OtherError "DBError") (without_port "port-6" device_db));
    try done.
Defined.

(** X20.  With a backend that deletes the row of the port it is given, and
    raises [PortNotFound] when there is none, [delete_ports_by_device_id]
    succeeds and deletes exactly the ports of the device, on the given
    network when one is given; every other port, and every other table,
    is left as it was. *)
Theorem delete_ports_by_device_id_deletes_the_ports
  (ipam_delete_port : Context → string → M unit) (context : Context)
  (device_id : string) (network_id : option string) (db : DB) :
  (∀ id db, ipam_delete_port context id db = remove_port context id db) →
  ∃ db',
    delete_ports_by_device_id ipam_delete_port context device_id network_id
      db = (Ok tt, db')
    ∧ db_ports db'
      = filter (λ p, port_id p ∉ ports_of_device db device_id network_id)
               (db_ports db)
    ∧ db_subnetpools db' = db_subnetpools db
    ∧ db_subnets db' = db_subnets db
    ∧ db_ipallocations db' = db_ipallocations db
    ∧ db_routerports db' = db_routerports db
    ∧ db_events db' = db_events db
    ∧ db_networks db' = db_networks db.
Proof.
  intros Hbackend.
  unfold delete_ports_by_device_id, mbind, M_bind, get_db.
  generalize (ports_of_device db device_id network_id). intros ids.
  assert (∀ ids db0,
            ∃ db',
              delete_each ipam_delete_port context ids db0 = (Ok tt, db')
              ∧ db_ports db'
                = filter (λ p, port_id p ∉ ids) (db_ports db0)
              ∧ db_subnetpools db' = db_subnetpools db0
              ∧ db_subnets db' = db_subnets db0
              ∧ db_ipallocations db' = db_ipallocations db0
              ∧ db_routerports db' = db_routerports db0
              ∧ db_events db' = db_events db0
              ∧ db_networks db' = db_networks db0) as Hloop.
  { clear ids db. intros ids. induction ids as [|id ids IH]; intros db0.
    - exists db0. split; [done|]. split; [|done].
      induction (db_ports db0) as [|p l IHl]; [done|].
      rewrite filter_cons, decide_True by apply not_elem_of_nil.
      by f_equal.
    - cbn [delete_each]. unfold mbind, M_bind, ignore_port_not_found.
      rewrite delete_port_outcome, Hbackend. unfold remove_port.
      assert (filter (λ p, port_id p ∉ ids)
                     (filter (λ p, port_id p ≠ id) (db_ports db0))
              = filter (λ p, port_id p ∉ id :: ids) (db_ports db0)) as Hf.
      { induction (db_ports db0) as [|p l IHl]; [done|].
        rewrite !filter_cons.
        destruct (decide (port_id p ≠ id)) as [Hne|Heq].
        - rewrite filter_cons.
          destruct (decide (port_id p ∉ ids)) as [Hn|Hn].
          + rewrite decide_True by (rewrite not_elem_of_cons; done).
            by f_equal.
          + rewrite decide_False; [done|].
            rewrite not_elem_of_cons. by intros [_ ?].
        - rewrite decide_False; [done|].
          rewrite not_elem_of_cons. by intros [? _]. }
      destruct (existsb _ (db_ports db0)) eqn:Ex.
      + destruct (IH (without_port id db0))
          as (db' & -> & Hp & ? & ? & ? & ? & ? & ?).
        exists db'. split; [done|]. split; [|done].
        rewrite Hp. cbn [without_port db_ports]. exact Hf.
      + destruct (IH db0) as (db' & -> & Hp & ? & ? & ? & ? & ? & ?).
        exists db'. split; [done|]. split; [|done].
        rewrite Hp, <- Hf. f_equal.
        clear -Ex. induction (db_ports db0) as [|p l IHl]; [done|].
        cbn [existsb] in Ex. apply orb_false_iff in Ex as [Hp Hl].
        rewrite filter_cons, decide_True.
        * f_equal. by apply IHl.
        * intros E. rewrite E, String.eqb_refl in Hp. done. }
  apply Hloop.
Qed.

Lemma delete_ports_by_device_id_deletes_the_ports_witness :
  ∃ db',
    delete_ports_by_device_id remove_port admin "vm-6" None device_db
    = (Ok tt, db')
    ∧ db_ports db'
      = [ mkPort "port-8" "tenant-1" "net-1" "compute:nova" "vm-8"
                 "fa:16:3e:00:00:08" ].
Proof.
  destruct (delete_ports_by_device_id_deletes_the_ports remove_port admin
              "vm-6" None device_db) as (db' & E & Hp & _); [done|].
  exists db'. split; [exact E|]. rewrite Hp. vm_compute. reflexivity.
Defined.

(** ** Deleting a subnetpool *)

Section DeletePoolFacts.

Lemma _get_subnetpool_deleted db id :
  _get_subnetpool
    (with_pools db (filter (λ p, sp_id p ≠ id) (db_subnetpools db))) id
  = Raise (OtherError "SubnetPoolNotFound").
Proof.
  unfold _get_subnetpool. cbn [with_pools db_subnetpools].
  induction (db_subnetpools db) as [|p l IH]; [done|].
  rewrite filter_cons. destruct (decide (sp_id p ≠ id)) as [Hne|Heq].
  - rewrite filter_cons, decide_False by done. apply IH.
  - apply IH.
Qed.

Lemma _get_subnetpool_kept db id other :
  other ≠ id →
  _get_subnetpool
    (with_pools db (filter (λ p, sp_id p ≠ id) (db_subnetpools db))) other
  = _get_subnetpool db other.
Proof.
  intros Hne. unfold _get_subnetpool. cbn [with_pools db_subnetpools].
  induction (db_subnetpools db) as [|p l IH]; [done|].
  rewrite !filter_cons. destruct (decide (sp_id p ≠ id)) as [Hp|Hp].
  - rewrite filter_cons. destruct (decide (sp_id p = other)); [done|apply IH].
  - rewrite decide_False; [apply IH|]. intros E. apply Hp. congruence.
Qed.

End DeletePoolFacts.

(** X21.  A subnetpool can be deleted only while no subnet refers to it.  When a
    stored subnet has the pool as its [subnetpool_id], [delete_subnetpool]
    fails with [SubnetPoolDeleteError] and the store is left as it was.
    When none has, it succeeds: the pool can no longer be looked up, every
    other pool is looked up as before, the other tables are left as they
    were, and the pool table still keeps its two invariants (disjoint
    prefixes within an address scope, one default pool for each IP
    version) if it kept them before. *)
Theorem delete_subnetpool_unless_referenced
  (context : Context) (id : string) (db : DB) (subnetpool : SubnetPool) :
  _get_subnetpool db id = Ok subnetpool →
  ((∃ s, s ∈ db_subnets db ∧ subnet_subnetpool_id s = Val id) →
   delete_subnetpool context id db
   = (Raise (SubnetPoolDeleteError "Subnet pool has existing allocations"),
      db))
  ∧ ((¬ ∃ s, s ∈ db_subnets db ∧ subnet_subnetpool_id s = Val id) →
     ∃ db',
       delete_subnetpool context id db = (Ok tt, db')
       ∧ _get_subnetpool db' id = Raise (OtherError "SubnetPoolNotFound")
       ∧ (∀ other, other ≠ id →
                   _get_subnetpool db' other = _get_subnetpool db other)
       ∧ (scopes_disjoint (db_subnetpools db) →
          scopes_disjoint (db_subnetpools db'))
       ∧ (one_default_per_version (db_subnetpools db) →
          one_default_per_version (db_subnetpools db'))
       ∧ db_subnets db' = db_subnets db
       ∧ db_ports db' = db_ports db
       ∧ db_ipallocations db' = db_ipallocations db
       ∧ db_networks db' = db_networks db).
Proof.
  intros Hget.
  assert (sp_id subnetpool = id) as Hid.
  { revert Hget. unfold _get_subnetpool.
    destruct (head _) as [p|] eqn:E; [|done]. intros [= ->].
    apply head_Some_elem_of, list_elem_of_filter in E. by destruct E. }
  unfold delete_subnetpool, in_transaction, mbind, D_bind, read_db,
    lift_plugin, raise_delete, SubnetPool_delete.
  rewrite Hget. unfold _get_subnets_by_subnetpool. split.
  - intros (s & Hs & Hp).
    destruct (filter _ (db_subnets db)) as [|s' l] eqn:E; [|done].
    assert (s ∈ filter (λ s, subnet_subnetpool_id s = Val id)
                       (db_subnets db)) as Hin
      by by apply list_elem_of_filter.
    rewrite E in Hin. by apply elem_of_nil in Hin.
  - intros Hnone.
    destruct (filter _ (db_subnets db)) as [|s l] eqn:E.
    2: { destruct Hnone. exists s.
         assert (s ∈ s :: l) as Hin by left. rewrite <- E in Hin.
         apply list_elem_of_filter in Hin. by destruct Hin. }
    rewrite Hid. eexists. split; [reflexivity|].
    split; [apply _get_subnetpool_deleted|].
    split; [intros other Hne; by apply _get_subnetpool_kept|].
    cbn [with_pools db_subnetpools db_subnets db_ports db_ipallocations
           db_networks].
    split; [|split; [|done]].
    + intros Hinv p q scope Hp Hq. apply list_elem_of_filter in Hp as [_ Hp].
      apply list_elem_of_filter in Hq as [_ Hq]. by apply Hinv.
    + intros Hinv p q Hp Hq. apply list_elem_of_filter in Hp as [_ Hp].
      apply list_elem_of_filter in Hq as [_ Hq]. by apply Hinv.
Qed.

Lemma delete_subnetpool_unless_referenced_witness :
  delete_subnetpool admin "pool-a" idle_db
  = (Raise (SubnetPoolDeleteError "Subnet pool has existing allocations"),
     idle_db)
  ∧ ∃ db', delete_subnetpool admin "pool-b" idle_db = (Ok tt, db')
           ∧ _get_subnetpool db' "pool-a" = Ok pool_a.
Proof.
  split.
  - apply (delete_subnetpool_unless_referenced admin "pool-a" idle_db pool_a
             eq_refl).
    exists served_subnet. split; [by left|done].
  - destruct (delete_subnetpool_unless_referenced admin "pool-b" idle_db
                pool_b eq_refl) as [_ H].
    destruct H as (db' & E & _ & Hkept & _).
    { intros (s & Hs & Hp). apply list_elem_of_singleton in Hs as ->. done. }
    exists db'. split; [exact E|]. by rewrite Hkept.
Defined.

(** ** Deleting a subnet *)

Lemma elem_of_allocations_with_port db sid a p :
  (a, p) ∈ allocations_with_port db sid
  ↔ a ∈ db_ipallocations db ∧ alloc_subnet_id a = sid
    ∧ p ∈ db_ports db ∧ port_id p = alloc_port_id a.
Proof.
  unfold allocations_with_port. rewrite list_elem_of_bind. split.
  - intros (a' & Hin & Ha').
    apply list_elem_of_bind in Hin as (p' & Hin & Hp').
    apply list_elem_of_singleton in Hin as [= -> ->].
    apply list_elem_of_filter in Ha' as [? ?].
    apply list_elem_of_filter in Hp' as [? ?]. done.
  - intros (Ha & Hs & Hp & Hid). exists a.
    split; [|by apply list_elem_of_filter].
    apply list_elem_of_bind. exists p.
    split; [by apply list_elem_of_singleton|by apply list_elem_of_filter].
Qed.

Lemma _get_subnet_Ok db id subnet :
  _get_subnet db id = Ok subnet → subnet_id subnet = id ∧ subnet ∈ db_subnets db.
Proof.
  unfold _get_subnet. destruct (head _) as [s|] eqn:E; [|done].
  intros [= ->]. apply head_Some_elem_of, list_elem_of_filter in E.
  by destruct E.
Qed.

Lemma _get_subnet_deleted db id subnets :
  _get_subnet (set_subnets db (filter (λ s, subnet_id s ≠ id) subnets)) id
  = Raise (SubnetNotFound id).
Proof.
  unfold _get_subnet. cbn [set_subnets db_subnets].
  induction subnets as [|s l IH]; [done|].
  rewrite filter_cons. destruct (decide (subnet_id s ≠ id)) as [Hne|Heq].
  - rewrite filter_cons, decide_False by done. apply IH.
  - apply IH.
Qed.

Lemma head_fst_None {X Y} (l : list (X * Y)) : head l.*1 = None → l = [].
Proof. by destruct l. Qed.

(** The allocations of stored ports that are left on a subnet once the
    allocations [gone] have been deleted. *)
Lemma elem_of_allocations_left db sid (gone : list IPAllocation) a p :
  (a, p) ∈ allocations_with_port
             (set_ipallocations db
                (filter (λ a, a ∉ gone) (db_ipallocations db))) sid
  ↔ (a, p) ∈ allocations_with_port db sid ∧ a ∉ gone.
Proof.
  rewrite !elem_of_allocations_with_port.
  cbn [set_ipallocations db_ipallocations db_ports].
  rewrite list_elem_of_filter. tauto.
Qed.

Lemma allocations_with_port_set_subnets db sid subnets :
  allocations_with_port (set_subnets db subnets) sid
  = allocations_with_port db sid.
Proof. done. Qed.

Section DeleteSubnetFacts.
Variable registry_notify : string → string → Context → string → D unit.
Variable ipam_delete_subnet : Context → string → D unit.

Lemma delete_subnet_vetoed context id db subnet errors db1 :
  _get_subnet db id = Ok subnet →
  registry_notify "subnet" BEFORE_DELETE context id db
  = (Raise (CallbackFailure errors), db1) →
  delete_subnet registry_notify ipam_delete_subnet context id db
  = (Raise (SubnetInUse id (Some errors)), db).
Proof.
  intros Hget Hveto.
  unfold delete_subnet, in_transaction, mbind, D_bind, read_db, lift_result,
    _check_subnet_not_used.
  by rewrite Hget, Hveto.
Qed.

(** [delete_subnet] of a subnet that is not auto-addressed, after a
    notification that lets it pass. *)
Lemma delete_subnet_plain context id db subnet :
  _get_subnet db id = Ok subnet →
  registry_notify "subnet" BEFORE_DELETE context id db = (Ok tt, db) →
  is_auto_address_subnet (subnet_ipv6_address_mode subnet)
                         (subnet_ipv6_ra_mode subnet) = false →
  ∀ db1,
    db1 = set_ipallocations db
            (filter (λ a, a ∉ (filter (λ ap, port_device_owner ap.2
                                            ∈ AUTO_DELETE_PORT_OWNERS)
                                      (allocations_with_port db id)).*1)
                    (db_ipallocations db)) →
    delete_subnet registry_notify ipam_delete_subnet context id db
    = match _subnet_check_ip_allocations db1 id with
      | Some _ => (Raise (SubnetInUse id None), db)
      | None =>
          match ipam_delete_subnet context id
                  (set_subnets db1
                     (filter (λ s, subnet_id s ≠ id) (db_subnets db))) with
          | (Ok a, db') => (Ok a, db')
          | (Raise e, _) => (Raise e, db)
          end
      end.
Proof.
  intros Hget Hnotify Hauto db1 ->.
  destruct (_get_subnet_Ok db id subnet Hget) as [Hid _].
  unfold delete_subnet, in_transaction, mbind, D_bind, read_db, lift_result,
    _check_subnet_not_used, mret, D_ret, session_delete_allocations,
    session_delete_subnet, raise_delete.
  rewrite Hget, Hnotify, Hauto, Hid. cbn [negb].
  destruct (_subnet_check_ip_allocations _ id); [done|].
  cbn [set_ipallocations db_subnets]. by destruct (ipam_delete_subnet _ _ _)
    as [[[]|e] db'].
Qed.

(** [delete_subnet] of an auto-addressed subnet, after a notification that
    lets it pass. *)
Lemma delete_subnet_auto context id db subnet :
  _get_subnet db id = Ok subnet →
  registry_notify "subnet" BEFORE_DELETE context id db = (Ok tt, db) →
  is_auto_address_subnet (subnet_ipv6_address_mode subnet)
                         (subnet_ipv6_ra_mode subnet) = true →
  ∀ db1,
    db1 = set_ipallocations db
            (filter (λ a, a ∉ (allocations_with_port db id).*1)
                    (db_ipallocations db)) →
    delete_subnet registry_notify ipam_delete_subnet context id db
    = match _subnet_check_ip_allocations_internal_router_ports db id with
      | Raise e => (Raise e, db)
      | Ok _ =>
          match ipam_delete_subnet context id
                  (set_subnets db1
                     (filter (λ s, subnet_id s ≠ id) (db_subnets db))) with
          | (Ok a, db') => (Ok a, db')
          | (Raise e, _) => (Raise e, db)
          end
      end.
Proof.
  intros Hget Hnotify Hauto db1 ->.
  destruct (_get_subnet_Ok db id subnet Hget) as [Hid _].
  unfold delete_subnet, in_transaction, mbind, D_bind, read_db, lift_result,
    _check_subnet_not_used, mret, D_ret, session_delete_allocations,
    session_delete_subnet, raise_delete.
  rewrite Hget, Hnotify, Hauto, Hid. cbn [negb].
  destruct (_subnet_check_ip_allocations_internal_router_ports db id)
    as [[]|e]; [|done].
  cbn [set_ipallocations db_subnets]. by destruct (ipam_delete_subnet _ _ _)
    as [[[]|e] db'].
Qed.

End DeleteSubnetFacts.

Lemma allocations_left_in_use db id (gone : list IPAllocation) a p :
  (a, p) ∈ allocations_with_port db id → a ∉ gone →
  ∃ alloc,
    _subnet_check_ip_allocations
      (set_ipallocations db (filter (λ a, a ∉ gone) (db_ipallocations db)))
      id = Some alloc.
Proof.
  intros Hin Hleft. unfold _subnet_check_ip_allocations.
  assert ((a, p) ∈ allocations_with_port
                     (set_ipallocations db
                        (filter (λ a, a ∉ gone) (db_ipallocations db))) id)
    as Hstill by by apply elem_of_allocations_left.
  clear Hin.
  destruct (allocations_with_port
              (set_ipallocations db
                 (filter (λ a, a ∉ gone) (db_ipallocations db))) id)
    as [|[a' p'] l]; [by apply elem_of_nil in Hstill|].
  by exists a'.
Qed.

Lemma elem_of_dhcp_allocations db id a :
  a ∈ (filter (λ ap, port_device_owner ap.2 ∈ AUTO_DELETE_PORT_OWNERS)
              (allocations_with_port db id)).*1
  ↔ ∃ p, (a, p) ∈ allocations_with_port db id
         ∧ port_device_owner p ∈ AUTO_DELETE_PORT_OWNERS.
Proof.
  rewrite list_elem_of_fmap. split.
  - intros ([a' p] & -> & Hin). apply list_elem_of_filter in Hin as [? ?].
    by exists p.
  - intros (p & Hin & Howner). exists (a, p). split; [done|].
    by apply list_elem_of_filter.
Qed.

Lemma port_of_id db p p' :
  NoDup (port_id <$> db_ports db) →
  p ∈ db_ports db → p' ∈ db_ports db → port_id p = port_id p' → p = p'.
Proof.
  induction (db_ports db) as [|x l IH]; [by intros _ ?%elem_of_nil|].
  cbn [fmap list_fmap]. rewrite NoDup_cons. intros [Hx Hl] Hp Hp' Hid.
  apply elem_of_cons in Hp as [->|Hp]; apply elem_of_cons in Hp' as [->|Hp'].
  - done.
  - destruct Hx. rewrite Hid. apply list_elem_of_fmap. by exists p'.
  - destruct Hx. rewrite <- Hid. apply list_elem_of_fmap. by exists p.
  - by apply IH.
Qed.

(** X22.  A subnet in use is not deleted.  [delete_subnet] fails with
    [SubnetInUse], leaving the store as it was: when a callback vetoes the
    BEFORE_DELETE notification, the veto being given as the reason; for a
    subnet that is not auto-addressed, when a stored port that is not a
    DHCP port holds an allocation on the subnet; for an auto-addressed
    subnet, when a router-interface port holds one. *)
Theorem delete_subnet_in_use
  (registry_notify : string → string → Context → string → D unit)
  (ipam_delete_subnet : Context → string → D unit)
  (context : Context) (id : string) (db : DB) (subnet : Subnet) :
  _get_subnet db id = Ok subnet →
  (∀ errors db1,
     registry_notify "subnet" BEFORE_DELETE context id db
     = (Raise (CallbackFailure errors), db1) →
     delete_subnet registry_notify ipam_delete_subnet context id db
     = (Raise (SubnetInUse id (Some errors)), db))
  ∧ (registry_notify "subnet" BEFORE_DELETE context id db = (Ok tt, db) →
     ∀ a p,
       a ∈ db_ipallocations db → alloc_subnet_id a = id →
       p ∈ db_ports db → port_id p = alloc_port_id a →
       (is_auto_address_subnet (subnet_ipv6_address_mode subnet)
                               (subnet_ipv6_ra_mode subnet) = false
        ∧ ∀ p', p' ∈ db_ports db → port_id p' = alloc_port_id a →
                port_device_owner p' ∉ AUTO_DELETE_PORT_OWNERS)
       ∨ (is_auto_address_subnet (subnet_ipv6_address_mode subnet)
                                 (subnet_ipv6_ra_mode subnet) = true
          ∧ port_device_owner p ∈ ROUTER_INTERFACE_OWNERS) →
       delete_subnet registry_notify ipam_delete_subnet context id db
       = (Raise (SubnetInUse id None), db)).
Proof.
  intros Hget. split.
  - intros errors db1 Hveto. eapply delete_subnet_vetoed; eauto.
  - intros Hnotify a p Ha Hsub Hp Hid [[Hauto Huser]|[Hauto Hrouter]].
    + rewrite (delete_subnet_plain registry_notify ipam_delete_subnet context
                 id db subnet Hget Hnotify Hauto _ eq_refl).
      destruct (allocations_left_in_use db id
                  (filter (λ ap, port_device_owner ap.2
                                 ∈ AUTO_DELETE_PORT_OWNERS)
                          (allocations_with_port db id)).*1 a p)
        as [alloc ->]; [by apply elem_of_allocations_with_port| |done].
      rewrite elem_of_dhcp_allocations. intros (p' & Hin & Hdhcp).
      apply elem_of_allocations_with_port in Hin as (_ & _ & Hp' & Hid').
      by apply (Huser p').
    + rewrite (delete_subnet_auto registry_notify ipam_delete_subnet context
                 id db subnet Hget Hnotify Hauto _ eq_refl).
      unfold _subnet_check_ip_allocations_internal_router_ports.
      assert ((a, p) ∈ filter (λ ap, port_device_owner ap.2
                                     ∈ ROUTER_INTERFACE_OWNERS)
                              (allocations_with_port db id)) as Hin.
      { apply list_elem_of_filter. split; [done|].
        by apply elem_of_allocations_with_port. }
      destruct (filter _ (allocations_with_port db id)) as [|x l];
        [by apply elem_of_nil in Hin|done].
Qed.

Lemma delete_subnet_in_use_witness :
  delete_subnet notify_veto ipam_delete_pass admin "subnet-1" idle_db
  = (Raise (SubnetInUse "subnet-1" (Some "router interface")), idle_db)
  ∧ delete_subnet notify_pass ipam_delete_pass admin "subnet-1" busy_db
    = (Raise (SubnetInUse "subnet-1" None), busy_db).
Proof.
  split.
  - destruct (delete_subnet_in_use notify_veto ipam_delete_pass admin
                "subnet-1" idle_db served_subnet eq_refl) as [H _].
    by apply (H "router interface" idle_db).
  - destruct (delete_subnet_in_use notify_pass ipam_delete_pass admin
                "subnet-1" busy_db served_subnet eq_refl) as [_ H].
    apply (H eq_refl
             (mkAlloc (mkAddr 4 (ipv4 10 0 0 5)) "subnet-1" "port-v" "net-1")
             vm_port).
    + right. left.
    + done.
    + right. left.
    + done.
    + left. split; [done|]. intros p' Hp' Hid.
      apply elem_of_cons in Hp' as [->|Hp']; [done|].
      apply list_elem_of_singleton in Hp' as ->.
      unfold AUTO_DELETE_PORT_OWNERS. rewrite list_elem_of_singleton. done.
Defined.

(** X23.  What a successful [delete_subnet] has done when the IPAM backend is
    called, the notification having left the store as it was: the subnet
    can no longer be looked up, no stored port holds an allocation on it,
    and nothing else has been deleted: the ports are all there (the
    allocations of the DHCP ports are deleted, not the ports), and so are
    the allocations on other subnets and the other subnets.  If the subnet
    is not auto-addressed, every allocation a stored port held on it was
    held by a DHCP port. *)
Theorem delete_subnet_deletes
  (registry_notify : string → string → Context → string → D unit)
  (ipam_delete_subnet : Context → string → D unit)
  (context : Context) (id : string) (db db' : DB) (subnet : Subnet) :
  _get_subnet db id = Ok subnet →
  registry_notify "subnet" BEFORE_DELETE context id db = (Ok tt, db) →
  delete_subnet registry_notify ipam_delete_subnet context id db
  = (Ok tt, db') →
  ∃ db1,
    ipam_delete_subnet context id db1 = (Ok tt, db')
    ∧ _get_subnet db1 id = Raise (SubnetNotFound id)
    ∧ allocations_with_port db1 id = []
    ∧ db_ports db1 = db_ports db
    ∧ (∀ a, a ∈ db_ipallocations db → alloc_subnet_id a ≠ id →
            a ∈ db_ipallocations db1)
    ∧ (∀ s, s ∈ db_subnets db → subnet_id s ≠ id → s ∈ db_subnets db1)
    ∧ (is_auto_address_subnet (subnet_ipv6_address_mode subnet)
                              (subnet_ipv6_ra_mode subnet) = false →
       ∀ a p,
         a ∈ db_ipallocations db → alloc_subnet_id a = id →
         p ∈ db_ports db → port_id p = alloc_port_id a →
         ∃ p', p' ∈ db_ports db ∧ port_id p' = alloc_port_id a
               ∧ port_device_owner p' ∈ AUTO_DELETE_PORT_OWNERS).
Proof.
  intros Hget Hnotify.
  destruct (is_auto_address_subnet (subnet_ipv6_address_mode subnet)
                                   (subnet_ipv6_ra_mode subnet)) eqn:Hauto.
  - (* auto-addressed *)
    rewrite (delete_subnet_auto registry_notify ipam_delete_subnet context
               id db subnet Hget Hnotify Hauto _ eq_refl).
    destruct (_subnet_check_ip_allocations_internal_router_ports db id)
      as [[]|e]; [|done].
    destruct (ipam_delete_subnet context id _) as [[[]|e] db2] eqn:Hipam;
      [|done].
    intros [= <-]. eexists. split; [exact Hipam|].
    split; [apply _get_subnet_deleted|].
    split; [|split; [done|split; [|split; [|done]]]].
    + rewrite allocations_with_port_set_subnets.
      apply elem_of_nil_inv. intros [a p] Hin.
      apply elem_of_allocations_left in Hin as [Hin Hleft].
      apply Hleft. apply list_elem_of_fmap. by exists (a, p).
    + intros a Ha Hother. cbn [set_subnets set_ipallocations db_ipallocations].
      apply list_elem_of_filter. split; [|done].
      rewrite list_elem_of_fmap. intros ([a' p] & -> & Hin).
      apply elem_of_allocations_with_port in Hin as (_ & ? & _). done.
    + intros s Hs Hother. cbn [set_subnets db_subnets].
      by apply list_elem_of_filter.
  - (* not auto-addressed *)
    rewrite (delete_subnet_plain registry_notify ipam_delete_subnet context
               id db subnet Hget Hnotify Hauto _ eq_refl).
    destruct (_subnet_check_ip_allocations _ id) eqn:Hcheck; [done|].
    apply head_fst_None in Hcheck.
    destruct (ipam_delete_subnet context id _) as [[[]|e] db2] eqn:Hipam;
      [|done].
    intros [= <-]. eexists. split; [exact Hipam|].
    split; [apply _get_subnet_deleted|].
    split; [|split; [done|split; [|split]]].
    + by rewrite allocations_with_port_set_subnets.
    + intros a Ha Hother. cbn [set_subnets set_ipallocations db_ipallocations].
      apply list_elem_of_filter. split; [|done].
      rewrite elem_of_dhcp_allocations. intros (p & Hin & _).
      apply elem_of_allocations_with_port in Hin as (_ & ? & _). done.
    + intros s Hs Hother. cbn [set_subnets db_subnets].
      by apply list_elem_of_filter.
    + intros _ a p Ha Hsub Hp Hid.
      destruct (decide (a ∈ (filter (λ ap, port_device_owner ap.2
                                           ∈ AUTO_DELETE_PORT_OWNERS)
                                    (allocations_with_port db id)).*1))
        as [Hgone|Hleft].
      * apply elem_of_dhcp_allocations in Hgone as (p' & Hin & Hdhcp).
        apply elem_of_allocations_with_port in Hin as (_ & _ & ? & ?).
        by exists p'.
      * assert ((a, p) ∈ allocations_with_port
                           (set_ipallocations db
                              (filter (λ a, a ∉ (filter
                                 (λ ap, port_device_owner ap.2
                                        ∈ AUTO_DELETE_PORT_OWNERS)
                                 (allocations_with_port db id)).*1)
                                 (db_ipallocations db))) id) as Hin.
        { apply elem_of_allocations_left. split; [|done].
          by apply elem_of_allocations_with_port. }
        rewrite Hcheck in Hin. by apply elem_of_nil in Hin.
Qed.

Lemma delete_subnet_deletes_witness :
  ∃ db1, _get_subnet db1 "subnet-1" = Raise (SubnetNotFound "subnet-1")
         ∧ db_ports db1 = [dhcp_port].
Proof.
  assert (∃ db',
            delete_subnet notify_pass ipam_delete_pass admin "subnet-1"
              idle_db = (Ok tt, db')) as [db' E].
  { eexists. vm_compute. reflexivity. }
  destruct (delete_subnet_deletes notify_pass ipam_delete_pass admin
              "subnet-1" idle_db db' served_subnet eq_refl eq_refl E)
    as (db1 & _ & Hgone & _ & Hports & _).
  exists db1. by split.
Defined.

(** X24.  For a subnet that is not auto-addressed, in a store whose ports have
    distinct ids, [delete_subnet] is refused exactly when
    [_subnet_get_user_allocation] finds an allocation: it then fails with
    [SubnetInUse] and leaves the store as it was; when it finds none, the
    subnet and the allocations of the DHCP ports on it are deleted and the
    IPAM backend is called, whose failure alone can still undo the
    deletion. *)
Theorem delete_subnet_user_allocation
  (registry_notify : string → string → Context → string → D unit)
  (ipam_delete_subnet : Context → string → D unit)
  (context : Context) (id : string) (db : DB) (subnet : Subnet) :
  _get_subnet db id = Ok subnet →
  registry_notify "subnet" BEFORE_DELETE context id db = (Ok tt, db) →
  is_auto_address_subnet (subnet_ipv6_address_mode subnet)
                         (subnet_ipv6_ra_mode subnet) = false →
  NoDup (port_id <$> db_ports db) →
  (∀ alloc,
     _subnet_get_user_allocation db id = Some alloc →
     delete_subnet registry_notify ipam_delete_subnet context id db
     = (Raise (SubnetInUse id None), db))
  ∧ (_subnet_get_user_allocation db id = None →
     ∃ db1,
       delete_subnet registry_notify ipam_delete_subnet context id db
       = match ipam_delete_subnet context id db1 with
         | (Ok a, db') => (Ok a, db')
         | (Raise e, _) => (Raise e, db)
         end
       ∧ _get_subnet db1 id = Raise (SubnetNotFound id)
       ∧ allocations_with_port db1 id = []
       ∧ db_ports db1 = db_ports db).
Proof.
  intros Hget Hnotify Hauto Hdistinct.
  rewrite (delete_subnet_plain registry_notify ipam_delete_subnet context
             id db subnet Hget Hnotify Hauto _ eq_refl).
  unfold _subnet_get_user_allocation. split.
  - intros alloc Huser.
    assert (∃ a p, (a, p) ∈ allocations_with_port db id
                   ∧ port_device_owner p ∉ AUTO_DELETE_PORT_OWNERS)
      as (a & p & Hin & Howner).
    { destruct (filter _ (allocations_with_port db id)) as [|[a p] l] eqn:E;
        [done|].
      exists a, p. assert ((a, p) ∈ (a, p) :: l) as Hin by left.
      rewrite <- E in Hin. apply list_elem_of_filter in Hin. by destruct Hin. }
    destruct (allocations_left_in_use db id
                (filter (λ ap, port_device_owner ap.2
                               ∈ AUTO_DELETE_PORT_OWNERS)
                        (allocations_with_port db id)).*1 a p)
      as [alloc' ->]; [done| |done].
    rewrite elem_of_dhcp_allocations. intros (p' & Hin' & Hdhcp).
    apply elem_of_allocations_with_port in Hin as (_ & _ & Hp & Hid).
    apply elem_of_allocations_with_port in Hin' as (_ & _ & Hp' & Hid').
    assert (p = p') as <-; [|done].
    apply (port_of_id db); [done..|congruence].
  - intros Hnone. apply head_fst_None in Hnone.
    assert (allocations_with_port
              (set_ipallocations db
                 (filter (λ a, a ∉ (filter
                    (λ ap, port_device_owner ap.2 ∈ AUTO_DELETE_PORT_OWNERS)
                    (allocations_with_port db id)).*1)
                    (db_ipallocations db))) id = []) as Hleft.
    { apply elem_of_nil_inv. intros [a p] Hin.
      apply elem_of_allocations_left in Hin as [Hin Hkept].
      apply Hkept. apply elem_of_dhcp_allocations. exists p.
      split; [done|].
      destruct (decide (port_device_owner p ∈ AUTO_DELETE_PORT_OWNERS))
        as [?|Huser]; [done|].
      assert ((a, p) ∈ filter (λ ap, port_device_owner ap.2
                                     ∉ AUTO_DELETE_PORT_OWNERS)
                              (allocations_with_port db id)) as Hu
        by by apply list_elem_of_filter.
      rewrite Hnone in Hu. by apply elem_of_nil in Hu. }
    unfold _subnet_check_ip_allocations. rewrite Hleft. cbn [fmap list_fmap head].
    eexists. split; [reflexivity|].
    split; [apply _get_subnet_deleted|]. by split.
Qed.

Lemma delete_subnet_user_allocation_witness :
  delete_subnet notify_pass ipam_delete_pass admin "subnet-1" busy_db
  = (Raise (SubnetInUse "subnet-1" None), busy_db).
Proof.
  destruct (delete_subnet_user_allocation notify_pass ipam_delete_pass admin
              "subnet-1" busy_db served_subnet eq_refl eq_refl eq_refl)
    as [H _].
  - compute_done.
  - by apply (H (mkAlloc (mkAddr 4 (ipv4 10 0 0 5)) "subnet-1" "port-v"
                         "net-1")).
Defined.

(** ** Deleting a network *)

Lemma filter_network_ports id (ports : list Port) :
  head (filter (λ p, port_network_id p = id)
          (filter (λ p, ¬ (port_network_id p = id
                           ∧ port_device_owner p ∈ AUTO_DELETE_PORT_OWNERS))
                  ports)) = None →
  filter (λ p, ¬ (port_network_id p = id
                  ∧ port_device_owner p ∈ AUTO_DELETE_PORT_OWNERS)) ports
  = filter (λ p, port_network_id p ≠ id) ports
  ∧ ∀ p, p ∈ ports → port_network_id p = id →
         port_device_owner p ∈ AUTO_DELETE_PORT_OWNERS.
Proof.
  induction ports as [|p l IH]; [intros _; split; [done|]|].
  { intros p Hp. by apply elem_of_nil in Hp. }
  rewrite !filter_cons.
  destruct (decide (¬ (port_network_id p = id
                       ∧ port_device_owner p ∈ AUTO_DELETE_PORT_OWNERS)))
    as [Hkeep|Hdrop].
  - rewrite filter_cons.
    destruct (decide (port_network_id p = id)) as [Hon|Hoff]; [done|].
    intros H. destruct (IH H) as [Heq Hall].
    rewrite decide_True by done. split; [by f_equal|].
    intros q [->|Hq]%elem_of_cons; [done|by apply Hall].
  - intros H. destruct (IH H) as [Heq Hall].
    assert (port_network_id p = id
            ∧ port_device_owner p ∈ AUTO_DELETE_PORT_OWNERS) as [Hon Hdhcp].
    { destruct (decide (port_network_id p = id));
        destruct (decide (port_device_owner p ∈ AUTO_DELETE_PORT_OWNERS));
        try done; destruct Hdrop; by intros [? ?]. }
    rewrite decide_False by (by intros Hne; apply Hne).
    split; [done|].
    intros q [->|Hq]%elem_of_cons; [done|by apply Hall].
Qed.

Lemma _get_network_deleted db id networks :
  _get_network (set_networks db (filter (λ n, net_id n ≠ id) networks)) id
  = Raise network_not_found.
Proof.
  unfold _get_network. cbn [set_networks db_networks].
  induction networks as [|n l IH]; [done|].
  rewrite filter_cons. destruct (decide (net_id n ≠ id)) as [Hne|Heq].
  - rewrite filter_cons, decide_False by done. apply IH.
  - apply IH.
Qed.

Section DeleteNetworkFacts.
Variable registry_notify : string → string → Context → string → D unit.
Variable ipam_delete_subnet : Context → string → D unit.

Lemma delete_network_ports_in_use context id db network p :
  _get_network db id = Ok network →
  p ∈ db_ports db → port_network_id p = id →
  port_device_owner p ∉ AUTO_DELETE_PORT_OWNERS →
  delete_network registry_notify ipam_delete_subnet context id db
  = (Raise (NetworkInUse id), db).
Proof.
  intros Hget Hp Hon Huser.
  unfold delete_network, delete_auto_ports, in_transaction, mbind, D_bind,
    read_db, lift_plugin, raise_delete.
  rewrite Hget. cbn [set_ports set_ipallocations db_ports].
  assert (p ∈ filter (λ p, port_network_id p = id)
                (filter (λ p, ¬ (port_network_id p = id
                                 ∧ port_device_owner p
                                   ∈ AUTO_DELETE_PORT_OWNERS))
                        (db_ports db))) as Hin.
  { apply list_elem_of_filter. split; [done|].
    apply list_elem_of_filter. split; [|done]. by intros [_ ?]. }
  destruct (filter _ (filter _ (db_ports db))) as [|x l];
    [by apply elem_of_nil in Hin|done].
Qed.

(** Collaborators that read the store and do not write it. *)
Hypothesis notify_reads :
  ∀ resource event context subnet_id db,
    (registry_notify resource event context subnet_id db).2 = db.
Hypothesis ipam_reads :
  ∀ context id db, (ipam_delete_subnet context id db).2 = db.

Lemma delete_subnet_keeps context id db db' :
  delete_subnet registry_notify ipam_delete_subnet context id db
  = (Ok tt, db') →
  db_ports db' = db_ports db
  ∧ db_networks db' = db_networks db
  ∧ ∀ s, s ∈ db_subnets db' ↔ s ∈ db_subnets db ∧ subnet_id s ≠ id.
Proof.
  unfold delete_subnet, in_transaction, mbind, D_bind, read_db, lift_result,
    _check_subnet_not_used, mret, D_ret, session_delete_allocations,
    session_delete_subnet, raise_delete.
  destruct (_get_subnet db id) as [subnet|e] eqn:Hget; [|done].
  destruct (_get_subnet_Ok db id subnet Hget) as [Hid _].
  pose proof (notify_reads "subnet" BEFORE_DELETE context id db) as Hn.
  destruct (registry_notify "subnet" BEFORE_DELETE context id db)
    as [[[]|e] db1]; cbn [snd] in Hn; subst db1; [|by destruct e].
  destruct (is_auto_address_subnet _ _).
  - destruct (_subnet_check_ip_allocations_internal_router_ports db id)
      as [[]|e]; [|done].
    cbn [negb].
    match goal with
    | |- context [ipam_delete_subnet ?c ?i ?d] =>
        pose proof (ipam_reads c i d) as Hi;
        destruct (ipam_delete_subnet c i d) as [[[]|e] db2];
        cbn [snd] in Hi; subst db2; [|done]
    end.
    intros [= <-].
    cbn [set_subnets set_ipallocations db_ports db_networks db_subnets].
    split; [done|]. split; [done|]. intros s.
    rewrite list_elem_of_filter, Hid. tauto.
  - cbn [negb]. destruct (_subnet_check_ip_allocations _ id); [done|].
    match goal with
    | |- context [ipam_delete_subnet ?c ?i ?d] =>
        pose proof (ipam_reads c i d) as Hi;
        destruct (ipam_delete_subnet c i d) as [[[]|e] db2];
        cbn [snd] in Hi; subst db2; [|done]
    end.
    intros [= <-].
    cbn [set_subnets set_ipallocations db_ports db_networks db_subnets].
    split; [done|]. split; [done|]. intros s.
    rewrite list_elem_of_filter, Hid. tauto.
Qed.

Lemma delete_subnets_keeps context ids db db' :
  delete_subnets registry_notify ipam_delete_subnet context ids db
  = (Ok tt, db') →
  db_ports db' = db_ports db
  ∧ db_networks db' = db_networks db
  ∧ ∀ s, s ∈ db_subnets db' → s ∈ db_subnets db ∧ subnet_id s ∉ ids.
Proof.
  revert db. induction ids as [|id ids IH]; intros db.
  - intros [= <-]. split; [done|]. split; [done|]. intros s Hs.
    split; [done|]. apply not_elem_of_nil.
  - cbn [delete_subnets]. unfold mbind, D_bind.
    destruct (delete_subnet _ _ context id db) as [[[]|e] db1] eqn:E; [|done].
    apply delete_subnet_keeps in E as (Hp & Hn & Hs).
    intros H. apply IH in H as (Hp' & Hn' & Hs').
    split; [congruence|]. split; [congruence|]. intros s Hin.
    apply Hs' in Hin as [Hin Hnot]. apply Hs in Hin as [Hin Hne].
    split; [done|]. rewrite not_elem_of_cons. by split.
Qed.

Lemma delete_network_done context id db db' :
  delete_network registry_notify ipam_delete_subnet context id db
  = (Ok tt, db') →
  _get_network db' id = Raise network_not_found
  ∧ db_ports db' = filter (λ p, port_network_id p ≠ id) (db_ports db)
  ∧ (∀ p, p ∈ db_ports db → port_network_id p = id →
          port_device_owner p ∈ AUTO_DELETE_PORT_OWNERS)
  ∧ (∀ s, s ∈ db_subnets db' →
          s ∈ db_subnets db ∧ subnet_network_id s ≠ id)
  ∧ (∀ n, n ∈ db_networks db' ↔ n ∈ db_networks db ∧ net_id n ≠ id).
Proof.
  unfold delete_network, delete_auto_ports, in_transaction, mbind, D_bind,
    read_db, lift_plugin, raise_delete, session_delete_network, mret, D_ret.
  destruct (_get_network db id) as [network|e] eqn:Hget; [|done].
  destruct (_get_network_Ok db id network Hget) as [Hid _].
  cbn [set_ports set_ipallocations db_ports].
  destruct (head (filter _ (filter _ (db_ports db)))) eqn:Hhead; [done|].
  apply filter_network_ports in Hhead as [Hports Hdhcp].
  destruct (delete_subnets _ _ context _ _) as [[[]|e] db1] eqn:E; [|done].
  apply delete_subnets_keeps in E as (Hp & Hn & Hs).
  intros [= <-]. cbn [set_networks db_ports db_subnets db_networks].
  split; [rewrite Hid; apply _get_network_deleted|].
  split; [by rewrite Hp|]. split; [done|]. split.
  - intros s Hin. apply Hs in Hin as [Hin Hnot].
    cbn [set_ports set_ipallocations db_subnets] in Hin.
    split; [done|]. intros Hon.
    apply Hnot. apply list_elem_of_fmap. exists s. split; [done|].
    unfold _get_subnets_by_network.
    cbn [set_ports set_ipallocations db_subnets].
    by apply list_elem_of_filter.
  - intros n. rewrite list_elem_of_filter, Hn, Hid.
    cbn [set_ports set_ipallocations db_networks]. tauto.
Qed.

End DeleteNetworkFacts.

(** X25.  A network that still has a port other than a DHCP port is not deleted:
    [delete_network] fails with [NetworkInUse], and the store is left as it
    was, the DHCP ports of the network included. *)
Theorem delete_network_in_use
  (registry_notify : string → string → Context → string → D unit)
  (ipam_delete_subnet : Context → string → D unit)
  (context : Context) (id : string) (db : DB) (network : Network)
  (p : Port) :
  _get_network db id = Ok network →
  p ∈ db_ports db → port_network_id p = id →
  port_device_owner p ∉ AUTO_DELETE_PORT_OWNERS →
  delete_network registry_notify ipam_delete_subnet context id db
  = (Raise (NetworkInUse id), db).
Proof. apply delete_network_ports_in_use. Qed.

Lemma delete_network_in_use_witness :
  delete_network notify_pass ipam_delete_pass admin "net-1" busy_db
  = (Raise (NetworkInUse "net-1"), busy_db).
Proof.
  apply (delete_network_in_use notify_pass ipam_delete_pass admin "net-1"
           busy_db (mkNetwork "net-1" "tenant-1" "blue" false []) vm_port).
  - reflexivity.
  - right. left.
  - reflexivity.
  - unfold AUTO_DELETE_PORT_OWNERS. rewrite list_elem_of_singleton. done.
Defined.

(** X26.  What a successful [delete_network] has done, with collaborators that
    do not write the store: the network can no longer be looked up; all
    its ports, which were DHCP ports, and all its subnets are deleted; the
    ports and the subnets that are left were there before and belong to
    other networks, and the other networks are all there. *)
Theorem delete_network_deletes
  (registry_notify : string → string → Context → string → D unit)
  (ipam_delete_subnet : Context → string → D unit)
  (context : Context) (id : string) (db db' : DB) :
  (∀ resource event context subnet_id db,
     (registry_notify resource event context subnet_id db).2 = db) →
  (∀ context id db, (ipam_delete_subnet context id db).2 = db) →
  delete_network registry_notify ipam_delete_subnet context id db
  = (Ok tt, db') →
  _get_network db' id = Raise network_not_found
  ∧ db_ports db' = filter (λ p, port_network_id p ≠ id) (db_ports db)
  ∧ (∀ p, p ∈ db_ports db → port_network_id p = id →
          port_device_owner p ∈ AUTO_DELETE_PORT_OWNERS)
  ∧ (∀ s, s ∈ db_subnets db' →
          s ∈ db_subnets db ∧ subnet_network_id s ≠ id)
  ∧ (∀ n, n ∈ db_networks db' ↔ n ∈ db_networks db ∧ net_id n ≠ id).
Proof. intros Hnotify Hipam. by apply delete_network_done. Qed.

Lemma delete_network_deletes_witness :
  ∃ db', delete_network notify_pass ipam_delete_pass admin "net-1" idle_db
         = (Ok tt, db')
         ∧ db_ports db' = [] ∧ db_networks db' = [].
Proof.
  assert (∃ db',
            delete_network notify_pass ipam_delete_pass admin "net-1" idle_db
            = (Ok tt, db')) as [db' E].
  { eexists. vm_compute. reflexivity. }
  exists db'. split; [exact E|].
  destruct (delete_network_deletes notify_pass ipam_delete_pass admin "net-1"
              idle_db db') as (_ & Hports & _ & _ & Hnets); try done.
  split; [by rewrite Hports|].
  destruct (db_networks db') as [|n l]; [done|].
  assert (n ∈ n :: l) as Hin by left. apply Hnets in Hin as [Hin Hne].
  apply list_elem_of_singleton in Hin as ->. done.
Defined.
